(* ===== verification/_CoqProject ===== *)
-Q . S2P
Prelude.v
Flt.v
NdArray.v
DRModel.v
BkgMachine.v
HostRun.v
Simulator.v
Interp.v
Viewers.v
Pipeline.v
RigRun.v
