(* ===== verification/Prelude.v ===== *)
(** * A verification development for the Mock_XUV acquisition plugins

    The repository (src/src/pymodaq_plugins_MockXUV) has three parts that
    interact through the host acquisition framework:

    - the hardware simulators: [Mock_SingleShot] (hardware/cmos_simulator.py)
      produces interleaved pump-on/pump-off camera bursts with a random
      phase, and a stabilisation signal whose phase follows the same
      controller field [FirstShotIsPumpOn]; [HHG_Spectrum]
      (hardware/hhg_spectrum.py) holds a stored XUV spectrum;
    - the viewer plugins: [DAQ_2DViewer_MockCMOS] and
      [DAQ_2DViewer_MockStabCamera] call the simulator in [grab_data],
      add noise and emit images, pump-on/off means and a quick-look dR/R;
      [DAQ_1DViewer_XUVSpectrum] adds noise to the stored spectrum and
      shifts it with [np.interp];
    - the data-mixer model [DataMixerModelDeltaR] (models/dR_model.py),
      which receives the data the host gathered from the detectors, finds
      which parity of the burst is "pump on" by comparing the means of the
      even and odd shots of an on/off signal, captures a background on
      request, and computes the shot-averaged (on - off) / off.

    ** Files and what they model

    - [Prelude] (this file): the result type for Python exceptions
      ([pyerr]: ValueError, IndexError, AttributeError) with its bind
      notation [x <-? c ;; k], Python's slices [l[::2]] and [l[1::2]]
      ([evens], [odds]), the burst [tile2 k a b] = [a; b; a; b; ...], the
      generic list lemmas the components share and the hint databases
      [xuv] and [xuv_rw].
    - [Flt]: numpy's float64 as exact rationals extended with +inf, -inf
      and NaN: total operations, comparison false on NaN, the setoid [≡]
      (rationals up to [Qeq]) with its [Proper] instances, [fsum] and
      [fmean] (numpy's mean: NaN on no element), range lemmas.
    - [NdArray]: numpy 2-D arrays as [mat] (column count and rows) with
      well-formedness, row slices, broadcasting of element-wise operations
      ([bcast], raising ValueError on incompatible shapes), [mean(axis=0)],
      the mean of all elements, [np.vstack], [np.tile], [np.flip],
      [np.roll], [np.hstack], transpose, constant arrays.
    - [DRModel], Module [DeltaR]: models/dR_model.py.  The state of
      [DataMixerModelDeltaR] is the Record [model] (bkg_poff, bkg_pon,
      doing_bkg, the four parameters); [ini_model], [update_settings],
      [update_data_list], [do_bkg] and [process_dte] return the new state,
      the data emitted and the host calls made ([effect]: a snap, a
      parameter change), or the exception raised.  Theorems C1, C2, C5-C11,
      C24, C25: the dR/R of every branch, the capture, the errors, the
      empty burst the spec rejects, the start-up without a 1-D detector.
    - [BkgMachine]: the model with its host as a step relation [cstep]
      (button clicks, acquisitions, raised exceptions); the invariant that
      both backgrounds are set together (C4), a refinement of the spec's
      Idle/CapturingNext machine (C3), the synchronous re-entrance of
      [setValue(False)] at line 77 (C22), releasing the button (C23),
      the [get_data] click resetting the detector choice (C31).
    - [HostRun]: the host serving the snaps the model asks for: the queue
      ([hstate]: the model and the pending snaps), one acquisition
      ([acquire]), the queue served with a feed of bundles ([drain]), a
      click ([hclick]).  Termination of the queue within
      [pending + doing_bkg] acquisitions (C26), completion of an armed
      capture (C27), the two acquisitions one click costs with a notifying
      host (C28).
    - [Simulator]: hardware/cmos_simulator.py ([MockSingleShot]: [init],
      [grab_XUV], [grab_stab], the invariants of the controller, C20-C21)
      and hardware/hhg_spectrum.py ([HHGSpectrum]).
    - [Interp]: [np.interp] on rationals, its bounds and its behaviour on a
      grid shifted by a whole number of pixels.
    - [Viewers]: the three plugins under daq_viewer_plugins/, each a Module
      ([MockCMOS], [MockStab], [XUVSpectrum]) whose Record holds
      [self.controller], the axes and the settings, with [ini_attributes],
      [commit_settings], [ini_detector], [set_axes], [take_background],
      [grab_data], [close] and [stop]; C12-C19, C29 (the axes set at
      [ini_detector] go stale when [chunk_size] changes), and C32 (the
      CMOS quick-look dR/R is the model's [delta_r]).
    - [Pipeline]: the rig of the two cameras on one shared controller
      ([Rig.rig] holds it once), its start-up [ini_rig], a snap running
      both grabs in either order.
    - [RigRun]: the rig over its lifetime: its events (a snap in either
      order, a settings edit followed by [commit_settings]) as the
      transition function [rig_step], the reachable rigs [rig_reach] and
      the invariant [rig_inv] they all satisfy (C30).

    ** Choices

    The random draws ([random.choice], [np.random.random_sample],
    [np.random.rand], [np.random.randn]) are arguments of the operations,
    so every theorem holds for every draw.  The only fuel is that of
    [HostRun.drain], the host serving its queue; C26 proves that the fuel
    [load s] (the pending snaps plus one for an armed capture) is enough
    whatever the bundles and the exceptions, so no run is cut short.  Every
    other recursion is structural on a list.  The arithmetic is exact: a
    theorem whose conclusion could depend on float64 rounding is stated
    only for inputs on which every float64 operation the code performs is
    exact (C6: integer frames with [k * |x| < 2^53]).

    ** What is not modelled

    - floating-point rounding, outside the exact cases above;
    - the arithmetic of pymodaq's [DataWithAxes] at line 92 of
      dR_model.py: the model applies numpy's broadcasting to the arrays it
      holds, which is what it computes when the two operands have one
      shape (every theorem about line 92 but C8 is about operands of one
      shape; C8's bursts of 5 or more odd shots already fail in numpy);
      how the library treats operands of different shapes that numpy can
      broadcast is not modelled, and no theorem depends on it;
    - negative values of the viewers' [int] parameters [chunk_size] and
      [sleep_time] (no minimum in [params]): the settings hold [nat], so
      the model covers non-negative values only; negative ones make
      [np.tile] or [time.sleep] raise;
    - [time.sleep] itself, GUI parameter trees, signal emission and
      plotting (modelled as the data they carry), HDF5 and .npy loading
      (the loaded arrays are inputs);
    - [gaussian_fit] (lines 14-15 of dR_model.py: unused, and built on the
      library's [gauss1D], an exponential the rational model has no value
      for) and the plugins' [main(__file__)] entry points (they start the
      host's GUI);
    - the host framework itself, modelled only where it calls the code:
      clicks, snaps, the shared controller, the grab order, settings
      edits.  Which data the data mixer can name as the on/off signal is
      part of the host: [update_data_list] offers only 1-D names, so the
      2-D stabilisation image cannot be chosen through the list, and the
      development proves nothing about dR/R of the full chain. *)

From stdpp Require Export base list sets strings.


Declare Scope xuv_scope.
Delimit Scope xuv_scope with xuv.

Create HintDb xuv.
Create Rewrite HintDb xuv_rw.

(** ** Python exceptions as values *)

(** The exceptions the modelled code can raise: numpy's broadcasting
    [ValueError], [IndexError] on an empty list, [AttributeError] on a
    lookup that returned [None]. *)
Inductive pyerr :=
  | ValueError (what : string)
  | IndexError (what : string)
  | AttributeError (what : string).

Inductive result (A : Type) :=
  | Ok (a : A)
  | Err (e : pyerr).
Arguments Ok {A} a.
Arguments Err {A} e.

Definition rbind {A B} (r : result A) (k : A -> result B) : result B :=
  match r with Ok a => k a | Err e => Err e end.

Notation "x <-? c ;; k" := (rbind c (fun x => k))
  (at level 100, c at next level, right associativity) : xuv_scope.

Definition is_ok {A} (r : result A) : bool :=
  match r with Ok _ => true | Err _ => false end.

Lemma rbind_ok {A B} (r : result A) (k : A -> result B) (b : B) :
  rbind r k = Ok b <-> exists a, r = Ok a /\ k a = Ok b.
Proof.
  destruct r as [a|e]; simpl; split.
  - eauto.
  - intros (a' & [= ->] & H). exact H.
  - discriminate.
  - intros (a' & ? & _). discriminate.
Qed.

(** ** Python's strided slices [l[::2]] and [l[1::2]] *)

Fixpoint evens {A} (l : list A) : list A :=
  match l with
  | x :: _ :: t => x :: evens t
  | l' => l'
  end.

Definition odds {A} (l : list A) : list A :=
  match l with [] => [] | _ :: t => evens t end.

Section slices.
Context {A : Type}.
Implicit Types l : list A.

Lemma evens_cons2 (x y : A) l : evens (x :: y :: l) = x :: evens l.
Proof. reflexivity. Qed.

Lemma odds_cons2 (x y : A) l : odds (x :: y :: l) = y :: odds l.
Proof. destruct l as [|z [|w l]]; reflexivity. Qed.

(** The two slices of a list of even length have the same length, half of it. *)
Lemma length_evens_odds_even l :
  Nat.Even (length l) -> length (evens l) = length (odds l) /\
                         length l = 2 * length (evens l).
Proof.
  induction l as [l IH] using (induction_ltof1 _ (@length A)); unfold ltof in IH.
  destruct l as [|x [|y l]]; intros Hev.
  - simpl. lia.
  - destruct Hev as [k Hk]. simpl in Hk. lia.
  - rewrite odds_cons2, evens_cons2. simpl.
    destruct (IH l) as [H1 H2]; [simpl; lia| |].
    + destruct Hev as [k Hk]. exists (k - 1). simpl in Hk. lia.
    + lia.
Qed.

(** An odd length leaves one more element in the even slice. *)
Lemma length_evens_odds_odd l :
  Nat.Odd (length l) -> length (evens l) = S (length (odds l)).
Proof.
  induction l as [l IH] using (induction_ltof1 _ (@length A)); unfold ltof in IH.
  destruct l as [|x [|y l]]; intros Hod.
  - destruct Hod as [k Hk]. simpl in Hk. lia.
  - reflexivity.
  - rewrite odds_cons2, evens_cons2. simpl. f_equal. apply IH; [simpl; lia|].
    destruct Hod as [k Hk]. exists (k - 1). simpl in Hk. lia.
Qed.

Lemma length_evens_odds l : length (evens l) + length (odds l) = length l.
Proof.
  induction l as [l IH] using (induction_ltof1 _ (@length A)); unfold ltof in IH.
  destruct l as [|x [|y l]]; [done|done|].
  rewrite evens_cons2, odds_cons2. simpl. rewrite <- (IH l) by (simpl; lia). lia.
Qed.

Lemma evens_app_even l1 l2 :
  Nat.Even (length l1) -> evens (l1 ++ l2) = evens l1 ++ evens l2.
Proof.
  induction l1 as [l1 IH] using (induction_ltof1 _ (@length A)); unfold ltof in IH.
  destruct l1 as [|x [|y l1]]; intros Hev.
  - reflexivity.
  - destruct Hev as [k Hk]. simpl in Hk. lia.
  - simpl. f_equal. apply IH; [simpl; lia|].
    destruct Hev as [k Hk]. exists (k - 1). simpl in Hk. lia.
Qed.

Lemma odds_app_even l1 l2 :
  Nat.Even (length l1) -> odds (l1 ++ l2) = odds l1 ++ odds l2.
Proof.
  induction l1 as [l1 IH] using (induction_ltof1 _ (@length A)); unfold ltof in IH.
  destruct l1 as [|x [|y l1]]; intros Hev.
  - reflexivity.
  - destruct Hev as [k Hk]. simpl in Hk. lia.
  - change ((x :: y :: l1) ++ l2) with (x :: y :: (l1 ++ l2)).
    rewrite !odds_cons2. simpl. f_equal. apply IH; [simpl; lia|].
    destruct Hev as [k Hk]. exists (k - 1). simpl in Hk. lia.
Qed.

(** Rotating a list of even length by one full pair permutes each slice. *)
Lemma evens_rotate2 (x y : A) l :
  Nat.Even (length l) -> evens (l ++ [x; y]) ≡ₚ evens (x :: y :: l).
Proof.
  intros Hev. rewrite evens_app_even by exact Hev. simpl.
  rewrite Permutation_app_comm. reflexivity.
Qed.

Lemma odds_rotate2 (x y : A) l :
  Nat.Even (length l) -> odds (l ++ [x; y]) ≡ₚ odds (x :: y :: l).
Proof.
  intros Hev. rewrite odds_app_even by exact Hev. rewrite (odds_cons2 x y l).
  change (odds [x; y]) with [y].
  rewrite Permutation_app_comm. reflexivity.
Qed.

Lemma evens_fmap {B} (f : A -> B) l : evens (f <$> l) = f <$> evens l.
Proof.
  induction l as [l IH] using (induction_ltof1 _ (@length A)); unfold ltof in IH.
  destruct l as [|x [|y l]]; [done|done|]. simpl. f_equal. apply IH. simpl. lia.
Qed.

Lemma odds_fmap {B} (f : A -> B) l : odds (f <$> l) = f <$> odds l.
Proof. destruct l as [|x l]; [done|]. apply evens_fmap. Qed.

Lemma evens_sublist l : sublist (evens l) l.
Proof.
  induction l as [l IH] using (induction_ltof1 _ (@length A)); unfold ltof in IH.
  destruct l as [|x [|y l]]; [done|done|].
  simpl. apply sublist_skip, sublist_cons, IH. simpl. lia.
Qed.

Lemma odds_sublist l : sublist (odds l) l.
Proof. destruct l as [|x l]; [done|]. apply sublist_cons, evens_sublist. Qed.

Lemma concat_perm (ls1 ls2 : list (list A)) : ls1 ≡ₚ ls2 -> concat ls1 ≡ₚ concat ls2.
Proof.
  induction 1 as [|x l1 l2 _ IH|x y l|l1 l2 l3 _ IH1 _ IH2]; simpl.
  - done.
  - by rewrite IH.
  - rewrite !app_assoc. apply Permutation_app_tail, Permutation_app_comm.
  - by etrans.
Qed.

Lemma Forall_sublist_of (P : A -> Prop) l1 l2 :
  sublist l1 l2 -> Forall P l2 -> Forall P l1.
Proof.
  induction 1 as [|x l1 l2 _ IH|x l1 l2 _ IH]; intros H; [done| |];
    inversion H; subst; auto.
Qed.

Lemma Forall_evens (P : A -> Prop) l : Forall P l -> Forall P (evens l).
Proof. apply Forall_sublist_of, evens_sublist. Qed.

Lemma Forall_odds (P : A -> Prop) l : Forall P l -> Forall P (odds l).
Proof. apply Forall_sublist_of, odds_sublist. Qed.

(** Element [i] of [l[::2]] is element [2 i] of [l], of [l[1::2]] element [2 i + 1]. *)
Lemma lookup_evens l (i : nat) : evens l !! i = l !! (2 * i).
Proof.
  revert l. induction i as [|i IH]; intros l; destruct l as [|x [|y l]]; try done.
  rewrite evens_cons2. replace (2 * S i) with (S (S (2 * i))) by lia. apply IH.
Qed.

(** Pairing a list with a function of the index, as numpy pairs an
    array with a freshly drawn one of its shape. *)
Lemma zip_with_fmap_seq {B C} (f : A -> B -> C) (h : nat -> B) l :
  zip_with f l (h <$> seq 0 (length l)) = imap (fun j x => f x (h j)) l.
Proof.
  apply list_eq. intros i. rewrite lookup_zip_with, list_lookup_imap, list_lookup_fmap.
  destruct (l !! i) eqn:E; [|done]. simpl.
  rewrite lookup_seq_lt by (apply lookup_lt_Some in E; lia). done.
Qed.

Lemma fmap_zip_uncurry {B C} (f : A -> B -> C) l (k : list B) :
  (fun '(x, y) => f x y) <$> zip l k = zip_with f l k.
Proof. revert k. induction l as [|x l IH]; intros [|y k]; simpl; by f_equal. Qed.

Lemma lookup_odds l (i : nat) : odds l !! i = l !! (2 * i + 1).
Proof.
  destruct l as [|x l]; [done|]. unfold odds. rewrite lookup_evens.
  replace (2 * i + 1) with (S (2 * i)) by lia. done.
Qed.

End slices.

Lemma even_double (i : nat) : Nat.even (2 * i) = true.
Proof. rewrite Nat.even_mul. done. Qed.

Lemma even_double_S (i : nat) : Nat.even (2 * i + 1) = false.
Proof. rewrite Nat.even_add, Nat.even_mul. done. Qed.

Lemma lookup_fmap_seq0 {A} (f : nat -> A) (k i : nat) :
  (f <$> seq 0 k) !! i = if decide (i < k) then Some (f i) else None.
Proof.
  rewrite list_lookup_fmap. case_decide.
  - by rewrite lookup_seq_lt.
  - by rewrite lookup_seq_ge by lia.
Qed.

Lemma zip_with_fmap_seq0 {A B C} (f : A -> B -> C) (h1 : nat -> A) (h2 : nat -> B) (k : nat) :
  zip_with f (h1 <$> seq 0 k) (h2 <$> seq 0 k) = (fun i => f (h1 i) (h2 i)) <$> seq 0 k.
Proof.
  apply list_eq. intros i. rewrite lookup_zip_with, !lookup_fmap_seq0. by case_decide.
Qed.

#[export] Hint Rewrite even_double even_double_S : xuv_rw.

(** ** [np.tile] of a two-row block: [x; y] repeated [n] times *)

Definition tile2 {A} (n : nat) (x y : A) : list A := concat (replicate n [x; y]).

Section tile2.
Context {A : Type}.

Lemma tile2_S (n : nat) (x y : A) : tile2 (S n) x y = x :: y :: tile2 n x y.
Proof. reflexivity. Qed.

Lemma length_tile2 (n : nat) (x y : A) : length (tile2 n x y) = 2 * n.
Proof. induction n as [|n IH]; [done|]. rewrite tile2_S. simpl. lia. Qed.

Lemma evens_tile2 (n : nat) (x y : A) : evens (tile2 n x y) = replicate n x.
Proof. induction n as [|n IH]; [done|]. rewrite tile2_S, evens_cons2. simpl. by f_equal. Qed.

Lemma odds_tile2 (n : nat) (x y : A) : odds (tile2 n x y) = replicate n y.
Proof. induction n as [|n IH]; [done|]. rewrite tile2_S, odds_cons2. simpl. by f_equal. Qed.

Lemma fmap_tile2 {B} (f : A -> B) (n : nat) (x y : A) :
  f <$> tile2 n x y = tile2 n (f x) (f y).
Proof.
  induction n as [|n IH]; [done|]. rewrite !tile2_S.
  change (f <$> x :: y :: tile2 n x y) with (f x :: f y :: (f <$> tile2 n x y)).
  by rewrite IH.
Qed.

Lemma Forall_tile2 (P : A -> Prop) (n : nat) (x y : A) :
  P x -> P y -> Forall P (tile2 n x y).
Proof. intros Hx Hy. induction n as [|n IH]; [done|]. rewrite tile2_S. by repeat constructor. Qed.

Lemma tile2_even (n : nat) (x y : A) : Nat.Even (length (tile2 n x y)).
Proof. rewrite length_tile2. by exists n. Qed.

Lemma tile2_snoc (n : nat) (x y : A) : tile2 (S n) x y = tile2 n x y ++ [x; y].
Proof. unfold tile2. rewrite replicate_S_end, concat_app. done. Qed.

Lemma lookup_tile2 (n j : nat) (x y : A) :
  tile2 n x y !! j = if decide (j < 2 * n) then Some (if Nat.even j then x else y) else None.
Proof.
  revert j. induction n as [|n IH]; intros j; [by case_decide; [lia|]|].
  rewrite tile2_S. destruct j as [|[|j]]; [by case_decide; [|lia]..|].
  simpl. rewrite IH. repeat case_decide; done || lia.
Qed.

(** One more element of the first kind at the end moves to the front. *)
Lemma tile2_app_single (n : nat) (x y : A) : tile2 n x y ++ [x] = x :: tile2 n y x.
Proof. induction n as [|n IH]; [done|]. rewrite !tile2_S. simpl. by rewrite IH. Qed.
End tile2.

#[export] Hint Rewrite @evens_cons2 @odds_cons2 @evens_tile2 @odds_tile2 @length_tile2
  @fmap_tile2 : xuv_rw.
