(* ===== verification/Flt.v ===== *)
(** * numpy float64 values as extended rationals

    A value is a finite rational, +inf, -inf or NaN.  The operations follow
    IEEE 754 on the special values (x/0 is +-inf or NaN, inf - inf is NaN,
    NaN absorbs everything, every comparison with NaN is false) and are
    exact on finite values: rounding is not modelled.  Zero is unsigned:
    the zeros the modelled code divides by come from subtractions, which
    give +0.  Two values are equivalent ([≡]) when they are the same
    special value or rationals equal up to [Qeq]. *)

From S2P Require Import Prelude.
From Stdlib Require Import QArith Qfield Lqa.
Local Close Scope Q_scope.

Inductive flt :=
  | Num (q : Q)
  | PInf
  | NInf
  | NaN.

Declare Scope flt_scope.
Delimit Scope flt_scope with F.
Bind Scope flt_scope with flt.

(** ** Equivalence *)

Definition flt_eq (x y : flt) : Prop :=
  match x, y with
  | Num a, Num b => (a == b)%Q
  | PInf, PInf | NInf, NInf | NaN, NaN => True
  | _, _ => False
  end.

#[export] Instance flt_equiv : Equiv flt := flt_eq.

#[export] Instance flt_equivalence : Equivalence (≡@{flt}).
Proof.
  split.
  - intros [a| | |]; hnf; simpl; [apply Qeq_refl|..]; exact I.
  - intros [a| | |] [b| | |]; hnf; simpl; try tauto. apply Qeq_sym.
  - intros [a| | |] [b| | |] [c| | |] H1 H2; hnf in H1, H2 |- *; simpl in *;
      try tauto.
    exact (Qeq_trans _ _ _ H1 H2).
Qed.

Lemma num_equiv (a b : Q) : Num a ≡ Num b <-> (a == b)%Q.
Proof. reflexivity. Qed.

#[export] Instance Num_proper : Proper (Qeq ==> (≡)) Num.
Proof. intros a b H. exact H. Qed.

(** ** Operations *)

Definition fneg (x : flt) : flt :=
  match x with
  | Num a => Num (- a)
  | PInf => NInf
  | NInf => PInf
  | NaN => NaN
  end.

Definition fadd (x y : flt) : flt :=
  match x, y with
  | NaN, _ | _, NaN => NaN
  | PInf, NInf | NInf, PInf => NaN
  | PInf, _ | _, PInf => PInf
  | NInf, _ | _, NInf => NInf
  | Num a, Num b => Num (a + b)
  end.

Definition fsub (x y : flt) : flt := fadd x (fneg y).

(** The infinity of the sign of a comparison, NaN for zero. *)
Definition inf_of (c : comparison) : flt :=
  match c with Gt => PInf | Lt => NInf | Eq => NaN end.

Definition flip_cmp (c : comparison) : comparison :=
  match c with Gt => Lt | Lt => Gt | Eq => Eq end.

Definition fmul (x y : flt) : flt :=
  match x, y with
  | NaN, _ | _, NaN => NaN
  | Num a, Num b => Num (a * b)
  | Num a, PInf | PInf, Num a => inf_of (a ?= 0)%Q
  | Num a, NInf | NInf, Num a => inf_of (flip_cmp (a ?= 0)%Q)
  | PInf, PInf | NInf, NInf => PInf
  | PInf, NInf | NInf, PInf => NInf
  end.

Definition fdiv (x y : flt) : flt :=
  match x, y with
  | NaN, _ | _, NaN => NaN
  | Num a, Num b =>
      match (b ?= 0)%Q with
      | Eq => inf_of (a ?= 0)%Q
      | _ => Num (a / b)
      end
  | Num _, (PInf | NInf) => Num 0
  | PInf, Num b => match (b ?= 0)%Q with Lt => NInf | _ => PInf end
  | NInf, Num b => match (b ?= 0)%Q with Lt => PInf | _ => NInf end
  | (PInf | NInf), (PInf | NInf) => NaN
  end.

(** [x > y] as numpy computes it: false as soon as one side is NaN. *)
Definition fgt (x y : flt) : bool :=
  match x, y with
  | Num a, Num b => match (a ?= b)%Q with Gt => true | _ => false end
  | PInf, (Num _ | NInf) => true
  | Num _, NInf => true
  | _, _ => false
  end.

Definition is_nan (x : flt) : bool :=
  match x with NaN => true | _ => false end.

Definition of_nat (n : nat) : flt := Num (inject_Z (Z.of_nat n)).

Notation "- x" := (fneg x) : flt_scope.
Infix "+" := fadd : flt_scope.
Infix "-" := fsub : flt_scope.
Infix "*" := fmul : flt_scope.
Infix "/" := fdiv : flt_scope.
Infix ">?" := fgt (at level 70, no associativity) : flt_scope.

(** numpy's [sum] (0.0 on no element) and [mean] (sum over count, so NaN
    on no element, with numpy's "Mean of empty slice" warning). *)
Definition fsum (l : list flt) : flt := foldr fadd (Num 0) l.
Definition fmean (l : list flt) : flt := fdiv (fsum l) (of_nat (length l)).

(** ** Compatibility with [≡] *)

Ltac flt_hnf :=
  cbv [base.equiv flt_equiv flt_eq fneg fadd fsub fmul fdiv fgt inf_of flip_cmp] in *.

Lemma qcmp_compat (a b : Q) : (a == b)%Q -> (a ?= 0)%Q = (b ?= 0)%Q.
Proof. intros H. apply Qcompare_comp; [exact H | reflexivity]. Qed.

#[export] Instance fneg_proper : Proper ((≡) ==> (≡)) fneg.
Proof.
  intros [a| | |] [b| | |] H; flt_hnf; try tauto. now rewrite H.
Qed.

#[export] Instance fadd_proper : Proper ((≡) ==> (≡) ==> (≡)) fadd.
Proof.
  intros [a| | |] [a'| | |] Ha [b| | |] [b'| | |] Hb; flt_hnf; try tauto.
  now rewrite Ha, Hb.
Qed.

#[export] Instance fsub_proper : Proper ((≡) ==> (≡) ==> (≡)) fsub.
Proof. intros x x' Hx y y' Hy. unfold fsub. now rewrite Hx, Hy. Qed.

#[export] Instance fmul_proper : Proper ((≡) ==> (≡) ==> (≡)) fmul.
Proof.
  intros [a| | |] [a'| | |] Ha [b| | |] [b'| | |] Hb; flt_hnf; try tauto;
    rewrite ?(qcmp_compat _ _ Ha), ?(qcmp_compat _ _ Hb); repeat case_match; try tauto; try reflexivity.
  now rewrite Ha, Hb.
Qed.

#[export] Instance fdiv_proper : Proper ((≡) ==> (≡) ==> (≡)) fdiv.
Proof.
  intros [a| | |] [a'| | |] Ha [b| | |] [b'| | |] Hb; flt_hnf; try tauto;
    rewrite ?(qcmp_compat _ _ Ha), ?(qcmp_compat _ _ Hb); repeat case_match; try tauto; try reflexivity;
    simplify_eq; now rewrite Ha, Hb.
Qed.

#[export] Instance fgt_proper : Proper ((≡) ==> (≡) ==> eq) fgt.
Proof.
  intros [a| | |] [a'| | |] Ha [b| | |] [b'| | |] Hb; flt_hnf; try tauto.
  now rewrite (Qcompare_comp a a' Ha b b' Hb).
Qed.

(** ** Algebra of the operations *)

Lemma fadd_comm (x y : flt) : (x + y)%F ≡ (y + x)%F.
Proof. destruct x, y; flt_hnf; try tauto. apply Qplus_comm. Qed.

Lemma fadd_assoc (x y z : flt) : (x + (y + z))%F ≡ ((x + y) + z)%F.
Proof. destruct x, y, z; flt_hnf; try tauto. apply Qplus_assoc. Qed.

Lemma fadd_0_l (x : flt) : (Num 0 + x)%F ≡ x.
Proof. destruct x; flt_hnf; try tauto. apply Qplus_0_l. Qed.

Lemma fadd_nan_r (x : flt) : (x + NaN)%F = NaN.
Proof. by destruct x. Qed.

Lemma fdiv_num_nz (a b : Q) : ~ (b == 0)%Q -> (Num a / Num b)%F = Num (a / b).
Proof.
  intros Hb. simpl. destruct (Qcompare_spec b 0) as [H|H|H]; [contradiction|done|done].
Qed.

Lemma fdiv_num_zero (a b : Q) : (b == 0)%Q -> (Num a / Num b)%F = inf_of (a ?= 0)%Q.
Proof. intros Hb. simpl. apply Qeq_alt in Hb. by rewrite Hb. Qed.

Lemma fgt_num (a b : Q) : (Num a >? Num b)%F = true <-> (b < a)%Q.
Proof.
  simpl. destruct (Qcompare_spec a b) as [H|H|H]; split; try done;
    intros; exfalso; lra.
Qed.

Lemma fgt_nan_r (x : flt) : (x >? NaN)%F = false.
Proof. by destruct x. Qed.

Lemma fgt_nan_l (x : flt) : (NaN >? x)%F = false.
Proof. by destruct x. Qed.

Lemma of_nat_pos (n : nat) : 0 < n -> ~ (inject_Z (Z.of_nat n) == 0)%Q.
Proof. intros Hn. change 0%Q with (inject_Z 0). rewrite inject_Z_injective. lia. Qed.

#[export] Hint Resolve fadd_comm fadd_assoc fadd_0_l : xuv.
#[export] Hint Rewrite fadd_nan_r fgt_nan_r fgt_nan_l : xuv_rw.

(** ** Sums and means *)

#[export] Instance fsum_proper : Proper ((≡) ==> (≡)) fsum.
Proof.
  intros l l' H. induction H as [|x y l l' Hxy Hl IH]; [reflexivity|].
  simpl. now rewrite Hxy, IH.
Qed.

#[export] Instance fsum_perm : Proper ((≡ₚ) ==> (≡)) fsum.
Proof.
  intros l l' H. induction H as [|x l l' _ IH|x y l|l l' l'' _ IH1 _ IH2]; simpl.
  - reflexivity.
  - now rewrite IH.
  - rewrite !fadd_assoc. now rewrite (fadd_comm x y).
  - etrans; eauto.
Qed.

#[export] Instance fmean_proper : Proper ((≡) ==> (≡)) fmean.
Proof.
  intros l l' H. unfold fmean. now rewrite H.
Qed.

#[export] Instance fmean_perm : Proper ((≡ₚ) ==> (≡)) fmean.
Proof.
  intros l l' H. unfold fmean. now rewrite H.
Qed.

Lemma fsum_app (l1 l2 : list flt) : fsum (l1 ++ l2) ≡ (fsum l1 + fsum l2)%F.
Proof.
  induction l1 as [|x l1 IH]; simpl.
  - symmetry. apply fadd_0_l.
  - rewrite IH. apply fadd_assoc.
Qed.

Lemma fsum_num (l : list Q) : fsum (Num <$> l) = Num (foldr Qplus 0%Q l).
Proof.
  induction l as [|a l IH]; [done|].
  change (fsum (Num <$> a :: l)) with (Num a + fsum (Num <$> l))%F. by rewrite IH.
Qed.

Lemma fsum_nan (l : list flt) : NaN ∈ l -> fsum l = NaN.
Proof.
  induction l as [|x l IH]; intros Hin; [by apply elem_of_nil in Hin|].
  apply elem_of_cons in Hin as [<-|Hin]; [done|].
  change (fsum (x :: l)) with (x + fsum l)%F. rewrite IH by exact Hin. apply fadd_nan_r.
Qed.

Lemma fsum_replicate (n : nat) (a : Q) :
  fsum (replicate n (Num a)) ≡ Num (inject_Z (Z.of_nat n) * a).
Proof.
  induction n as [|n IH]; [flt_hnf; simpl; ring|].
  change (fsum (replicate (S n) (Num a))) with (Num a + fsum (replicate n (Num a)))%F.
  rewrite IH. flt_hnf. rewrite Nat2Z.inj_succ, <- Z.add_1_l, inject_Z_plus. ring.
Qed.

(** The mean of [n > 0] copies of a finite value is that value. *)
Lemma fmean_replicate (n : nat) (a : Q) :
  0 < n -> fmean (replicate n (Num a)) ≡ Num a.
Proof.
  intros Hn. unfold fmean. rewrite fsum_replicate, length_replicate. unfold of_nat.
  rewrite fdiv_num_nz by now apply of_nat_pos.
  flt_hnf. field. now apply of_nat_pos.
Qed.

(** The mean of no value is NaN. *)
Lemma fmean_nil : fmean [] = NaN.
Proof. reflexivity. Qed.

(** ** Deciding [≡] *)

#[export] Instance flt_equiv_dec : RelDecision (≡@{flt}).
Proof.
  intros [a| | |] [b| | |];
    first [exact (Qeq_dec a b) | left; exact I | right; intros []].
Defined.

#[export] Instance flt_list_equiv_dec : RelDecision (≡@{list flt}).
Proof.
  intros l k. destruct (decide (Forall2 (≡) l k)) as [H'|H'];
    [left|right]; rewrite list_equiv_Forall2; exact H'.
Defined.

(** ** NaN and replicated values *)

Lemma equiv_nan (x : flt) : x ≡ NaN -> x = NaN.
Proof. destruct x; flt_hnf; tauto. Qed.

Lemma fmean_nan (l : list flt) : NaN ∈ l -> fmean l = NaN.
Proof. intros H. unfold fmean. by rewrite fsum_nan. Qed.

(** A list all of whose entries are equivalent to [x] is [n] copies of [x]. *)
Lemma equiv_replicate (v : list flt) (n : nat) (x : flt) :
  length v = n -> (forall j y, v !! j = Some y -> y ≡ x) -> v ≡ replicate n x.
Proof.
  intros Hl Hv. apply list_equiv_lookup. intros i.
  destruct (v !! i) as [y|] eqn:E.
  - rewrite lookup_replicate_2 by (apply lookup_lt_Some in E; lia).
    constructor. eauto.
  - rewrite (proj1 (lookup_replicate_None n x i)); [constructor|].
    apply lookup_ge_None in E. lia.
Qed.

(** The mean of [k > 0] copies of an infinity or of NaN is that value. *)
Lemma fsum_replicate_inf_of (k : nat) (c : comparison) :
  fsum (replicate (S k) (inf_of c)) = inf_of c.
Proof.
  induction k as [|k IH].
  - by destruct c.
  - change (fsum (replicate (S (S k)) (inf_of c))) with
      (inf_of c + fsum (replicate (S k) (inf_of c)))%F.
    rewrite IH. by destruct c.
Qed.

Lemma fmean_replicate_inf_of (k : nat) (c : comparison) :
  0 < k -> fmean (replicate k (inf_of c)) = inf_of c.
Proof.
  intros Hk. destruct k as [|k]; [lia|]. unfold fmean.
  rewrite fsum_replicate_inf_of, length_replicate. unfold of_nat.
  assert (Hp : (inject_Z (Z.of_nat (S k)) ?= 0)%Q = Gt).
  { apply Qgt_alt. change 0%Q with (inject_Z 0). rewrite <- Zlt_Qlt. lia. }
  destruct c; simpl; try rewrite Hp; done.
Qed.

(** The mean of [k > 0] copies of any value is that value. *)
Lemma fmean_const (k : nat) (x : flt) : 0 < k -> fmean (replicate k x) ≡ x.
Proof.
  intros Hk. destruct x as [a| | |].
  - by apply fmean_replicate.
  - change PInf with (inf_of Gt). by rewrite fmean_replicate_inf_of.
  - change NInf with (inf_of Lt). by rewrite fmean_replicate_inf_of.
  - change NaN with (inf_of Eq). by rewrite fmean_replicate_inf_of.
Qed.

(** Adding a zero multiple of a finite value changes nothing. *)
Lemma fadd_zero_mul (x : flt) (q : Q) : (x + Num 0 * Num q)%F ≡ x.
Proof. destruct x; flt_hnf; simpl; try done. ring. Qed.

(** The mean of [k > 0] values all equivalent to [x] is equivalent to [x]. *)
Lemma fmean_seq_const (k : nat) (f : nat -> flt) (x : flt) :
  0 < k -> (forall i, i < k -> f i ≡ x) -> fmean (f <$> seq 0 k) ≡ x.
Proof.
  intros Hk Hf. rewrite (equiv_replicate (f <$> seq 0 k) k x).
  - by apply fmean_const.
  - by rewrite length_fmap, length_seq.
  - intros j y Hj. apply list_lookup_fmap_Some in Hj as (i & -> & Hi).
    apply lookup_seq in Hi as [-> Hi]. apply Hf. lia.
Qed.

(** ** Bounds on sums and means of finite values *)

Definition in_range (lo hi : Q) (x : flt) : Prop := exists q, x = Num q /\ (lo <= q <= hi)%Q.

Lemma fsum_range (lo hi : Q) (l : list flt) :
  Forall (in_range lo hi) l ->
  exists s, fsum l = Num s /\ (inject_Z (Z.of_nat (length l)) * lo <= s <= inject_Z (Z.of_nat (length l)) * hi)%Q.
Proof.
  induction 1 as [|x l (q & -> & Hq) _ (s & Hs & Hb)].
  - exists 0%Q. split; [done|]. simpl. split; ring_simplify; lra.
  - exists (q + s)%Q. split; [by change (fsum (Num q :: l)) with (Num q + fsum l)%F; rewrite Hs|].
    rewrite length_cons, Nat2Z.inj_succ, <- Z.add_1_l, inject_Z_plus. split; ring_simplify; nra.
Qed.

(** The mean of finite values between [lo] and [hi] lies between them. *)
Lemma fmean_range (lo hi : Q) (l : list flt) :
  l <> [] -> Forall (in_range lo hi) l -> in_range lo hi (fmean l).
Proof.
  intros Hne Hl. destruct (fsum_range lo hi l Hl) as (s & Hs & Hb).
  assert (Hn : (0 < inject_Z (Z.of_nat (length l)))%Q).
  { change 0%Q with (inject_Z 0). rewrite <- Zlt_Qlt. destruct l; [done|]. simpl. lia. }
  unfold fmean, of_nat. rewrite Hs, fdiv_num_nz by lra. eexists. split; [reflexivity|].
  split.
  - apply Qle_shift_div_l; [done|]. lra.
  - apply Qle_shift_div_r; [done|]. lra.
Qed.
