(* ===== verification/NdArray.v ===== *)
(** * numpy 2-D arrays

    A [mat] is a column count and a list of rows; it is well formed when
    every row has that many columns (a [(0, n)] array keeps its [n]).  A
    1-D array [v] in a 2-D operation is the [(1, len v)] array, as numpy's
    broadcasting reads it.  This file holds what the modelled code calls:
    row slicing [a[::2, :]] and [a[1::2, :]], element-wise binary
    operations with numpy's broadcasting rule and its [ValueError],
    [mean(axis=0)], the mean of all elements, the simulator's
    constructions ([np.vstack], [np.tile], [np.flip], [np.roll],
    [np.hstack], transpose), the reference definitions (columns) the
    optimised forms are proved equal to. *)

From S2P Require Import Prelude Flt.
From Stdlib Require Import QArith.
Local Close Scope Q_scope.

Record mat := Mat { ncols : nat; rows : list (list flt) }.

Definition nrows (m : mat) : nat := length (rows m).

Definition mat_wf (m : mat) : Prop := Forall (fun r => length r = ncols m) (rows m).

Definition mat_wfb (m : mat) : bool := forallb (fun r => length r =? ncols m) (rows m).

Lemma mat_wfb_spec (m : mat) : mat_wfb m = true <-> mat_wf m.
Proof.
  unfold mat_wfb, mat_wf. rewrite forallb_forall, Forall_forall.
  setoid_rewrite Nat.eqb_eq. split; intros H r Hr; apply H; by apply list_elem_of_In.
Qed.

#[export] Instance mat_equiv : Equiv mat := fun a b =>
  ncols a = ncols b /\ rows a ≡ rows b.

#[export] Instance mat_equivalence : Equivalence (≡@{mat}).
Proof.
  split.
  - intros a. split; reflexivity.
  - intros a b [H1 H2]. split; by symmetry.
  - intros a b c [H1 H2] [H3 H4]. split; by etrans.
Qed.

(** A 1-D array as the single row numpy broadcasts it to. *)
Definition row_vec (v : list flt) : mat := Mat (length v) [v].

(** ** Row slicing: [a[::2, :]] and [a[1::2, :]] *)

Definition rows_even (m : mat) : mat := Mat (ncols m) (evens (rows m)).
Definition rows_odd (m : mat) : mat := Mat (ncols m) (odds (rows m)).

(** ** Broadcasting

    numpy's rule on one axis: equal sizes pair up, a size of 1 is
    stretched to the other size (0 included), anything else is a
    [ValueError]. *)
Definition bdim (a b : nat) : option nat :=
  if a =? b then Some a
  else if a =? 1 then Some b
  else if b =? 1 then Some a
  else None.

(** The pairs of elements broadcasting lines up along one axis. *)
Definition bpair {A} (l1 l2 : list A) : list (A * A) :=
  if length l1 =? length l2 then zip l1 l2
  else match l1, l2 with
       | [x], _ => (fun y => (x, y)) <$> l2
       | _, [y] => (fun x => (x, y)) <$> l1
       | _, _ => []
       end.

Definition bcast_err : pyerr :=
  ValueError "operands could not be broadcast together".

(** [f(a, b)] element-wise with broadcasting: [a - b], [a / b], ... *)
Definition bcast (f : flt -> flt -> flt) (a b : mat) : result mat :=
  match bdim (nrows a) (nrows b), bdim (ncols a) (ncols b) with
  | Some _, Some c =>
      Ok (Mat c ((fun '(r1, r2) => (fun '(x, y) => f x y) <$> bpair r1 r2)
                   <$> bpair (rows a) (rows b)))
  | _, _ => Err bcast_err
  end.

(** The element-wise operation on two arrays of one shape, what
    broadcasting computes when no axis is stretched. *)
Definition ewise (f : flt -> flt -> flt) (a b : mat) : mat :=
  Mat (ncols a) (zip_with (zip_with f) (rows a) (rows b)).

(** ** Reductions *)

(** The column sums, one pass over the rows. *)
Definition col_sums (c : nat) (rs : list (list flt)) : list flt :=
  foldr (zip_with fadd) (replicate c (Num 0)) rs.

(** [a.mean(axis=0)]: each column's sum over the number of rows, so a
    column of a [(0, n)] array has mean NaN. *)
Definition mean_axis0 (m : mat) : list flt :=
  (fun s => fdiv s (of_nat (nrows m))) <$> col_sums (ncols m) (rows m).

(** [a.mean()]: the mean of all the elements. *)
Definition mean_all (m : mat) : flt := fmean (concat (rows m)).

(** The reference reading of a column: the [j]-th element of every row. *)
Definition column (j : nat) (m : mat) : list flt := (fun r => default NaN (r !! j)) <$> rows m.

(** ** Lemmas *)

Lemma bdim_same (a : nat) : bdim a a = Some a.
Proof. unfold bdim. by rewrite Nat.eqb_refl. Qed.

Lemma bpair_same {A} (l1 l2 : list A) : length l1 = length l2 -> bpair l1 l2 = zip l1 l2.
Proof. intros H. unfold bpair. by rewrite H, Nat.eqb_refl. Qed.

Lemma zip_uncurry {A} (f : A -> A -> flt) (l1 l2 : list A) :
  (fun '(x, y) => f x y) <$> zip l1 l2 = zip_with f l1 l2.
Proof. revert l2. induction l1 as [|x l1 IH]; intros [|y l2]; simpl; by f_equal. Qed.

Lemma bpair_length {A} (l1 l2 : list A) n :
  bdim (length l1) (length l2) = Some n -> length (bpair l1 l2) = n.
Proof.
  unfold bdim, bpair.
  destruct (Nat.eqb_spec (length l1) (length l2)) as [E|E].
  - intros [= <-]. rewrite length_zip. lia.
  - destruct l1 as [|x [|x' l1]], l2 as [|y [|y' l2]]; simpl in *;
      intros H; simplify_eq; rewrite ?length_fmap; simpl; done.
Qed.

Lemma bpair_elem {A} (l1 l2 : list A) x y :
  (x, y) ∈ bpair l1 l2 -> x ∈ l1 /\ y ∈ l2.
Proof.
  unfold bpair. case_match.
  - intros Hin. apply list_elem_of_In in Hin.
    split; apply list_elem_of_In; [eapply in_combine_l|eapply in_combine_r]; exact Hin.
  - destruct l1 as [|x1 [|x2 l1]], l2 as [|y1 [|y2 l2]]; intros Hin;
      try (by apply elem_of_nil in Hin);
      apply list_elem_of_fmap in Hin as (? & [= -> ->] & ?); set_solver.
Qed.

(** Broadcasting two arrays of the same shape pairs them element by element. *)
Lemma bcast_same (f : flt -> flt -> flt) (a b : mat) :
  mat_wf a -> mat_wf b -> nrows a = nrows b -> ncols a = ncols b ->
  bcast f a b = Ok (ewise f a b).
Proof.
  intros Ha Hb Hr Hc. unfold bcast, ewise. rewrite Hr, Hc, !bdim_same.
  rewrite bpair_same by exact Hr. do 2 f_equal. unfold mat_wf, nrows in *.
  revert Hb Hr. generalize (rows b). induction Ha as [|r1 rs1 Hr1 _ IH]; intros [|r2 rs2];
    simpl; intros Hb Hr; try done.
  inversion Hb; subst. f_equal; [|apply IH; auto].
  rewrite bpair_same by congruence. apply zip_uncurry.
Qed.

Lemma bpair_row_many {A} (l : list A) (y : A) :
  length l <> 1 -> bpair l [y] = (fun x => (x, y)) <$> l.
Proof. intros H. unfold bpair. destruct l as [|x [|x' l]]; simpl in *; try done; lia. Qed.

(** Broadcasting an array against a 1-D array of its width applies the
    operation to every row. *)
Lemma bcast_row (f : flt -> flt -> flt) (a : mat) (v : list flt) :
  mat_wf a -> length v = ncols a ->
  bcast f a (row_vec v) = Ok (Mat (ncols a) ((fun r => zip_with f r v) <$> rows a)).
Proof.
  intros Ha Hv. unfold bcast, row_vec, nrows. simpl. rewrite Hv, bdim_same.
  destruct (bdim (length (rows a)) 1) eqn:E.
  2:{ exfalso. revert E. unfold bdim. repeat case_match; simpl in *; congruence. }
  do 2 f_equal. unfold mat_wf in Ha.
  destruct (decide (length (rows a) = 1)) as [H1|H1].
  - destruct (rows a) as [|r [|]]; simpl in H1; try lia.
    inversion Ha; subst. simpl. rewrite bpair_same by congruence. by rewrite zip_uncurry.
  - rewrite bpair_row_many by exact H1. rewrite <- list_fmap_compose.
    apply Forall_fmap_ext_1. eapply Forall_impl; [exact Ha|]. intros r Hr. simpl in *.
    rewrite bpair_same by congruence. apply zip_uncurry.
Qed.

(** A successful broadcast of well-formed arrays is well formed. *)
Lemma bcast_wf (f : flt -> flt -> flt) (a b c : mat) :
  mat_wf a -> mat_wf b -> bcast f a b = Ok c -> mat_wf c.
Proof.
  unfold bcast, mat_wf. intros Ha Hb.
  destruct (bdim (nrows a) (nrows b)) eqn:Er; [|discriminate].
  destruct (bdim (ncols a) (ncols b)) eqn:Ec; [|discriminate].
  intros [= <-]. simpl. apply Forall_fmap, Forall_forall.
  intros [r1 r2] Hin. apply bpair_elem in Hin as [H1 H2].
  rewrite Forall_forall in Ha, Hb. simpl.
  rewrite length_fmap. apply bpair_length. rewrite (Ha r1 H1), (Hb r2 H2). exact Ec.
Qed.

Lemma ewise_wf (f : flt -> flt -> flt) (a b : mat) :
  mat_wf a -> mat_wf b -> nrows a = nrows b -> ncols a = ncols b -> mat_wf (ewise f a b).
Proof.
  intros Ha Hb Hr Hc. eapply bcast_wf; [exact Ha|exact Hb|]. by apply bcast_same.
Qed.

Lemma nrows_ewise (f : flt -> flt -> flt) (a b : mat) :
  nrows a = nrows b -> nrows (ewise f a b) = nrows a.
Proof. unfold nrows, ewise. simpl. rewrite length_zip_with. lia. Qed.

Lemma rows_even_wf (m : mat) : mat_wf m -> mat_wf (rows_even m).
Proof. apply Forall_evens. Qed.

Lemma rows_odd_wf (m : mat) : mat_wf m -> mat_wf (rows_odd m).
Proof. apply Forall_odds. Qed.

#[export] Hint Resolve rows_even_wf rows_odd_wf : xuv.

(** ** Columns: the reference the reductions are proved against *)

Lemma column_rows_even (j : nat) (m : mat) : column j (rows_even m) = evens (column j m).
Proof. unfold column. simpl. by rewrite evens_fmap. Qed.

Lemma column_rows_odd (j : nat) (m : mat) : column j (rows_odd m) = odds (column j m).
Proof. unfold column. simpl. by rewrite odds_fmap. Qed.

Lemma length_column (j : nat) (m : mat) : length (column j m) = nrows m.
Proof. unfold column, nrows. by rewrite length_fmap. Qed.

Lemma column_ewise (f : flt -> flt -> flt) (j : nat) (a b : mat) :
  mat_wf a -> mat_wf b -> j < ncols a -> ncols a = ncols b ->
  column j (ewise f a b) = zip_with f (column j a) (column j b).
Proof.
  unfold mat_wf, column, ewise. simpl. intros Ha Hb Hj Hc. revert Hb.
  generalize (rows b). induction Ha as [|r1 rs1 Hr1 _ IH]; intros [|r2 rs2] Hb; try done.
  inversion Hb as [|? ? Hr2 Hrs2]; subst. simpl. f_equal; [|by apply IH].
  destruct (lookup_lt_is_Some_2 r1 j) as [x Hx]; [lia|].
  destruct (lookup_lt_is_Some_2 r2 j) as [y Hy]; [lia|].
  by rewrite lookup_zip_with, Hx, Hy.
Qed.

Lemma column_map_row (f : flt -> flt -> flt) (j c : nat) (a : mat) (v : list flt) :
  mat_wf a -> j < ncols a -> length v = ncols a ->
  column j (Mat c ((fun r => zip_with f r v) <$> rows a))
  = (fun x => f x (default NaN (v !! j))) <$> column j a.
Proof.
  unfold mat_wf, column. simpl. intros Ha Hj Hv. rewrite <- !list_fmap_compose.
  apply Forall_fmap_ext_1. eapply Forall_impl; [exact Ha|]. intros r Hr. simpl in *.
  destruct (lookup_lt_is_Some_2 r j) as [x Hx]; [lia|].
  destruct (lookup_lt_is_Some_2 v j) as [y Hy]; [lia|].
  by rewrite lookup_zip_with, Hx, Hy.
Qed.

(** ** [mean(axis=0)] is the mean of each column *)

Lemma col_sums_lookup (c j : nat) (rs : list (list flt)) :
  Forall (fun r => length r = c) rs -> j < c ->
  col_sums c rs !! j = Some (fsum ((fun r => default NaN (r !! j)) <$> rs)).
Proof.
  intros Hrs Hj. induction Hrs as [|r rs Hr _ IH]; simpl.
  - by rewrite lookup_replicate_2 by lia.
  - destruct (lookup_lt_is_Some_2 r j) as [x Hx]; [lia|].
    rewrite lookup_zip_with, Hx, IH. simpl. done.
Qed.

Lemma length_col_sums (c : nat) (rs : list (list flt)) :
  Forall (fun r => length r = c) rs -> length (col_sums c rs) = c.
Proof.
  intros Hrs. induction Hrs as [|r rs Hr _ IH]; simpl.
  - apply length_replicate.
  - rewrite length_zip_with. lia.
Qed.

Lemma length_mean_axis0 (m : mat) : mat_wf m -> length (mean_axis0 m) = ncols m.
Proof. intros H. unfold mean_axis0. rewrite length_fmap. by apply length_col_sums. Qed.

(** The one-pass column sums compute, for every column, numpy's mean of
    that column. *)
Lemma mean_axis0_spec (m : mat) (j : nat) :
  mat_wf m -> j < ncols m -> mean_axis0 m !! j = Some (fmean (column j m)).
Proof.
  intros Hm Hj. unfold mean_axis0, fmean.
  rewrite list_lookup_fmap, col_sums_lookup by done. simpl.
  by rewrite length_column.
Qed.

(** ** Tiled bursts and broadcasting errors *)

Lemma column_tile2 (j k c : nat) (r1 r2 : list flt) :
  column j (Mat c (tile2 k r1 r2)) = tile2 k (default NaN (r1 !! j)) (default NaN (r2 !! j)).
Proof. unfold column. simpl. by rewrite fmap_tile2. Qed.

Lemma tile2_wf (k c : nat) (r1 r2 : list flt) :
  length r1 = c -> length r2 = c -> mat_wf (Mat c (tile2 k r1 r2)).
Proof. intros H1 H2. by apply Forall_tile2. Qed.

Lemma bcast_rows_mismatch (f : flt -> flt -> flt) (a b : mat) :
  bdim (nrows a) (nrows b) = None -> bcast f a b = Err bcast_err.
Proof. intros H. unfold bcast. by rewrite H. Qed.

Lemma bcast_cols_mismatch (f : flt -> flt -> flt) (a b : mat) :
  bdim (ncols a) (ncols b) = None -> bcast f a b = Err bcast_err.
Proof. intros H. unfold bcast. rewrite H. by destruct (bdim (nrows a) (nrows b)). Qed.

Lemma bdim_none (a b : nat) : a <> b -> a <> 1 -> b <> 1 -> bdim a b = None.
Proof.
  intros H1 H2 H3. unfold bdim.
  rewrite (proj2 (Nat.eqb_neq _ _) H1), (proj2 (Nat.eqb_neq _ _) H2), (proj2 (Nat.eqb_neq _ _) H3).
  done.
Qed.

(** Broadcasting two arrays of at most one row between them gives an
    array of no row: numpy stretches a size-1 axis to size 0. *)
Lemma bcast_short (f : flt -> flt -> flt) (a b : mat) :
  nrows a + nrows b <= 1 -> ncols a = ncols b -> bcast f a b = Ok (Mat (ncols a) []).
Proof.
  intros Hn Hc. unfold bcast, nrows in *. rewrite Hc, bdim_same.
  by destruct (rows a) as [|ra [|]], (rows b) as [|rb [|]]; simpl in *; try lia.
Qed.

(** The mean over no row is NaN in every column (numpy's 0/0). *)
Lemma mean_axis0_empty (c : nat) : mean_axis0 (Mat c []) = replicate c NaN.
Proof. unfold mean_axis0. cbn. rewrite fmap_replicate. done. Qed.

(** ** Array constructions of the simulator *)

(** [np.vstack((v, w))] of two 1-D arrays: one row each, of one length. *)
Definition vstack2 (v w : list flt) : result mat :=
  if bool_decide (length v = length w) then Ok (Mat (length v) [v; w])
  else Err (ValueError "all the input array dimensions except for the concatenation axis must match exactly").

(** [np.flip(a, axis=0)]: the rows in reverse order. *)
Definition flip_rows (m : mat) : mat := Mat (ncols m) (reverse (rows m)).

(** [np.tile(a, (n, 1))]: the block of rows repeated [n] times. *)
Definition tile_rows (n : nat) (m : mat) : mat := Mat (ncols m) (concat (replicate n (rows m))).

(** [np.hstack((a, b))] of two 2-D arrays: rows side by side, one row count. *)
Definition hstack (a b : mat) : result mat :=
  if bool_decide (nrows a = nrows b) then Ok (Mat (ncols a + ncols b) (zip_with app (rows a) (rows b)))
  else Err (ValueError "all the input array dimensions except for the concatenation axis must match exactly").

(** [np.tile(a, n)] of a 2-D array: along the last axis, each row repeated. *)
Definition tile_cols (n : nat) (m : mat) : mat :=
  Mat (n * ncols m) ((fun r => concat (replicate n r)) <$> rows m).

(** [a.T]: row [j] of the result is column [j] of [a]. *)
Definition transpose (m : mat) : mat :=
  Mat (nrows m) ((fun j => column j m) <$> seq 0 (ncols m)).

(** [np.roll(a, 1, axis=0)]: the last row first. *)
Definition roll1 {A} (l : list A) : list A :=
  match reverse l with [] => [] | x :: t => x :: reverse t end.
Definition roll_rows (m : mat) : mat := Mat (ncols m) (roll1 (rows m)).

(** [c * a] for a scalar [c]. *)
Definition scale (c : flt) (m : mat) : mat :=
  Mat (ncols m) ((fun r : list flt => fmul c <$> r) <$> rows m).

(** A constant-filled array, [v * np.ones((r, c))]. *)
Definition full (r c : nat) (v : flt) : mat := Mat c (replicate r (replicate c v)).

(** ** The constructions on tiled pairs *)

(** Rolling a tiled pair by one swaps its phase. *)
Lemma roll1_tile2 {A} (n : nat) (x y : A) : roll1 (tile2 n x y) = tile2 n y x.
Proof.
  destruct n as [|n]; [done|]. unfold roll1.
  rewrite tile2_snoc, reverse_app. simpl.
  rewrite reverse_cons, reverse_involutive, tile2_app_single. done.
Qed.

Lemma seq_tile2 {A} (n : nat) (a b : A) :
  (fun j => if Nat.even j then a else b) <$> seq 0 (2 * n) = tile2 n a b.
Proof.
  apply list_eq. intros j. rewrite list_lookup_fmap, lookup_tile2.
  case_decide.
  - rewrite lookup_seq_lt by done. done.
  - rewrite lookup_seq_ge by lia. done.
Qed.

(** The stabilisation image: two constant columns side by side, tiled
    [n] times along the columns and transposed, is a tiled pair of rows. *)
Lemma transpose_tile_pair (n r : nat) (a b : flt) :
  transpose (tile_cols n (Mat 2 (replicate r [a; b])))
  = Mat r (tile2 n (replicate r a) (replicate r b)).
Proof.
  unfold transpose, tile_cols, nrows, column. simpl.
  rewrite length_fmap, length_replicate. f_equal.
  rewrite fmap_replicate. replace (n * 2) with (2 * n) by lia.
  rewrite <- seq_tile2. apply list_fmap_ext. intros i j Hj.
  apply lookup_seq in Hj as [-> Hj]. rewrite fmap_replicate.
  change (concat (replicate n [a; b])) with (tile2 n a b). simpl.
  rewrite lookup_tile2. case_decide; [|lia]. by destruct (Nat.even i).
Qed.

Lemma hstack_const (r : nat) (a b : flt) :
  hstack (Mat 1 (replicate r [a])) (Mat 1 (replicate r [b])) = Ok (Mat 2 (replicate r [a; b])).
Proof.
  unfold hstack, nrows. simpl. rewrite bool_decide_eq_true_2 by (by rewrite !length_replicate).
  do 2 f_equal. induction r as [|r IH]; [done|]. simpl. by rewrite IH.
Qed.

