(* ===== verification/DRModel.v ===== *)
(** * The dR/R data-mixer model (models/dR_model.py)

    [DataMixerModelDeltaR] as explicit state passing.  Its state is the
    two background vectors, the [doing_bkg] flag and its settings (the
    parameter tree's values and the limits of its two lists).  A handler
    takes the state and returns the new state, what it emits and the host
    effects it triggers: [Snap] for [self.data_mixer.snap()] and
    [ValueChanged p] for a programmatic [setValue] that changed parameter
    [p] (the parameter tree emits a change only when the value differs).
    A DataWithAxes is modelled by its single data channel, a [mat] whose
    rows are the shots; a 1-D per-shot signal is the [(n, 1)] array. *)

From S2P Require Import Prelude Flt NdArray.
From Stdlib Require Import QArith.
Local Close Scope Q_scope.
Local Open Scope string_scope.
Local Open Scope xuv_scope.

Module DeltaR.

(** ** State *)

Record settings := Settings {
  s_get_data : bool;
  s_do_bkg : bool;
  s_camera : string;
  s_camera_limits : list string;
  s_on_off_signal : string;
  s_on_off_limits : list string;
}.

Record model := Model {
  bkg_poff : option (list flt);
  bkg_pon : option (list flt);
  doing_bkg : bool;
  settings_of : settings;
}.

Inductive effect :=
  | Snap
  | ValueChanged (param : string).

(** The host's bundle of acquired data: full names and their arrays, the
    first match wins. *)
Definition dte := list (string * mat).

Fixpoint get_data_from_full_name (d : dte) (name : string) : option mat :=
  match d with
  | [] => None
  | (n, m) :: t => if bool_decide (n = name) then Some m else get_data_from_full_name t name
  end.

(** The host's detector lists, [dte.get_full_names('data1D')] and ['data2D'].
    The model does not tie a name to the dimensionality of the data it
    names: [get_data_from_full_name] returns whatever array the bundle
    holds under that name. *)
Record det_lists := DetLists { names1D : list string; names2D : list string }.

(** ** Settings: [setValue] and [setLimits] *)

Definition set_camera (v : string) (s : settings) : settings :=
  Settings (s_get_data s) (s_do_bkg s) v (s_camera_limits s) (s_on_off_signal s) (s_on_off_limits s).
Definition set_camera_limits (l : list string) (s : settings) : settings :=
  Settings (s_get_data s) (s_do_bkg s) (s_camera s) l (s_on_off_signal s) (s_on_off_limits s).
Definition set_on_off_signal (v : string) (s : settings) : settings :=
  Settings (s_get_data s) (s_do_bkg s) (s_camera s) (s_camera_limits s) v (s_on_off_limits s).
Definition set_on_off_limits (l : list string) (s : settings) : settings :=
  Settings (s_get_data s) (s_do_bkg s) (s_camera s) (s_camera_limits s) (s_on_off_signal s) l.
Definition set_do_bkg (v : bool) (s : settings) : settings :=
  Settings (s_get_data s) v (s_camera s) (s_camera_limits s) (s_on_off_signal s) (s_on_off_limits s).

Definition with_settings (s : settings) (m : model) : model :=
  Model (bkg_poff m) (bkg_pon m) (doing_bkg m) s.

(** The change notification of a [setValue]: only when the value differs. *)
Definition changed {A} `{EqDecision A} (p : string) (old new : A) : list effect :=
  if decide (old = new) then [] else [ValueChanged p].

(** ** Handlers *)

(** [update_data_list]: the camera list gets the 2-D names and the first
    of them, then the on/off list the 1-D names and the first of them.
    [data_list2D[0]] on an empty list raises [IndexError] after the limits
    were set; the on/off list is then untouched. *)
Definition update_data_list (dl : det_lists) (m : model) : model * list effect * option pyerr :=
  let s1 := set_camera_limits (names2D dl) (settings_of m) in
  match names2D dl with
  | [] => (with_settings s1 m, [], Some (IndexError "list index out of range"))
  | c :: _ =>
      let s2 := set_on_off_limits (names1D dl) (set_camera c s1) in
      let e1 := changed "camera" (s_camera s1) c in
      match names1D dl with
      | [] => (with_settings s2 m, e1, Some (IndexError "list index out of range"))
      | o :: _ =>
          (with_settings (set_on_off_signal o s2) m,
           (e1 ++ changed "on_off_signal" (s_on_off_signal s2) o)%list, None)
      end
  end.

(** [ini_model]: [update_data_list], then both backgrounds cleared and
    [doing_bkg] false; an exception of [update_data_list] stops it there. *)
Definition ini_model (dl : det_lists) (m : model) : model * list effect * option pyerr :=
  match update_data_list dl m with
  | (m1, eff, Some e) => (m1, eff, Some e)
  | (m1, eff, None) => (Model None None false (settings_of m1), eff, None)
  end.

(** [do_bkg]: arm the capture and ask the host for one acquisition. *)
Definition do_bkg (m : model) : model * list effect :=
  (Model (bkg_poff m) (bkg_pon m) true (settings_of m), [Snap]).

(** [update_settings]: the two independent [if]s of the source. *)
Definition update_settings (dl : det_lists) (param : string) (m : model)
    : model * list effect * option pyerr :=
  let '(m1, e1) := if bool_decide (param = "do_bkg") then do_bkg m else (m, []) in
  if bool_decide (param = "get_data") then
    let '(m2, e2, err) := update_data_list dl m1 in (m2, (e1 ++ e2)%list, err)
  else (m1, e1, None).

(** ** [process_dte] *)

(** Line 67: the even shots are "pump on" when their mean is larger. *)
Definition first_is_on (onoff : mat) : bool :=
  fgt (mean_all (rows_even onoff)) (mean_all (rows_odd onoff)).

(** Lines 69-78: the capture branch, means over the shot axis. *)
Definition capture_bkg (fio : bool) (cam : mat) (m : model) : model * list effect :=
  let poff := if fio then rows_odd cam else rows_even cam in
  let pon := if fio then rows_even cam else rows_odd cam in
  (Model (Some (mean_axis0 poff)) (Some (mean_axis0 pon)) false
         (set_do_bkg false (settings_of m)),
   changed "do_bkg" (s_do_bkg (settings_of m)) false).

(** Lines 81-92: the pon/poff split, the background correction when both
    backgrounds are set (lines 89-90 act on the numpy arrays [.data[0]]:
    broadcast over the shots), then [((pon - poff) / poff).mean(axis=0)].
    The operands of line 92 are DataWithAxes; on operands of one shape
    their arithmetic is numpy's element-wise arithmetic, which [bcast]
    computes.  On operands of different shapes [bcast] follows numpy's
    broadcasting, which the library's operators may not; the theorems use
    that case only where numpy itself raises (see the header). *)
Definition delta_r (fio : bool) (cam : mat) (m : model) : result (list flt) :=
  let poff := if fio then rows_odd cam else rows_even cam in
  let pon := if fio then rows_even cam else rows_odd cam in
  corr <-? match bkg_poff m, bkg_pon m with
                   | Some bo, Some bn =>
                       poff' <-? bcast fsub poff (row_vec bo) ;;
                       pon' <-? bcast fsub pon (row_vec bn) ;;
                       Ok (poff', pon')
                   | _, _ => Ok (poff, pon)
                   end ;;
  let '(poff', pon') := corr in
  diff <-? bcast fsub pon' poff' ;;
  q <-? bcast fdiv diff poff' ;;
  Ok (mean_axis0 q).

Definition output := list (string * list flt).

(** The whole handler: the emitted data ("dR over R" or nothing), the new
    state and the effects.  A name the bundle does not hold gives [None],
    and the next attribute access raises [AttributeError]. *)
Definition process_dte (d : dte) (m : model) : result (model * output * list effect) :=
  let s := settings_of m in
  if bool_decide (s_camera s = "") then Ok (m, [], []) else
  match get_data_from_full_name d (s_camera s), get_data_from_full_name d (s_on_off_signal s) with
  | Some cam, Some onoff =>
      let fio := first_is_on onoff in
      if doing_bkg m then
        let '(m', eff) := capture_bkg fio cam m in Ok (m', [], eff)
      else
        v <-? delta_r fio cam m ;;
        Ok (m, [("dR over R", v)], [])
  | _, _ => Err (AttributeError "'NoneType' object has no attribute 'isig'")
  end.

(** ** The reference: the spec's per-channel formula *)

(** The ratio of one shot pair, [(on - off) / off]. *)
Definition ratio (on off : flt) : flt := ((on - off) / off)%F.

Definition shots_on (fio : bool) (col : list flt) : list flt :=
  if fio then evens col else odds col.
Definition shots_off (fio : bool) (col : list flt) : list flt :=
  if fio then odds col else evens col.

(** Subtract channel [j] of a background from every shot, when there is one. *)
Definition sub_bkg (b : option (list flt)) (j : nat) (col : list flt) : list flt :=
  match b with
  | Some v => (fun x => x - default NaN (v !! j))%F <$> col
  | None => col
  end.

(** The backgrounds the correction uses: both, or none. *)
Definition bkg_used (m : model) : option (list flt) * option (list flt) :=
  match bkg_poff m, bkg_pon m with
  | Some bo, Some bn => (Some bo, Some bn)
  | _, _ => (None, None)
  end.

(** Channel [j] of dR/R: the mean over the shot pairs of the ratio of the
    background-corrected on and off values. *)
Definition channel_ratio (fio : bool) (cam : mat) (m : model) (j : nat) : flt :=
  let '(bo, bn) := bkg_used m in
  fmean (zip_with ratio (sub_bkg bn j (shots_on fio (column j cam)))
                        (sub_bkg bo j (shots_off fio (column j cam)))).

(** Backgrounds, when both are set, have the camera's width. *)
Definition bkg_fits (m : model) (c : nat) : Prop :=
  forall bo bn, bkg_poff m = Some bo -> bkg_pon m = Some bn ->
                length bo = c /\ length bn = c.

(** ** Lemmas on the ratio pipeline *)

Lemma zip_with_ratio (a b : list flt) :
  zip_with fdiv (zip_with fsub a b) b = zip_with ratio a b.
Proof. revert b. induction a as [|x a IH]; intros [|y b]; simpl; by f_equal. Qed.

(** [((pon - poff) / poff).mean(axis=0)] on two arrays of one shape is,
    channel by channel, the mean of the shot ratios. *)
Lemma ratio_mean_spec (pon poff : mat) :
  mat_wf pon -> mat_wf poff -> nrows pon = nrows poff -> ncols pon = ncols poff ->
  exists v, (diff <-? bcast fsub pon poff ;; q <-? bcast fdiv diff poff ;; Ok (mean_axis0 q))%xuv
            = Ok v /\ length v = ncols pon /\
            forall j, j < ncols pon ->
              v !! j = Some (fmean (zip_with ratio (column j pon) (column j poff))).
Proof.
  intros Hn Hf Hr Hc.
  assert (Hd : mat_wf (ewise fsub pon poff)) by (by apply ewise_wf).
  assert (Hdr : nrows (ewise fsub pon poff) = nrows poff) by (rewrite nrows_ewise; done).
  rewrite bcast_same by done. simpl. rewrite bcast_same by done. simpl.
  eexists; split; [reflexivity|]. split.
  - rewrite length_mean_axis0 by (by apply ewise_wf). reflexivity.
  - intros j Hj. rewrite mean_axis0_spec; [|by apply ewise_wf|exact Hj].
    rewrite column_ewise by done. rewrite column_ewise by done.
    by rewrite zip_with_ratio.
Qed.

(** Subtracting a background broadcast over the shots. *)
Lemma sub_row_spec (a : mat) (v : list flt) :
  mat_wf a -> length v = ncols a ->
  exists a', bcast fsub a (row_vec v) = Ok a' /\ mat_wf a' /\ nrows a' = nrows a /\
             ncols a' = ncols a /\
             forall j, j < ncols a -> column j a' = sub_bkg (Some v) j (column j a).
Proof.
  intros Ha Hv. rewrite bcast_row by done. eexists; split; [reflexivity|].
  split; [|split; [|split]].
  - eapply bcast_wf; [exact Ha| |apply bcast_row; done]. by repeat constructor.
  - unfold nrows. simpl. apply length_fmap.
  - done.
  - intros j Hj. by rewrite column_map_row.
Qed.

Lemma slices_shape (fio : bool) (cam : mat) :
  mat_wf cam -> Nat.Even (nrows cam) ->
  let pon := if fio then rows_even cam else rows_odd cam in
  let poff := if fio then rows_odd cam else rows_even cam in
  mat_wf pon /\ mat_wf poff /\ nrows pon = nrows poff /\
  ncols pon = ncols cam /\ ncols poff = ncols cam /\
  (forall j, column j pon = shots_on fio (column j cam)) /\
  (forall j, column j poff = shots_off fio (column j cam)).
Proof.
  intros Hw He. destruct (length_evens_odds_even (rows cam) He) as [Hl _].
  unfold nrows, shots_on, shots_off in *.
  destruct fio; simpl; (split; [auto with xuv|]); (split; [auto with xuv|]);
    repeat split; try done; intros j;
    rewrite ?column_rows_even, ?column_rows_odd; done.
Qed.

(** Lines 81-92 compute, for every channel, the reference [channel_ratio]. *)
Lemma delta_r_spec (fio : bool) (cam : mat) (m : model) :
  mat_wf cam -> Nat.Even (nrows cam) -> bkg_fits m (ncols cam) ->
  exists v, delta_r fio cam m = Ok v /\ length v = ncols cam /\
            forall j, j < ncols cam -> v !! j = Some (channel_ratio fio cam m j).
Proof.
  intros Hw He Hb. unfold delta_r, channel_ratio, bkg_used.
  destruct (slices_shape fio cam Hw He) as (Hn & Hf & Hr & Hcn & Hcf & Hon & Hoff).
  revert Hn Hf Hr Hcn Hcf Hon Hoff.
  generalize (if fio then rows_even cam else rows_odd cam) as pon.
  generalize (if fio then rows_odd cam else rows_even cam) as poff.
  intros poff pon Hn Hf Hr Hcn Hcf Hon Hoff.
  destruct (bkg_poff m) as [bo|] eqn:Eo; [destruct (bkg_pon m) as [bn|] eqn:En|].
  2,3: destruct (ratio_mean_spec pon poff Hn Hf Hr ltac:(lia)) as (v & Ev & Hlv & Hv);
      simpl; rewrite Ev; exists v; split; [done|]; split; [lia|];
      intros j Hj; rewrite Hv by lia; by rewrite Hon, Hoff.
  destruct (Hb bo bn Eo En) as [Hlo Hln].
  destruct (sub_row_spec poff bo Hf ltac:(lia)) as (poff' & E1 & Hf' & Hr1 & Hc1 & Hcol1).
  destruct (sub_row_spec pon bn Hn ltac:(lia)) as (pon' & E2 & Hn' & Hr2 & Hc2 & Hcol2).
  rewrite E1; simpl; rewrite E2; simpl.
  destruct (ratio_mean_spec pon' poff' Hn' Hf' ltac:(lia) ltac:(lia)) as (v & Ev & Hlv & Hv).
  rewrite Ev. exists v. split; [done|]. split; [lia|].
  intros j Hj. rewrite Hv by lia. rewrite Hcol1, Hcol2 by lia. by rewrite Hon, Hoff.
Qed.

(** ** The ratio on particular values *)

Lemma ratio_num (a b : Q) : ~ (b == 0)%Q -> ratio (Num a) (Num b) = Num ((a - b) / b).
Proof.
  intros Hb. unfold ratio. change (Num a - Num b)%F with (Num (a + - b)).
  by rewrite fdiv_num_nz.
Qed.

Lemma ratio_num_zero (a : Q) : ratio (Num a) (Num 0) = inf_of (a ?= 0)%Q.
Proof.
  unfold ratio. change (Num a - Num 0)%F with (Num (a + - 0)).
  rewrite fdiv_num_zero by reflexivity. f_equal. apply qcmp_compat. ring.
Qed.

(** A value minus its own background, over another such value: 0/0. *)
Lemma ratio_cancel_nan (z w : flt) (x y : Q) :
  z ≡ Num x -> w ≡ Num y -> ratio (Num x - z) (Num y - w)%F = NaN.
Proof.
  intros Hz Hw. apply equiv_nan. unfold ratio. rewrite Hz, Hw.
  change (Num x - Num x)%F with (Num (x + - x)).
  change (Num y - Num y)%F with (Num (y + - y)).
  change (Num (x + - x) - Num (y + - y))%F with (Num ((x + - x) + - (y + - y))).
  rewrite fdiv_num_zero by ring.
  rewrite (qcmp_compat _ 0) by ring. reflexivity.
Qed.

Lemma shots_on_tile2 (fio : bool) (k : nat) (x y : flt) :
  shots_on fio (tile2 k x y) = replicate k (if fio then x else y).
Proof. destruct fio; unfold shots_on; by autorewrite with xuv_rw. Qed.

Lemma shots_off_tile2 (fio : bool) (k : nat) (x y : flt) :
  shots_off fio (tile2 k x y) = replicate k (if fio then y else x).
Proof. destruct fio; unfold shots_off; by autorewrite with xuv_rw. Qed.

(** The captured backgrounds, channel by channel. *)
Lemma mean_shots_off (fio : bool) (cam : mat) (j : nat) :
  mat_wf cam -> j < ncols cam ->
  mean_axis0 (if fio then rows_odd cam else rows_even cam) !! j = Some (fmean (shots_off fio (column j cam))).
Proof.
  intros Hw Hj. unfold shots_off. destruct fio; rewrite mean_axis0_spec by auto with xuv;
    by rewrite ?column_rows_even, ?column_rows_odd.
Qed.

Lemma mean_shots_on (fio : bool) (cam : mat) (j : nat) :
  mat_wf cam -> j < ncols cam ->
  mean_axis0 (if fio then rows_even cam else rows_odd cam) !! j = Some (fmean (shots_on fio (column j cam))).
Proof.
  intros Hw Hj. unfold shots_on. destruct fio; rewrite mean_axis0_spec by auto with xuv;
    by rewrite ?column_rows_even, ?column_rows_odd.
Qed.

Lemma length_mean_slice (b : bool) (cam : mat) :
  mat_wf cam -> length (mean_axis0 (if b then rows_odd cam else rows_even cam)) = ncols cam /\
                length (mean_axis0 (if b then rows_even cam else rows_odd cam)) = ncols cam.
Proof. intros Hw. destruct b; split; rewrite length_mean_axis0; auto with xuv. Qed.

(** ** Bursts the spec rejects *)

(** No shot: every array of lines 89-92 has no row (the background
    subtraction of lines 89-90 broadcasts a [(n,)] vector against a
    [(0, n)] array), and the mean of no row is NaN in every channel. *)
Lemma delta_r_empty (fio : bool) (cam : mat) (m : model) :
  mat_wf cam -> nrows cam = 0 -> bkg_fits m (ncols cam) ->
  delta_r fio cam m = Ok (replicate (ncols cam) NaN).
Proof.
  intros Hw Hn Hb. unfold delta_r.
  assert (Hs : nrows (if fio then rows_even cam else rows_odd cam) +
               nrows (if fio then rows_odd cam else rows_even cam) <= 1).
  { pose proof (length_evens_odds (rows cam)). unfold nrows in *. destruct fio; simpl; lia. }
  assert (Hwf : mat_wf (if fio then rows_even cam else rows_odd cam) /\
                mat_wf (if fio then rows_odd cam else rows_even cam)) by (destruct fio; auto with xuv).
  assert (Hc : ncols (if fio then rows_even cam else rows_odd cam) = ncols cam /\
               ncols (if fio then rows_odd cam else rows_even cam) = ncols cam) by (by destruct fio).
  revert Hs Hwf Hc.
  generalize (if fio then rows_even cam else rows_odd cam) as pon.
  generalize (if fio then rows_odd cam else rows_even cam) as poff.
  intros poff pon Hs [Hn' Hf] [Hcn Hcf].
  assert (Hcorr : exists poff' pon',
    (match bkg_poff m, bkg_pon m with
     | Some bo, Some bn => (poff' <-? bcast fsub poff (row_vec bo) ;;
                            pon' <-? bcast fsub pon (row_vec bn) ;; Ok (poff', pon'))%xuv
     | _, _ => Ok (poff, pon) end) = Ok (poff', pon') /\
    nrows pon' + nrows poff' <= 1 /\ ncols pon' = ncols cam /\ ncols poff' = ncols cam).
  { destruct (bkg_poff m) as [bo|] eqn:Eo; [destruct (bkg_pon m) as [bn|] eqn:En|];
      [|exists poff, pon; split; [done|lia]..].
    destruct (Hb bo bn Eo En) as [Hlo Hln].
    destruct (sub_row_spec poff bo Hf ltac:(lia)) as (poff' & E1 & _ & Hr1 & Hc1 & _).
    destruct (sub_row_spec pon bn Hn' ltac:(lia)) as (pon' & E2 & _ & Hr2 & Hc2 & _).
    rewrite E1; simpl; rewrite E2; simpl. exists poff', pon'. split; [done|]. lia. }
  destruct Hcorr as (poff' & pon' & -> & Hs' & Hc1 & Hc2). cbn [rbind].
  rewrite bcast_short by lia. cbn [rbind]. rewrite bcast_short by (simpl; lia). cbn [rbind ncols].
  by rewrite mean_axis0_empty, Hc1.
Qed.

(** ** [process_dte] once the camera and the on/off signal are found *)

Section found.
Context (d : dte) (m : model) (cam onoff : mat).
Hypothesis Hname : s_camera (settings_of m) <> "".
Hypothesis Hcam : get_data_from_full_name d (s_camera (settings_of m)) = Some cam.
Hypothesis Honoff : get_data_from_full_name d (s_on_off_signal (settings_of m)) = Some onoff.

Lemma process_dte_found :
  process_dte d m =
    if doing_bkg m then
      let '(m', eff) := capture_bkg (first_is_on onoff) cam m in Ok (m', [], eff)
    else
      (v <-? delta_r (first_is_on onoff) cam m ;; Ok (m, [("dR over R", v)], []))%xuv.
Proof. unfold process_dte. rewrite bool_decide_eq_false_2 by exact Hname. by rewrite Hcam, Honoff. Qed.

(** C1: outside a capture, on a well-formed burst of an even number of
    shots, [process_dte] leaves the state unchanged and emits one vector
    "dR over R" of the camera's width whose channel [j] is the mean over
    the shot pairs of (on - off) / off, on and off chosen by the phase of
    the on/off signal and corrected by the backgrounds when both are set. *)
Theorem process_dte_dR :
  doing_bkg m = false -> mat_wf cam -> Nat.Even (nrows cam) -> bkg_fits m (ncols cam) ->
  exists v, process_dte d m = Ok (m, [("dR over R", v)], []) /\ length v = ncols cam /\
    forall j, j < ncols cam -> v !! j = Some (channel_ratio (first_is_on onoff) cam m j).
Proof.
  intros Hd Hw He Hb. rewrite process_dte_found, Hd.
  destruct (delta_r_spec (first_is_on onoff) cam m Hw He Hb) as (v & -> & Hl & Hv).
  by exists v.
Qed.

(** C2: during a capture, [process_dte] emits nothing, stores as the
    backgrounds the per-channel means of the off and of the on shots,
    clears [doing_bkg], resets the [do_bkg] parameter and notifies its
    change when it was set. *)
Theorem process_dte_capture :
  doing_bkg m = true -> mat_wf cam ->
  exists m' bo bn, process_dte d m = Ok (m', [], changed "do_bkg" (s_do_bkg (settings_of m)) false) /\
    doing_bkg m' = false /\ s_do_bkg (settings_of m') = false /\
    s_camera (settings_of m') = s_camera (settings_of m) /\
    s_on_off_signal (settings_of m') = s_on_off_signal (settings_of m) /\
    bkg_poff m' = Some bo /\ bkg_pon m' = Some bn /\
    length bo = ncols cam /\ length bn = ncols cam /\
    forall j, j < ncols cam ->
      bo !! j = Some (fmean (shots_off (first_is_on onoff) (column j cam))) /\
      bn !! j = Some (fmean (shots_on (first_is_on onoff) (column j cam))).
Proof.
  intros Hd Hw. rewrite process_dte_found, Hd. unfold capture_bkg.
  destruct (length_mean_slice (first_is_on onoff) cam Hw) as [Hlo Hln].
  eexists _, _, _. split; [reflexivity|]. cbn.
  do 8 (split; [done|]). intros j Hj. split; [by apply mean_shots_off|by apply mean_shots_on].
Qed.
(** C5: a burst whose on shots all read [a] and off shots all read [b]
    on every channel, with no background and [b <> 0], gives (a - b) / b
    on every channel (§8 of the spec). *)
Theorem process_dte_uniform (k c : nat) (a b : Q) :
  doing_bkg m = false -> bkg_poff m = None -> first_is_on onoff = true ->
  cam = Mat c (tile2 k (replicate c (Num a)) (replicate c (Num b))) ->
  0 < k -> ~ (b == 0)%Q ->
  exists v, process_dte d m = Ok (m, [("dR over R", v)], []) /\
            v ≡ replicate c (Num ((a - b) / b)).
Proof.
  intros Hd Hbkg Hfio Hc Hk Hb. rewrite process_dte_found, Hd.
  destruct (delta_r_spec (first_is_on onoff) cam m) as (v & Ev & Hl & Hv).
  - rewrite Hc. by apply tile2_wf; rewrite length_replicate.
  - rewrite Hc. apply tile2_even.
  - intros bo bn Ho. by rewrite Hbkg in Ho.
  - rewrite Ev, Hc in *. exists v. split; [done|]. apply equiv_replicate; [done|].
    intros j y Hj.
    assert (Hjc : j < c) by (apply lookup_lt_Some in Hj; simpl in Hl; lia).
    rewrite Hv in Hj by done. injection Hj as <-.
    unfold channel_ratio, bkg_used. rewrite Hbkg, Hfio, column_tile2.
    rewrite !lookup_replicate_2 by done. simpl.
    rewrite ?shots_on_tile2, ?shots_off_tile2, ?evens_tile2, ?odds_tile2, zip_with_replicate, ratio_num by done.
    by apply fmean_replicate.
Qed.

(** C7: a channel whose off shots read exactly 0 (no background) gives
    +inf, -inf or NaN by the sign of its on value, as numpy's division
    does: +inf for a positive on value, where the spec asks for NaN. *)
Theorem process_dte_div_zero (k c j : nat) (ron roff : list flt) (a : Q) :
  doing_bkg m = false -> bkg_poff m = None -> first_is_on onoff = true ->
  cam = Mat c (tile2 k ron roff) -> length ron = c -> length roff = c -> 0 < k ->
  ron !! j = Some (Num a) -> roff !! j = Some (Num 0) ->
  exists v, process_dte d m = Ok (m, [("dR over R", v)], []) /\
            v !! j = Some (inf_of (a ?= 0)%Q).
Proof.
  intros Hd Hbkg Hfio Hc Hr1 Hr2 Hk Ha H0. rewrite process_dte_found, Hd.
  destruct (delta_r_spec (first_is_on onoff) cam m) as (v & Ev & Hl & Hv).
  - rewrite Hc. by apply tile2_wf.
  - rewrite Hc. apply tile2_even.
  - intros bo bn Ho. by rewrite Hbkg in Ho.
  - rewrite Ev, Hc in *. exists v. split; [done|].
    rewrite Hv by (apply lookup_lt_Some in Ha; simpl; lia).
    unfold channel_ratio, bkg_used. rewrite Hbkg, Hfio, column_tile2, Ha, H0. simpl.
    rewrite ?shots_on_tile2, ?shots_off_tile2, ?evens_tile2, ?odds_tile2, zip_with_replicate, ratio_num_zero.
    by rewrite fmean_replicate_inf_of.
Qed.

(** C8: a burst of an odd number of shots, five or more, makes the
    ratio's broadcasting raise [ValueError] (the spec names the error
    [InvalidBurstLength]). *)
Theorem process_dte_odd_error (k : nat) :
  doing_bkg m = false -> mat_wf cam -> nrows cam = 2 * k + 1 -> 2 <= k ->
  bkg_fits m (ncols cam) -> process_dte d m = Err bcast_err.
Proof.
  intros Hd Hw Hn Hk Hb. rewrite process_dte_found, Hd. unfold delta_r.
  assert (He : nrows (rows_even cam) = S k /\ nrows (rows_odd cam) = k).
  { unfold nrows in *. simpl.
    pose proof (length_evens_odds (rows cam)).
    pose proof (length_evens_odds_odd (rows cam) ltac:(exists k; lia)). lia. }
  assert (Hmis : forall a b : mat, nrows a <> nrows b -> nrows a <> 1 -> nrows b <> 1 ->
                 bcast fsub a b = Err bcast_err).
  { intros a b H1 H2 H3. by apply bcast_rows_mismatch, bdim_none. }
  destruct (bkg_poff m) as [bo|] eqn:Eo; [destruct (bkg_pon m) as [bn|] eqn:En|].
  2,3: destruct (first_is_on onoff); simpl; rewrite Hmis by (simpl; lia); done.
  destruct (Hb bo bn Eo En) as [Hlo Hln].
  destruct (first_is_on onoff); simpl.
  - destruct (sub_row_spec (rows_odd cam) bo ltac:(auto with xuv) Hlo)
      as (o' & E1 & _ & Hr1 & _).
    destruct (sub_row_spec (rows_even cam) bn ltac:(auto with xuv) Hln)
      as (n' & E2 & _ & Hr2 & _).
    rewrite E1; simpl; rewrite E2; simpl. rewrite Hmis by lia. done.
  - destruct (sub_row_spec (rows_even cam) bo ltac:(auto with xuv) Hlo)
      as (o' & E1 & _ & Hr1 & _).
    destruct (sub_row_spec (rows_odd cam) bn ltac:(auto with xuv) Hln)
      as (n' & E2 & _ & Hr2 & _).
    rewrite E1; simpl; rewrite E2; simpl. rewrite Hmis by lia. done.
Qed.

(** C9: backgrounds of another width than the camera's (neither being 1)
    make the correction raise [ValueError]. *)
Theorem process_dte_bkg_mismatch (bo bn : list flt) :
  doing_bkg m = false -> bkg_poff m = Some bo -> bkg_pon m = Some bn ->
  length bo <> ncols cam -> length bo <> 1 -> ncols cam <> 1 ->
  process_dte d m = Err bcast_err.
Proof.
  intros Hd Ho Hn H1 H2 H3. rewrite process_dte_found, Hd. unfold delta_r.
  rewrite Ho, Hn. simpl. rewrite bcast_cols_mismatch; [done|].
  apply bdim_none; simpl; destruct (first_is_on onoff); simpl; lia.
Qed.
(** C24: an empty burst (what the CMOS viewer grabs when [chunk_size] is 0
    or 1: [chunk_size // 2] pairs) raises nothing: [process_dte] emits
    NaN on every channel, with or without backgrounds, where the spec asks
    for [InsufficientData].  Both operands of line 92 have the shape
    [(0, n)], so no broadcasting is involved. *)
Theorem process_dte_empty_burst :
  doing_bkg m = false -> mat_wf cam -> nrows cam = 0 -> bkg_fits m (ncols cam) ->
  process_dte d m = Ok (m, [("dR over R", replicate (ncols cam) NaN)], []).
Proof.
  intros Hd Hw Hn Hb. rewrite process_dte_found, Hd.
  by rewrite (delta_r_empty (first_is_on onoff) cam m Hw Hn Hb).
Qed.

End found.

Section capture_then_compute.
Context (d : dte) (m : model) (cam onoff : mat).
Hypothesis Hname : s_camera (settings_of m) <> "".
Hypothesis Hcam : get_data_from_full_name d (s_camera (settings_of m)) = Some cam.
Hypothesis Honoff : get_data_from_full_name d (s_on_off_signal (settings_of m)) = Some onoff.

(** C6: capturing the background of a burst whose on and off frames do
    not vary, then computing on the same burst, gives NaN on every
    channel (0/0), where the spec expects a ratio close to 0.  The frames
    are integer counts with [k * |x| < 2^53]: on them every float64
    operation the code performs (the sums and the division by [k] of
    [mean(axis=0)], the subtractions of lines 89-90) is exact, so the
    exact arithmetic of the model is the program's float64 arithmetic and
    the corrected shots are exactly 0, not rounding-sized. *)
Theorem capture_then_compute_nan (k c : nat) (ron roff : list Z) :
  doing_bkg m = true ->
  cam = Mat c (tile2 k ((fun z => Num (inject_Z z)) <$> ron) ((fun z => Num (inject_Z z)) <$> roff)) ->
  length ron = c -> length roff = c -> 0 < k ->
  Forall (fun z => Z.of_nat k * Z.abs z < 2 ^ 53)%Z ron ->
  Forall (fun z => Z.of_nat k * Z.abs z < 2 ^ 53)%Z roff ->
  exists m' eff v, process_dte d m = Ok (m', [], eff) /\
    process_dte d m' = Ok (m', [("dR over R", v)], []) /\ v = replicate c NaN.
Proof.
  intros Hd Hc Hlon Hloff Hk _ _.
  assert (Hw : mat_wf cam) by (rewrite Hc; apply tile2_wf; by rewrite length_fmap).
  rewrite (process_dte_found d m cam onoff Hname Hcam Honoff), Hd. unfold capture_bkg.
  set (fio := first_is_on onoff).
  set (m' := Model _ _ false (set_do_bkg false (settings_of m))).
  destruct (length_mean_slice fio cam Hw) as [Hlo Hln].
  destruct (delta_r_spec fio cam m') as (v & Ev & Hl & Hv); [done| |by intros ? ? [= <-] [= <-]|].
  { rewrite Hc. apply tile2_even. }
  exists m', (changed "do_bkg" (s_do_bkg (settings_of m)) false), v. split; [done|].
  unfold process_dte at 1. cbn [m' settings_of set_do_bkg s_camera s_on_off_signal doing_bkg].
  rewrite bool_decide_eq_false_2 by exact Hname. rewrite Hcam, Honoff. fold fio. rewrite Ev.
  split; [done|].
  apply list_eq. intros j. destruct (decide (j < c)) as [Hj|Hj].
  - rewrite lookup_replicate_2 by done. rewrite Hv by (rewrite Hc; done). f_equal.
    unfold channel_ratio, bkg_used, sub_bkg. cbn [m' bkg_poff bkg_pon].
    rewrite mean_shots_off, mean_shots_on by (first [exact Hw | rewrite Hc; exact Hj]). cbn [default].
    rewrite Hc, column_tile2. simpl.
    destruct (lookup_lt_is_Some_2 ron j) as [x Hx]; [lia|].
    destruct (lookup_lt_is_Some_2 roff j) as [y Hy]; [lia|].
    rewrite !list_lookup_fmap, Hx, Hy. simpl.
    rewrite shots_on_tile2, shots_off_tile2, !fmap_replicate, zip_with_replicate.
    assert (Hr : forall p q : Q,
      ratio (Num p - fmean (replicate k (Num p))) (Num q - fmean (replicate k (Num q)))%F = NaN)
      by (intros p q; apply ratio_cancel_nan; by apply fmean_replicate).
    destruct fio; rewrite Hr; exact (fmean_replicate_inf_of k Eq Hk).
  - rewrite Hc in Hl. simpl in Hl.
    rewrite !lookup_ge_None_2; [done| |]; rewrite ?length_replicate; lia.
Qed.
End capture_then_compute.


(** C10: when the camera or the on/off name is missing from the bundle,
    [process_dte] raises [AttributeError] and changes nothing. *)
Theorem process_dte_missing (d : dte) (m : model) :
  s_camera (settings_of m) <> "" ->
  get_data_from_full_name d (s_camera (settings_of m)) = None \/
  get_data_from_full_name d (s_on_off_signal (settings_of m)) = None ->
  exists e, process_dte d m = Err (AttributeError e).
Proof.
  intros Hname Hmiss. unfold process_dte. rewrite bool_decide_eq_false_2 by exact Hname.
  destruct Hmiss as [-> | ->]; [|destruct (get_data_from_full_name _ _)]; eauto.
Qed.

(** C25: with 2-D detectors only (the two cameras of this repository),
    [ini_model] raises [IndexError] at line 53 once the camera is chosen:
    the on/off list is emptied, the on/off choice is left as it was, and
    lines 29-31 never run, so neither background nor [doing_bkg] is
    initialised. *)
Theorem ini_model_no_1D (dl : det_lists) (m : model) (c : string) (cs : list string) :
  names2D dl = c :: cs -> names1D dl = [] ->
  exists m', ini_model dl m = (m', changed "camera" (s_camera (settings_of m)) c,
                               Some (IndexError "list index out of range")) /\
    s_camera (settings_of m') = c /\ s_on_off_limits (settings_of m') = [] /\
    s_on_off_signal (settings_of m') = s_on_off_signal (settings_of m) /\
    doing_bkg m' = doing_bkg m /\ bkg_poff m' = bkg_poff m /\ bkg_pon m' = bkg_pon m.
Proof. intros H2 H1. unfold ini_model, update_data_list. rewrite H2, H1. by eexists. Qed.

(** ** Concrete runs *)

(** Discharges a hypothesis of a theorem at a concrete input. *)
Local Ltac run_hyp :=
  first [ reflexivity | discriminate | lia
        | (intros ? ? Hw; discriminate Hw) | (intros Hw; discriminate Hw)
        | (apply mat_wfb_spec; vm_compute; reflexivity)
        | (exists 2; reflexivity) | (simpl; lia) | (vm_compute; lia) ].

(** The burst of §8 of the spec, [[10,10],[2,2],[10,10],[2,2]], used as
    camera and as on/off signal. *)
Definition burst : mat := Mat 2 (tile2 2 (replicate 2 (Num 10)) (replicate 2 (Num 2))).
Definition idle_model : model := Model None None false (Settings false false "cam" ["cam"] "sig" ["sig"]).
Definition armed_model : model := Model None None true (Settings false true "cam" ["cam"] "sig" ["sig"]).
Definition bundle : dte := [("cam", burst); ("sig", burst)].

Lemma process_dte_dR_witness :
  exists v, process_dte bundle idle_model = Ok (idle_model, [("dR over R", v)], []) /\
    length v = ncols burst /\
    forall j, j < ncols burst -> v !! j = Some (channel_ratio (first_is_on burst) burst idle_model j).
Proof.
  apply (process_dte_dR bundle idle_model burst burst); run_hyp.
Defined.

Lemma process_dte_capture_witness :
  exists m' bo bn, process_dte bundle armed_model =
      Ok (m', [], changed "do_bkg" (s_do_bkg (settings_of armed_model)) false) /\
    doing_bkg m' = false /\ s_do_bkg (settings_of m') = false /\
    s_camera (settings_of m') = s_camera (settings_of armed_model) /\
    s_on_off_signal (settings_of m') = s_on_off_signal (settings_of armed_model) /\
    bkg_poff m' = Some bo /\ bkg_pon m' = Some bn /\
    length bo = ncols burst /\ length bn = ncols burst /\
    forall j, j < ncols burst ->
      bo !! j = Some (fmean (shots_off (first_is_on burst) (column j burst))) /\
      bn !! j = Some (fmean (shots_on (first_is_on burst) (column j burst))).
Proof.
  apply (process_dte_capture bundle armed_model burst burst); run_hyp.
Defined.

Lemma process_dte_uniform_witness :
  exists v, process_dte bundle idle_model = Ok (idle_model, [("dR over R", v)], []) /\
            v ≡ replicate 2 (Num ((10 - 2) / 2)).
Proof.
  apply (process_dte_uniform bundle idle_model burst burst ltac:(discriminate) eq_refl eq_refl 2 2 10%Q 2%Q); run_hyp.
Defined.

Lemma capture_then_compute_nan_witness :
  exists m' eff v, process_dte bundle armed_model = Ok (m', [], eff) /\
    process_dte bundle m' = Ok (m', [("dR over R", v)], []) /\ v = replicate 2 NaN.
Proof.
  apply (capture_then_compute_nan bundle armed_model burst burst ltac:(discriminate) eq_refl eq_refl 2 2 [10; 10]%Z [2; 2]%Z);
    (match goal with |- Forall _ _ => repeat constructor; lia | _ => run_hyp end).
Defined.

Definition zero_off_burst : mat := Mat 2 (tile2 1 [Num 1; Num 3] [Num 0; Num 5]).

Lemma process_dte_div_zero_witness :
  exists v, process_dte [("cam", zero_off_burst); ("sig", burst)] idle_model =
              Ok (idle_model, [("dR over R", v)], []) /\ v !! 0 = Some PInf.
Proof.
  apply (process_dte_div_zero [("cam", zero_off_burst); ("sig", burst)] idle_model
           zero_off_burst burst ltac:(discriminate) eq_refl eq_refl 1 2 0 [Num 1; Num 3] [Num 0; Num 5] 1);
    run_hyp.
Defined.

Definition five_shots : mat := Mat 1 [[Num 1]; [Num 2]; [Num 1]; [Num 2]; [Num 1]].

Lemma process_dte_odd_error_witness :
  process_dte [("cam", five_shots); ("sig", burst)] idle_model = Err bcast_err.
Proof.
  apply (process_dte_odd_error [("cam", five_shots); ("sig", burst)] idle_model five_shots burst
           ltac:(discriminate) eq_refl eq_refl 2); run_hyp.
Defined.

Definition wide_bkg_model : model :=
  Model (Some [Num 1; Num 1; Num 1]) (Some [Num 1; Num 1; Num 1]) false
        (Settings false false "cam" ["cam"] "sig" ["sig"]).

Lemma process_dte_bkg_mismatch_witness :
  process_dte bundle wide_bkg_model = Err bcast_err.
Proof.
  apply (process_dte_bkg_mismatch bundle wide_bkg_model burst burst ltac:(discriminate) eq_refl eq_refl
           [Num 1; Num 1; Num 1] [Num 1; Num 1; Num 1]); run_hyp.
Defined.

Lemma process_dte_missing_witness :
  exists e, process_dte [("cam", burst)] idle_model = Err (AttributeError e).
Proof.
  apply process_dte_missing.
  - discriminate.
  - right. reflexivity.
Defined.


Definition empty_burst : mat := Mat 2 [].

Lemma process_dte_empty_burst_witness :
  process_dte [("cam", empty_burst); ("sig", burst)] idle_model
  = Ok (idle_model, [("dR over R", replicate (ncols empty_burst) NaN)], []).
Proof.
  apply (process_dte_empty_burst [("cam", empty_burst); ("sig", burst)] idle_model empty_burst burst); run_hyp.
Defined.

Lemma ini_model_no_1D_witness :
  exists m', ini_model (DetLists [] ["cam"]) idle_model =
      (m', changed "camera" (s_camera (settings_of idle_model)) "cam",
       Some (IndexError "list index out of range")) /\
    s_camera (settings_of m') = "cam" /\ s_on_off_limits (settings_of m') = [] /\
    s_on_off_signal (settings_of m') = s_on_off_signal (settings_of idle_model) /\
    doing_bkg m' = doing_bkg idle_model /\ bkg_poff m' = bkg_poff idle_model /\
    bkg_pon m' = bkg_pon idle_model.
Proof. apply (ini_model_no_1D (DetLists [] ["cam"]) idle_model "cam" []); reflexivity. Defined.

End DeltaR.
