(* ===== verification/BkgMachine.v ===== *)
(** * The background capture as a state machine (models/dR_model.py and its host)

    [DataMixerModelDeltaR] reacts to three things the host delivers: a
    user click on the [do_bkg] or [get_data] button of its parameter tree
    (pyqtgraph changes the value and, when it changed, the host calls
    [update_settings]) and an acquisition handed to [process_dte].  A
    [setValue] the model makes itself re-enters [update_settings]
    synchronously when the host notifies programmatic changes ([notify]);
    the [do_bkg] reset of line 77 then runs [do_bkg] again before line 78.
    The concrete machine is the step relation [cstep] over the model's
    state; the spec's machine (Idle / CapturingNext, with the held
    background) is [astep]; [abs] maps the first onto the second. *)

From S2P Require Import Prelude Flt NdArray DRModel.
From Stdlib Require Import QArith.
Local Close Scope Q_scope.
Local Open Scope string_scope.
Local Open Scope xuv_scope.

Module BkgMachine.
Import DeltaR.

(** ** The host *)

Definition set_get_data (v : bool) (s : settings) : settings :=
  Settings v (s_do_bkg s) (s_camera s) (s_camera_limits s) (s_on_off_signal s) (s_on_off_limits s).

(** The two buttons of [params]. *)
Inductive button := BDoBkg | BGetData.

Definition button_name (b : button) : string :=
  match b with BDoBkg => "do_bkg" | BGetData => "get_data" end.

Definition button_value (b : button) (s : settings) : bool :=
  match b with BDoBkg => s_do_bkg s | BGetData => s_get_data s end.

Definition set_button (b : button) (v : bool) (s : settings) : settings :=
  match b with BDoBkg => set_do_bkg v s | BGetData => set_get_data v s end.

(** A click sets the button's value; the host calls [update_settings]
    only when the value changed. *)
Definition click (dl : det_lists) (b : button) (v : bool) (m : model) : model * list effect * option pyerr :=
  if bool_decide (button_value b (settings_of m) = v) then (m, [], None)
  else update_settings dl (button_name b) (with_settings (set_button b v (settings_of m)) m).

(** What the host does with an effect of a handler: a [snap()] asks for one
    more acquisition; a notified change of [do_bkg] re-enters
    [update_settings], whose [do_bkg] asks for one more acquisition. *)
Definition reentry (notify : bool) (e : effect) : list effect :=
  match e with
  | Snap => [Snap]
  | ValueChanged p => if notify && bool_decide (p = "do_bkg") then [Snap] else []
  end.

Inductive event :=
  | Click (b : button) (v : bool)
  | Acquired (d : dte).

(** The concrete machine: the model's state, the event, the acquisitions
    the step asks for, the new state.  An exception leaves the state as
    the handler left it. *)
Inductive cstep (notify : bool) (dl : det_lists) : model -> event -> output -> list effect -> model -> Prop :=
  | cstep_click b v m m' eff err :
      click dl b v m = (m', eff, err) ->
      cstep notify dl m (Click b v) [] (flat_map (reentry notify) eff) m'
  | cstep_acquired d m m' out eff :
      process_dte d m = Ok (m', out, eff) ->
      cstep notify dl m (Acquired d) out (flat_map (reentry notify) eff) m'
  | cstep_raise d m e :
      process_dte d m = Err e ->
      cstep notify dl m (Acquired d) [] [] m.

(** States reachable from [ini_model] on a fresh parameter tree. *)
Inductive reachable (notify : bool) (dl : det_lists) : model -> Prop :=
  | reach_init m0 m eff :
      ini_model dl m0 = (m, eff, None) -> reachable notify dl m
  | reach_step m ev out eff m' :
      reachable notify dl m -> cstep notify dl m ev out eff m' -> reachable notify dl m'.

(** ** The capture with the synchronous re-entrance of line 77

    Lines 71-75 store the backgrounds, line 77 resets [do_bkg] (and a
    notifying host runs [update_settings "do_bkg"] right there), line 78
    clears [doing_bkg]. *)
Definition capture_reentrant (notify : bool) (dl : det_lists) (fio : bool) (cam : mat) (m : model)
    : model * list effect :=
  let poff := if fio then rows_odd cam else rows_even cam in
  let pon := if fio then rows_even cam else rows_odd cam in
  let m1 := Model (Some (mean_axis0 poff)) (Some (mean_axis0 pon)) (doing_bkg m) (settings_of m) in
  let m1' := with_settings (set_do_bkg false (settings_of m1)) m1 in
  let '(m2, e2, _) :=
    if notify && negb (bool_decide (s_do_bkg (settings_of m1) = false))
    then update_settings dl "do_bkg" m1' else (m1', [], None) in
  (Model (bkg_poff m2) (bkg_pon m2) false (settings_of m2), e2).

(** ** The spec's machine *)

Definition bkg_of (m : model) : option (list flt * list flt) :=
  match bkg_poff m, bkg_pon m with
  | Some o, Some n => Some (o, n)
  | _, _ => None
  end.

Inductive astate :=
  | AIdle (b : option (list flt * list flt))
  | ACapturing (b : option (list flt * list flt)).

Definition abs (m : model) : astate :=
  if doing_bkg m then ACapturing (bkg_of m) else AIdle (bkg_of m).

(** [captureBackground]: the per-channel means of the off and of the on
    shots. *)
Definition is_capture (fio : bool) (cam : mat) (bg : list flt * list flt) : Prop :=
  length bg.1 = ncols cam /\ length bg.2 = ncols cam /\
  forall j, j < ncols cam ->
    bg.1 !! j = Some (fmean (shots_off fio (column j cam))) /\
    bg.2 !! j = Some (fmean (shots_on fio (column j cam))).

(** [computeRatio]: channel [j] is the mean of the ratios of the
    background-corrected on and off shots. *)
Definition is_ratio (b : option (list flt * list flt)) (fio : bool) (cam : mat) (v : list flt) : Prop :=
  length v = ncols cam /\
  forall j, j < ncols cam ->
    v !! j = Some (fmean (zip_with ratio (sub_bkg (snd <$> b) j (shots_on fio (column j cam)))
                                         (sub_bkg (fst <$> b) j (shots_off fio (column j cam))))).

Inductive alabel :=
  | LTake
  | LBurst (cam : mat) (fio : bool) (out : option (list flt))
  | LTau.

Inductive astep : astate -> alabel -> astate -> Prop :=
  | a_take b : astep (AIdle b) LTake (ACapturing b)
  | a_take_again b : astep (ACapturing b) LTake (ACapturing b)
  | a_capture b cam fio bg : is_capture fio cam bg -> astep (ACapturing b) (LBurst cam fio None) (AIdle (Some bg))
  | a_compute b cam fio v : is_ratio b fio cam v -> astep (AIdle b) (LBurst cam fio (Some v)) (AIdle b)
  | a_tau s : astep s LTau s.

(** What the concrete step shows of the abstract label: the camera and
    phase decision of a burst, and the emitted ratio. *)
Definition observe (m : model) (ev : event) (out : output) (l : alabel) : Prop :=
  match ev, l with
  | Click BDoBkg _, (LTake | LTau) => out = []
  | Click BGetData _, LTau => out = []
  | Acquired d, LBurst cam fio ov =>
      get_data_from_full_name d (s_camera (settings_of m)) = Some cam /\
      (exists onoff, get_data_from_full_name d (s_on_off_signal (settings_of m)) = Some onoff /\
                     fio = first_is_on onoff) /\
      out = match ov with Some v => [("dR over R", v)] | None => [] end
  | Acquired d, LTau => s_camera (settings_of m) = "" /\ out = []
  | _, _ => False
  end.

(** The acquisitions the refinement covers: the camera and the on/off
    signal are in the bundle, the burst is well formed with an even number
    of shots, and held backgrounds have its width. *)
Definition event_ok (m : model) (ev : event) : Prop :=
  match ev with
  | Click _ _ => True
  | Acquired d =>
      s_camera (settings_of m) <> "" ->
      exists cam onoff,
        get_data_from_full_name d (s_camera (settings_of m)) = Some cam /\
        get_data_from_full_name d (s_on_off_signal (settings_of m)) = Some onoff /\
        mat_wf cam /\ Nat.Even (nrows cam) /\ bkg_fits m (ncols cam)
  end.

(** ** What each handler does to the backgrounds and the capture flag *)

Lemma update_data_list_keeps (dl : det_lists) (m : model) :
  let '(m', _, _) := update_data_list dl m in
  bkg_poff m' = bkg_poff m /\ bkg_pon m' = bkg_pon m /\ doing_bkg m' = doing_bkg m.
Proof. unfold update_data_list, with_settings. by repeat case_match; simplify_eq. Qed.

Lemma update_settings_keeps (dl : det_lists) (p : string) (m : model) :
  let '(m', _, _) := update_settings dl p m in
  bkg_poff m' = bkg_poff m /\ bkg_pon m' = bkg_pon m /\
  (doing_bkg m' = doing_bkg m \/ (p = "do_bkg" /\ doing_bkg m' = true)).
Proof.
  unfold update_settings. case_bool_decide as Hp.
  - cbn [do_bkg]. case_bool_decide; [by subst|].
    pose proof (update_data_list_keeps dl (Model (bkg_poff m) (bkg_pon m) true (settings_of m))).
    repeat case_match; simplify_eq/=; intuition.
  - case_bool_decide; [|by auto].
    pose proof (update_data_list_keeps dl m). repeat case_match; simplify_eq/=; intuition.
Qed.

Lemma click_keeps (dl : det_lists) (b : button) (v : bool) (m m' : model) (eff : list effect) (err : option pyerr) :
  click dl b v m = (m', eff, err) ->
  bkg_poff m' = bkg_poff m /\ bkg_pon m' = bkg_pon m /\
  (doing_bkg m' = doing_bkg m \/ (b = BDoBkg /\ doing_bkg m' = true)).
Proof.
  unfold click. case_bool_decide; [intros [= <- _ _]; auto|].
  pose proof (update_settings_keeps dl (button_name b) (with_settings (set_button b v (settings_of m)) m)) as Hk.
  intros E. rewrite E in Hk. destruct Hk as (H1 & H2 & H3). do 2 (split; [done|]).
  destruct H3 as [H3|[H3 H4]]; [by left|right]. by destruct b.
Qed.

(** [process_dte] either keeps the state or, during a capture, stores two
    backgrounds and clears the capture flag. *)
Lemma process_dte_state (d : dte) (m m' : model) (out : output) (eff : list effect) :
  process_dte d m = Ok (m', out, eff) ->
  m' = m \/ (doing_bkg m = true /\ exists o n, bkg_poff m' = Some o /\ bkg_pon m' = Some n /\
                                              doing_bkg m' = false).
Proof.
  unfold process_dte. case_bool_decide; [intros [= <- _ _]; by left|].
  destruct (get_data_from_full_name d (s_camera (settings_of m))) as [cam|]; [|discriminate].
  destruct (get_data_from_full_name d (s_on_off_signal (settings_of m))) as [onoff|]; [|discriminate].
  destruct (doing_bkg m).
  - intros [= <- _ _]. right. split; [done|]. eexists _, _. done.
  - destruct (delta_r _ _ _); cbn [rbind]; [|discriminate]. intros [= <- _ _]. by left.
Qed.

Lemma bkg_used_of (m : model) : bkg_used m = (fst <$> bkg_of m, snd <$> bkg_of m).
Proof. unfold bkg_used, bkg_of. by repeat case_match. Qed.

Lemma abs_same (m m' : model) : bkg_of m' = bkg_of m -> doing_bkg m' = doing_bkg m -> abs m' = abs m.
Proof. unfold abs. by intros -> ->. Qed.

(** ** The held background is never half set *)

Definition bkg_paired (m : model) : Prop := bkg_poff m = None <-> bkg_pon m = None.

Lemma cstep_paired (notify : bool) (dl : det_lists) (m m' : model) (ev : event) (out : output)
    (eff : list effect) :
  cstep notify dl m ev out eff m' -> bkg_paired m -> bkg_paired m'.
Proof.
  unfold bkg_paired. intros Hs Hm. inversion Hs as [b v ? ? eff' err Hc| d ? ? ? eff' Hp|]; subst.
  - apply click_keeps in Hc as (-> & -> & _). done.
  - apply process_dte_state in Hp as [->|(_ & o & n & -> & -> & _)]; [done|]. naive_solver.
  - done.
Qed.

(** C4: in every state reachable from [ini_model], the two backgrounds
    are both held or both absent, whatever the host's notification policy:
    the correction of lines 88-90 never sees only one of them. *)
Theorem reachable_bkg_paired (notify : bool) (dl : det_lists) (m : model) :
  reachable notify dl m -> bkg_paired m.
Proof.
  induction 1 as [m0 m eff Hi|m ev out eff m' _ IH Hs].
  - unfold ini_model in Hi. destruct (update_data_list dl m0) as [[m1 e1] [e|]]; simplify_eq.
    unfold bkg_paired. done.
  - by eapply cstep_paired.
Qed.

(** ** The concrete machine refines the spec's *)

(** The step of an acquisition whose [process_dte] result is known. *)
Local Ltac invert_acquired Hs E :=
  inversion Hs as [|? ? ? ? ? Hp|? ? ? Hp]; subst; rewrite E in Hp; simplify_eq.

Lemma acquired_refines (notify : bool) (dl : det_lists) (d : dte) (m m' : model) (out : output)
    (eff : list effect) :
  cstep notify dl m (Acquired d) out eff m' -> event_ok m (Acquired d) ->
  exists l, astep (abs m) l (abs m') /\ observe m (Acquired d) out l.
Proof.
  intros Hs Hok. simpl in Hok.
  destruct (decide (s_camera (settings_of m) = "")) as [He|Hn].
  { assert (E : process_dte d m = Ok (m, [], [])) by (unfold process_dte; by rewrite bool_decide_eq_true_2).
    invert_acquired Hs E. exists LTau. split; [constructor|done]. }
  destruct (Hok Hn) as (cam & onoff & Hcam & Hon & Hw & He & Hb).
  pose proof (process_dte_found d m cam onoff Hn Hcam Hon) as E.
  destruct (doing_bkg m) eqn:Hd.
  - unfold capture_bkg in E. destruct (length_mean_slice (first_is_on onoff) cam Hw) as [Hlo Hln].
    invert_acquired Hs E.
    exists (LBurst cam (first_is_on onoff) None). split; [|split; [done|split; [by eauto|done]]].
    unfold abs at 1. rewrite Hd. apply a_capture. split; [done|split; [done|]].
    intros j Hj. cbn. split; [by apply mean_shots_off|by apply mean_shots_on].
  - destruct (delta_r_spec (first_is_on onoff) cam m Hw He Hb) as (v & Ev & Hl & Hv).
    rewrite Ev in E. cbn [rbind] in E. invert_acquired Hs E.
    exists (LBurst cam (first_is_on onoff) (Some v)). split; [|split; [done|split; [by eauto|done]]].
    unfold abs. rewrite Hd. apply a_compute. split; [done|].
    intros j Hj. rewrite Hv by done. unfold channel_ratio. by rewrite bkg_used_of.
Qed.

Lemma click_refines (notify : bool) (dl : det_lists) (b : button) (v : bool) (m m' : model)
    (out : output) (eff : list effect) :
  cstep notify dl m (Click b v) out eff m' ->
  exists l, astep (abs m) l (abs m') /\ observe m (Click b v) out l.
Proof.
  intros Hs. inversion Hs as [? ? ? ? eff' err Hc| |]; subst.
  apply click_keeps in Hc as (Ho & Hn & Hd').
  assert (Hb : bkg_of m' = bkg_of m) by (unfold bkg_of; by rewrite Ho, Hn).
  destruct Hd' as [Hd|[-> Hd]].
  - exists LTau. rewrite (abs_same m' m) by done. split; [constructor|by destruct b].
  - exists LTake. split; [|done]. unfold abs at 2. rewrite Hd, Hb.
    unfold abs. destruct (doing_bkg m); constructor.
Qed.

(** C3: every step of the model and its host is a step of the spec's
    background machine (Idle / CapturingNext with the held background), or
    a silent step: a click on [do_bkg] arms a capture, the next burst is
    consumed by the capture, which stores the channel means of the off and
    on shots, and outside a capture the emitted "dR over R" is the spec's
    background-corrected ratio of the burst. *)
Theorem cstep_refines (notify : bool) (dl : det_lists) (m m' : model) (ev : event) (out : output)
    (eff : list effect) :
  cstep notify dl m ev out eff m' -> event_ok m ev ->
  exists l, astep (abs m) l (abs m') /\ observe m ev out l.
Proof.
  destruct ev as [b v|d]; intros Hs Hok.
  - by eapply click_refines.
  - by eapply acquired_refines.
Qed.

(** C22: the capture with the host's synchronous re-entrance at line 77
    (a notified [setValue(False)] runs [do_bkg] before line 78 clears the
    flag) ends in the state [capture_bkg] computes, and asks for one more
    acquisition exactly when the host notifies and [do_bkg] was set. *)
Theorem capture_reentrant_spec (notify : bool) (dl : det_lists) (fio : bool) (cam : mat) (m : model) :
  capture_reentrant notify dl fio cam m =
    ((capture_bkg fio cam m).1, flat_map (reentry notify) (capture_bkg fio cam m).2).
Proof.
  unfold capture_reentrant, capture_bkg, changed. cbn [settings_of bkg_poff bkg_pon].
  destruct notify, (s_do_bkg (settings_of m)); reflexivity.
Qed.

(** C23: a click that releases the [do_bkg] button while it is set also
    arms a capture and asks for an acquisition: [update_settings] runs
    [do_bkg] on any change of the parameter, not only when it is set. *)
Theorem click_release_arms (dl : det_lists) (m : model) :
  s_do_bkg (settings_of m) = true ->
  exists m', click dl BDoBkg false m = (m', [Snap], None) /\ doing_bkg m' = true /\
             s_do_bkg (settings_of m') = false /\ bkg_of m' = bkg_of m.
Proof.
  intros Hb. unfold click. cbn [button_value]. rewrite Hb. cbn.
  eexists. split; [reflexivity|]. done.
Qed.

(** C31: a click on [get_data], pressing or releasing it, re-runs
    [update_data_list]: the camera and the on/off signal are reset to the
    first name of each list, whatever the user had chosen, and the
    backgrounds and the capture flag are left as they were. *)
Theorem click_get_data_reselects (dl : det_lists) (m : model) (v : bool)
    (c o : string) (cs os : list string) :
  s_get_data (settings_of m) <> v -> names2D dl = c :: cs -> names1D dl = o :: os ->
  exists m' eff, click dl BGetData v m = (m', eff, None) /\
    s_camera (settings_of m') = c /\ s_on_off_signal (settings_of m') = o /\
    s_camera_limits (settings_of m') = names2D dl /\ s_on_off_limits (settings_of m') = names1D dl /\
    s_get_data (settings_of m') = v /\ bkg_of m' = bkg_of m /\ doing_bkg m' = doing_bkg m.
Proof.
  intros Hv H2 H1. unfold click. cbn [button_value].
  rewrite bool_decide_eq_false_2 by done. unfold update_settings.
  rewrite bool_decide_eq_false_2, bool_decide_eq_true_2 by done.
  unfold update_data_list. rewrite H2, H1. cbn. eexists _, _. split; [reflexivity|]. done.
Qed.

(** ** Concrete runs *)

(** The host's detector lists: one camera, one on/off signal. *)
Definition demo_lists : det_lists := DetLists ["sig"] ["cam"].

Lemma reachable_bkg_paired_witness : bkg_paired (ini_model demo_lists armed_model).1.1.
Proof.
  apply (reachable_bkg_paired false demo_lists). eapply reach_init. reflexivity.
Defined.

Lemma cstep_refines_witness :
  exists out eff m', cstep false demo_lists idle_model (Acquired bundle) out eff m' /\
    exists l, astep (abs idle_model) l (abs m') /\ observe idle_model (Acquired bundle) out l.
Proof.
  destruct (process_dte bundle idle_model) as [[[m' out] eff]|e] eqn:E; [|vm_compute in E; discriminate].
  exists out, (flat_map (reentry false) eff), m'.
  assert (Hs : cstep false demo_lists idle_model (Acquired bundle) out (flat_map (reentry false) eff) m')
    by (by constructor).
  split; [exact Hs|]. apply (cstep_refines false demo_lists idle_model m' (Acquired bundle) out _ Hs).
  intros _. exists burst, burst.
  split; [reflexivity|]. split; [reflexivity|]. split; [apply mat_wfb_spec; vm_compute; reflexivity|].
  split; [exists 2; reflexivity|]. intros ? ? Hb. discriminate Hb.
Defined.

Lemma click_release_arms_witness :
  exists m', click demo_lists BDoBkg false armed_model = (m', [Snap], None) /\ doing_bkg m' = true /\
             s_do_bkg (settings_of m') = false /\ bkg_of m' = bkg_of armed_model.
Proof. apply click_release_arms. reflexivity. Defined.

(** The user chose the second camera; pressing [get_data] brings back the
    first. *)
Definition chosen_model : model :=
  Model None None false (Settings false false "cam2" ["cam"; "cam2"] "sig" ["sig"]).

Lemma click_get_data_reselects_witness :
  exists m' eff, click (DetLists ["sig"] ["cam"; "cam2"]) BGetData true chosen_model = (m', eff, None) /\
    s_camera (settings_of m') = "cam" /\ s_on_off_signal (settings_of m') = "sig" /\
    s_camera_limits (settings_of m') = ["cam"; "cam2"] /\ s_on_off_limits (settings_of m') = ["sig"] /\
    s_get_data (settings_of m') = true /\ bkg_of m' = bkg_of chosen_model /\
    doing_bkg m' = doing_bkg chosen_model.
Proof.
  apply (click_get_data_reselects (DetLists ["sig"] ["cam"; "cam2"]) chosen_model true "cam" "sig" ["cam2"] []);
    [discriminate|reflexivity|reflexivity].
Defined.

End BkgMachine.
