(* ===== verification/HostRun.v ===== *)
(** * The host serving the snaps the model asks for

    [DataMixerModelDeltaR.do_bkg] calls [self.data_mixer.snap()]: the host
    acquires one more bundle from the detectors and hands it to
    [process_dte].  A notifying host also re-enters [update_settings] when
    line 77 resets [do_bkg], which snaps once more.  The host's queue of
    snaps is the [pending] count of [hstate]; [acquire] serves one snap with
    the bundle the detectors deliver; [drain] serves the queue with a feed
    of bundles.  The load
    [pending + doing_bkg] decreases at every acquisition: the queue a click
    starts always drains (no capture loop), within [load] acquisitions, and
    a capture armed while a snap is pending completes. *)

From S2P Require Import Prelude Flt NdArray DRModel BkgMachine.
Local Open Scope string_scope.
Local Open Scope xuv_scope.

Module HostRun.
Import DeltaR BkgMachine.

(** The model and the snaps the host still has to serve. *)
Record hstate := HState { hmodel : model; pending : nat }.

(** The snaps a handler's effects ask the host for. *)
Definition requested (notify : bool) (eff : list effect) : nat :=
  length (flat_map (reentry notify) eff).

(** The host serves one snap: the bundle goes to [process_dte]; the
    snaps its effects ask for join the queue; an exception is logged and
    the model stays as it was. *)
Definition acquire (notify : bool) (d : dte) (s : hstate) : hstate * output :=
  match process_dte d (hmodel s) with
  | Ok (m', out, eff) => (HState m' (pred (pending s) + requested notify eff), out)
  | Err _ => (HState (hmodel s) (pred (pending s)), [])
  end.

(** A click on a button of the model's parameter tree. *)
Definition hclick (notify : bool) (dl : det_lists) (b : button) (v : bool) (s : hstate) : hstate :=
  let '(m', eff, _) := click dl b v (hmodel s) in HState m' (pending s + requested notify eff).

(** The host serving its queue, bundle [i] of [feed] for the [i]-th
    acquisition, at most [fuel] acquisitions; the outputs in order. *)
Fixpoint drain (notify : bool) (fuel : nat) (feed : nat -> dte) (s : hstate) : hstate * list output :=
  match fuel with
  | 0 => (s, [])
  | S f =>
      if Nat.eqb (pending s) 0 then (s, [])
      else
        let '(s1, o) := acquire notify (feed 0) s in
        let '(s2, os) := drain notify f (fun i => feed (S i)) s1 in
        (s2, o :: os)
  end.

(** The variant: the snaps queued, plus one while a capture is armed. *)
Definition load (s : hstate) : nat := pending s + (if doing_bkg (hmodel s) then 1 else 0).

(** ** What one acquisition does *)

Lemma requested_le (notify : bool) (eff : list effect) : requested notify eff <= length eff.
Proof.
  unfold requested. induction eff as [|e eff IH]; [done|].
  cbn [flat_map]. rewrite length_app. destruct e; cbn [reentry length]; [lia|]. case_match; cbn; lia.
Qed.

(** [process_dte] either keeps the state and asks for nothing, or
    completes an armed capture: backgrounds set, flag cleared, the
    detector choices kept, at most one change notified. *)
Lemma process_dte_effects (d : dte) (m m' : model) (out : output) (eff : list effect) :
  process_dte d m = Ok (m', out, eff) ->
  (m' = m /\ eff = []) \/
  (doing_bkg m = true /\ doing_bkg m' = false /\ is_Some (bkg_of m') /\ length eff <= 1 /\
   s_camera (settings_of m') = s_camera (settings_of m) /\
   s_on_off_signal (settings_of m') = s_on_off_signal (settings_of m)).
Proof.
  unfold process_dte. case_bool_decide; [intros [= <- _ <-]; by left|].
  destruct (get_data_from_full_name d (s_camera (settings_of m))) as [cam|]; [|discriminate].
  destruct (get_data_from_full_name d (s_on_off_signal (settings_of m))) as [onoff|]; [|discriminate].
  destruct (doing_bkg m) eqn:Ed.
  - unfold capture_bkg. intros [= <- _ <-]. right. unfold bkg_of, changed. cbn.
    do 3 (split; [done|]). split; [|done]. case_decide; cbn; lia.
  - destruct (delta_r _ _ _); cbn [rbind]; [|discriminate]. intros [= <- _ <-]. by left.
Qed.

Lemma acquire_load (notify : bool) (d : dte) (s : hstate) :
  0 < pending s -> load (acquire notify d s).1 < load s.
Proof.
  intros Hp. unfold acquire, load.
  destruct (process_dte d (hmodel s)) as [[[m' out] eff]|e] eqn:E; cbn [fst hmodel pending].
  - pose proof (requested_le notify eff).
    destruct (process_dte_effects _ _ _ _ _ E) as [[-> ->] | (Hd & Hd' & _ & Hl & _)].
    + cbn in *. destruct (doing_bkg _); lia.
    + rewrite Hd, Hd'. lia.
  - destruct (doing_bkg _); lia.
Qed.

(** [drain] runs [acquire] first when a snap is pending. *)
Lemma drain_S (notify : bool) (n : nat) (feed : nat -> dte) (s : hstate) :
  0 < pending s ->
  (drain notify (S n) feed s).1 = (drain notify n (fun i => feed (S i)) (acquire notify (feed 0) s).1).1.
Proof.
  intros Hp. cbn [drain]. rewrite (proj2 (Nat.eqb_neq _ _)) by lia.
  destruct (acquire notify (feed 0) s) as [s1 o]. cbn [fst].
  by destruct (drain notify n _ s1).
Qed.

(** A property every acquisition keeps holds after [drain]. *)
Lemma drain_preserves (notify : bool) (Q : hstate -> Prop) :
  (forall d s, Q s -> Q (acquire notify d s).1) ->
  forall n feed s, Q s -> Q (drain notify n feed s).1.
Proof.
  intros HQ n. induction n as [|n IH]; intros feed s Hs; [done|].
  destruct (Nat.eqb_spec (pending s) 0) as [H0|H0].
  - cbn [drain]. by rewrite (proj2 (Nat.eqb_eq _ _) H0).
  - rewrite drain_S by lia. by apply IH, HQ.
Qed.

(** ** Termination *)

(** C26: the host's queue always drains: with fuel [load s] (or more)
    [drain] ends with no snap pending, whatever bundles the detectors
    deliver and whatever the handlers raise, after at most [load s]
    acquisitions; the re-entrant snap of line 77 adds no loop. *)
Theorem drain_empties (notify : bool) (n : nat) (feed : nat -> dte) (s : hstate) :
  load s <= n -> pending (drain notify n feed s).1 = 0 /\ length (drain notify n feed s).2 <= load s.
Proof.
  revert feed s. induction n as [|n IH]; intros feed s Hn.
  - unfold load in Hn. cbn. lia.
  - cbn [drain]. destruct (Nat.eqb_spec (pending s) 0) as [H0|H0]; [cbn; lia|].
    pose proof (acquire_load notify (feed 0) s ltac:(lia)) as Hl.
    destruct (acquire notify (feed 0) s) as [s1 o]. cbn [fst] in Hl.
    destruct (IH (fun i => feed (S i)) s1 ltac:(lia)) as [Hp Hlen].
    destruct (drain notify n _ s1) as [s2 os]. cbn in *. lia.
Qed.

(** ** Liveness: an armed capture completes *)

(** The detectors deliver, at every acquisition, the camera and the
    on/off signal the model's settings name. *)
Definition feeds_names (feed : nat -> dte) (m : model) : Prop :=
  forall i, is_Some (get_data_from_full_name (feed i) (s_camera (settings_of m))) /\
            is_Some (get_data_from_full_name (feed i) (s_on_off_signal (settings_of m))).

Lemma acquire_armed (notify : bool) (d : dte) (s : hstate) :
  doing_bkg (hmodel s) = true -> s_camera (settings_of (hmodel s)) <> "" ->
  is_Some (get_data_from_full_name d (s_camera (settings_of (hmodel s)))) ->
  is_Some (get_data_from_full_name d (s_on_off_signal (settings_of (hmodel s)))) ->
  doing_bkg (hmodel (acquire notify d s).1) = false /\ is_Some (bkg_of (hmodel (acquire notify d s).1)).
Proof.
  intros Hd Hn [cam Hc] [o Ho]. unfold acquire.
  rewrite (process_dte_found d (hmodel s) cam o Hn Hc Ho), Hd. unfold capture_bkg, bkg_of. cbn.
  split; [done|]. by eexists.
Qed.

(** Out of a capture, an acquisition only consumes its snap: the model
    is unchanged, whether the handler emits or raises. *)
Lemma acquire_idle (notify : bool) (d : dte) (s : hstate) :
  doing_bkg (hmodel s) = false -> (acquire notify d s).1 = HState (hmodel s) (pred (pending s)).
Proof.
  intros Hd. unfold acquire.
  destruct (process_dte d (hmodel s)) as [[[m' out] eff]|e] eqn:E; [|done].
  destruct (process_dte_effects _ _ _ _ _ E) as [[-> ->] | (Hd' & _)]; [|congruence].
  cbn. by rewrite Nat.add_0_r.
Qed.

(** C27: when a snap is pending and the detectors deliver what the
    settings name, the model is out of capture once the host has served
    its queue; a capture that was armed has left a background. *)
Theorem capture_completes (notify : bool) (feed : nat -> dte) (s : hstate) :
  0 < pending s -> s_camera (settings_of (hmodel s)) <> "" -> feeds_names feed (hmodel s) ->
  doing_bkg (hmodel (drain notify (load s) feed s).1) = false /\
  (doing_bkg (hmodel s) = true -> is_Some (bkg_of (hmodel (drain notify (load s) feed s).1))).
Proof.
  intros Hp Hn Hf.
  assert (H1 : doing_bkg (hmodel (acquire notify (feed 0) s).1) = false /\
               (doing_bkg (hmodel s) = true -> is_Some (bkg_of (hmodel (acquire notify (feed 0) s).1)))).
  { destruct (doing_bkg (hmodel s)) eqn:Ed.
    - destruct (Hf 0) as [Hc Ho]. destruct (acquire_armed notify (feed 0) s Ed Hn Hc Ho). auto.
    - split; [by rewrite acquire_idle|done]. }
  destruct (load s) as [|n] eqn:El; [unfold load in El; lia|]. rewrite drain_S by done.
  revert H1. generalize (doing_bkg (hmodel s) = true) as B. intros B H1.
  apply (drain_preserves notify (fun t => doing_bkg (hmodel t) = false /\ (B -> is_Some (bkg_of (hmodel t)))));
    [|done].
  intros d t [Ht Hb]. by rewrite acquire_idle.
Qed.

(** ** One click on "Take Background" *)

(** The model after the click: armed, [do_bkg] set, one snap queued. *)
Definition armed (m : model) : model :=
  Model (bkg_poff m) (bkg_pon m) true (set_do_bkg true (settings_of m)).

Lemma hclick_take (notify : bool) (dl : det_lists) (m : model) :
  s_do_bkg (settings_of m) = false ->
  hclick notify dl BDoBkg true (HState m 0) = HState (armed m) 1.
Proof.
  intros Hdo. unfold hclick, click. cbn [hmodel button_value]. rewrite Hdo.
  rewrite bool_decide_eq_false_2 by done. unfold update_settings.
  rewrite bool_decide_eq_true_2, bool_decide_eq_false_2 by done. done.
Qed.

(** The capture of the armed model resets [do_bkg] and notifies it. *)
Lemma acquire_armed_capture (notify : bool) (d : dte) (m : model) (cam onoff : mat) :
  s_camera (settings_of m) <> "" ->
  get_data_from_full_name d (s_camera (settings_of m)) = Some cam ->
  get_data_from_full_name d (s_on_off_signal (settings_of m)) = Some onoff ->
  acquire notify d (HState (armed m) 1) =
    (HState (capture_bkg (first_is_on onoff) cam (armed m)).1 (if notify then 1 else 0), []).
Proof.
  intros Hn Hc Ho. unfold acquire. cbn [hmodel pending].
  rewrite (process_dte_found d (armed m) cam onoff Hn Hc Ho). cbn. by destruct notify.
Qed.

(** C28: one click on "Take Background" of an idle model makes the host
    acquire once for the capture and, when it notifies programmatic
    changes, once more: the [do_bkg] reset of line 77 re-enters
    [update_settings] and snaps again, and that acquisition's dR/R is
    emitted.  The model ends out of capture, [do_bkg] released, with a
    background. *)
Theorem take_background_run (notify : bool) (dl : det_lists) (feed : nat -> dte) (m : model) :
  s_do_bkg (settings_of m) = false -> s_camera (settings_of m) <> "" -> feeds_names feed m ->
  exists m', (drain notify 3 feed (hclick notify dl BDoBkg true (HState m 0))).1 = HState m' 0 /\
    doing_bkg m' = false /\ s_do_bkg (settings_of m') = false /\ is_Some (bkg_of m') /\
    length (drain notify 3 feed (hclick notify dl BDoBkg true (HState m 0))).2 = (if notify then 2 else 1).
Proof.
  intros Hdo Hn Hf. rewrite hclick_take by done. destruct (Hf 0) as [[cam Hc] [o Ho]].
  cbn [drain pending Nat.eqb]. rewrite (acquire_armed_capture notify (feed 0) m cam o Hn Hc Ho).
  set (m2 := (capture_bkg (first_is_on o) cam (armed m)).1).
  assert (Hm2 : doing_bkg m2 = false /\ s_do_bkg (settings_of m2) = false /\ is_Some (bkg_of m2))
    by (unfold m2, capture_bkg, bkg_of; cbn; by eauto).
  destruct notify; cbn [drain pending Nat.eqb].
  - rewrite (surjective_pairing (acquire true (feed 1) (HState m2 1))), acquire_idle by apply Hm2.
    cbn. eexists. split; [reflexivity|]. naive_solver.
  - cbn. eexists. split; [reflexivity|]. naive_solver.
Qed.

(** ** Concrete runs on the spec's burst *)

Definition every_bundle : nat -> dte := fun _ => bundle.

Lemma every_bundle_names (m : model) :
  s_camera (settings_of m) = "cam" -> s_on_off_signal (settings_of m) = "sig" -> feeds_names every_bundle m.
Proof. intros Hc Ho i. rewrite Hc, Ho. split; by eexists. Qed.

Lemma drain_empties_witness :
  load (HState armed_model 1) <= 2 /\
  pending (drain true 2 every_bundle (HState armed_model 1)).1 = 0 /\
  length (drain true 2 every_bundle (HState armed_model 1)).2 <= load (HState armed_model 1).
Proof.
  split; [cbn; lia|]. apply (drain_empties true 2 every_bundle (HState armed_model 1)). cbn. lia.
Defined.

Lemma capture_completes_witness :
  doing_bkg (hmodel (drain true (load (HState armed_model 1)) every_bundle (HState armed_model 1)).1) = false /\
  (doing_bkg (hmodel (HState armed_model 1)) = true ->
   is_Some (bkg_of (hmodel (drain true (load (HState armed_model 1)) every_bundle (HState armed_model 1)).1))).
Proof.
  apply (capture_completes true every_bundle (HState armed_model 1)).
  - cbn. lia.
  - discriminate.
  - by apply every_bundle_names.
Defined.

Lemma take_background_run_witness :
  exists m', (drain true 3 every_bundle (hclick true demo_lists BDoBkg true (HState idle_model 0))).1
             = HState m' 0 /\
    doing_bkg m' = false /\ s_do_bkg (settings_of m') = false /\ is_Some (bkg_of m') /\
    length (drain true 3 every_bundle (hclick true demo_lists BDoBkg true (HState idle_model 0))).2 = 2.
Proof.
  apply (take_background_run true demo_lists every_bundle idle_model).
  - reflexivity.
  - discriminate.
  - by apply every_bundle_names.
Defined.

End HostRun.
