(* ===== verification/Simulator.v ===== *)
(** * The hardware simulators (hardware/cmos_simulator.py, hardware/hhg_spectrum.py)

    [Mock_SingleShot] keeps the pump-on and pump-off spectra read from its
    .npy file, two constant background spectra, two constant stabilisation
    columns and the phase flag [FirstShotIsPumpOn].  [grab_XUV] draws a new
    phase (the draw is an argument) and returns the two shots of one pair,
    in the order of that phase, tiled [nframes] times; [grab_stab] builds
    the stabilisation image, ones on pump-on shots and zeros on pump-off
    shots, in the phase of the LAST [grab_XUV] of the same controller.
    [HHG_Spectrum] only holds the spectrum read from its HDF5 file. *)

From S2P Require Import Prelude Flt NdArray.
From Stdlib Require Import QArith.
Local Close Scope Q_scope.
Local Open Scope string_scope.
Local Open Scope xuv_scope.

Module MockSingleShot.

Record sim := Sim {
  pon : list flt;
  poff : list flt;
  bkg_on : list flt;
  bkg_off : list flt;
  stabpoff : mat;
  stabpon : mat;
  first_shot_is_pump_on : bool;
}.

Definition ones_like (v : list flt) : list flt := replicate (length v) (Num 1).

(** [__init__]: [data[1, :]] is pump on, [data[0, :]] pump off (an array of
    fewer than two rows raises [IndexError]); the backgrounds are 4000 and
    2000 times [ones_like]; the stabilisation columns are [(1024, 1)]
    arrays of 0.0 and 1.0; the phase is the first draw. *)
Definition init (data : mat) (choice : bool) : result sim :=
  match rows data with
  | r0 :: r1 :: _ =>
      Ok (Sim r1 r0 ((fun x => x * Num 4000)%F <$> ones_like r1)
              ((fun x => x * Num 2000)%F <$> ones_like r0)
              (scale (Num 0) (full 1024 1 (Num 1))) (scale (Num 1) (full 1024 1 (Num 1)))
              choice)
  | _ => Err (IndexError "index 1 is out of bounds for axis 0 with size 1")
  end.

Definition set_phase (b : bool) (s : sim) : sim :=
  Sim (pon s) (poff s) (bkg_on s) (bkg_off s) (stabpoff s) (stabpon s) b.

(** [grab_XUV]: the new phase is stored first, then the pair (off, on) —
    or (bkg_off, bkg_on) with the gas off — is flipped when the first shot
    is pump on and tiled [nframes] times. *)
Definition grab_XUV (nframes : nat) (gas_off : bool) (choice : bool) (s : sim) : sim * result mat :=
  let s' := set_phase choice s in
  (s', oneshot <-? (if gas_off then vstack2 (bkg_off s') (bkg_on s')
                    else vstack2 (poff s') (pon s')) ;;
       let oneshot' := if first_shot_is_pump_on s' then flip_rows oneshot else oneshot in
       Ok (tile_rows nframes oneshot')).

(** [grab_stab]: [np.tile(np.hstack((stabpon, stabpoff)), nframes).T],
    rolled by one shot when the first shot is pump off. *)
Definition grab_stab (nframes : nat) (s : sim) : result mat :=
  h <-? hstack (stabpon s) (stabpoff s) ;;
  let st := transpose (tile_cols nframes h) in
  Ok (if first_shot_is_pump_on s then st else roll_rows st).

(** ** Invariant: the stabilisation columns are the constants of [__init__] *)

Definition ones1024 : list flt := replicate 1024 (Num 1).
Definition zeros1024 : list flt := replicate 1024 (Num 0).

Definition stab_ok (s : sim) : Prop :=
  stabpon s = Mat 1 (replicate 1024 [Num 1]) /\ stabpoff s = Mat 1 (replicate 1024 [Num 0]).

Lemma set_phase_stab_ok (b : bool) (s : sim) : stab_ok s -> stab_ok (set_phase b s).
Proof. done. Qed.

(** Both shots of a pair, in the order of the phase. *)
Definition pair_of (gas_off : bool) (s : sim) : list flt * list flt :=
  if gas_off then (bkg_on s, bkg_off s) else (pon s, poff s).

(** ** Invariant: the four spectra have one width *)

Definition widths_ok (s : sim) : Prop :=
  length (poff s) = length (pon s) /\ length (bkg_on s) = length (pon s) /\
  length (bkg_off s) = length (pon s).

Lemma set_phase_widths_ok (b : bool) (s : sim) : widths_ok s -> widths_ok (set_phase b s).
Proof. done. Qed.

Lemma pair_of_widths (gas_off : bool) (s : sim) :
  widths_ok s -> length (pair_of gas_off s).1 = length (pon s) /\ length (pair_of gas_off s).2 = length (pon s).
Proof. intros (H1 & H2 & H3). by destruct gas_off. Qed.

(** A controller built from a well-formed array has one width, the
    array's, the constant stabilisation columns and the drawn phase; it is
    built exactly when the array has two rows. *)
Lemma init_invariants (data : mat) (choice : bool) (s : sim) :
  mat_wf data -> init data choice = Ok s ->
  widths_ok s /\ stab_ok s /\ first_shot_is_pump_on s = choice /\ length (pon s) = ncols data.
Proof.
  unfold init, mat_wf. destruct (rows data) as [|r0 [|r1 rs]]; try discriminate.
  intros Hw [= <-]. inversion Hw as [|? ? H0 Hw']; inversion Hw'; subst.
  unfold widths_ok, stab_ok, ones_like, scale, full. simpl.
  rewrite !length_fmap, !length_replicate. rewrite ?fmap_replicate. repeat split; try lia; reflexivity.
Qed.

Lemma init_is_ok (data : mat) (choice : bool) : is_ok (init data choice) = Nat.leb 2 (nrows data).
Proof. unfold init, nrows. by destruct (rows data) as [|r0 [|r1 rs]]. Qed.

(** C20: [__init__] on an array of at least two rows takes row 1 as pump on
    and row 0 as pump off, sets the backgrounds to 4000 and 2000 over
    their widths, the constant stabilisation columns and the drawn phase;
    on fewer rows it raises [IndexError]. *)
Theorem init_spec (data : mat) (choice : bool) :
  match rows data with
  | r0 :: r1 :: _ =>
      exists s, init data choice = Ok s /\ pon s = r1 /\ poff s = r0 /\
        bkg_on s = replicate (length r1) (Num 4000) /\
        bkg_off s = replicate (length r0) (Num 2000) /\
        stab_ok s /\ first_shot_is_pump_on s = choice
  | _ => exists e, init data choice = Err (IndexError e)
  end.
Proof.
  unfold init. destruct (rows data) as [|r0 [|r1 rs]]; eauto.
  eexists; split; [reflexivity|]. unfold ones_like, scale, full. simpl.
  rewrite !fmap_replicate. repeat split; reflexivity.
Qed.

(** [grab_XUV] stores the drawn phase and returns [nframes] pairs of
    shots whose first is pump on exactly when the drawn phase says so. *)
Theorem grab_XUV_phase (nframes : nat) (gas_off choice : bool) (s : sim) :
  length (pair_of gas_off s).1 = length (pair_of gas_off s).2 ->
  grab_XUV nframes gas_off choice s =
    (set_phase choice s,
     Ok (Mat (length (pair_of gas_off s).2)
             (if choice then tile2 nframes (pair_of gas_off s).1 (pair_of gas_off s).2
              else tile2 nframes (pair_of gas_off s).2 (pair_of gas_off s).1))).
Proof.
  unfold grab_XUV, pair_of, vstack2. destruct gas_off; simpl; intros Hl;
    rewrite bool_decide_eq_true_2 by done; simpl;
    destruct choice; reflexivity.
Qed.

(** [grab_stab] returns [nframes] pairs of stabilisation shots, ones
    then zeros when the stored phase has the first shot pump on, zeros
    then ones otherwise. *)
Theorem grab_stab_phase (nframes : nat) (s : sim) :
  stab_ok s ->
  grab_stab nframes s =
    Ok (Mat 1024 (if first_shot_is_pump_on s then tile2 nframes ones1024 zeros1024
                  else tile2 nframes zeros1024 ones1024)).
Proof.
  intros [Hon Hoff]. unfold grab_stab. rewrite Hon, Hoff, hstack_const. cbn [rbind].
  rewrite transpose_tile_pair.
  destruct (first_shot_is_pump_on s); [done|].
  unfold roll_rows. cbn [ncols rows]. by rewrite roll1_tile2.
Qed.

(** C21: on one controller, the stabilisation image taken after an XUV
    grab is in the phase of that grab: its first shot is the ones row
    exactly when the XUV burst starts with the pump-on spectrum, whatever
    phase the controller had before and whatever grabs came earlier. *)
Theorem xuv_stab_same_phase (n m : nat) (gas_off choice : bool) (s : sim) :
  stab_ok s -> length (pair_of gas_off s).1 = length (pair_of gas_off s).2 ->
  let '(s', r) := grab_XUV n gas_off choice s in
  r = Ok (Mat (length (pair_of gas_off s).2)
              (if choice then tile2 n (pair_of gas_off s).1 (pair_of gas_off s).2
               else tile2 n (pair_of gas_off s).2 (pair_of gas_off s).1)) /\
  grab_stab m s' = Ok (Mat 1024 (if choice then tile2 m ones1024 zeros1024
                                 else tile2 m zeros1024 ones1024)).
Proof.
  intros Hs Hl. rewrite grab_XUV_phase by exact Hl. split; [done|].
  by rewrite grab_stab_phase by (by apply set_phase_stab_ok).
Qed.

(** ** Concrete runs *)

(** A controller as [__init__] builds it from the one-pixel array
    [[1]; [3]], its first draw pump off. *)
Definition demo_sim : sim :=
  Sim [Num 3] [Num 1] [Num 4000] [Num 2000] (Mat 1 (replicate 1024 [Num 0])) (Mat 1 (replicate 1024 [Num 1])) false.

Lemma xuv_stab_same_phase_witness :
  let '(s', r) := grab_XUV 1 false true demo_sim in
  r = Ok (Mat (length (pair_of false demo_sim).2)
              (tile2 1 (pair_of false demo_sim).1 (pair_of false demo_sim).2)) /\
  grab_stab 2 s' = Ok (Mat 1024 (tile2 2 ones1024 zeros1024)).
Proof. apply (xuv_stab_same_phase 1 2 false true demo_sim); [split; reflexivity|reflexivity]. Defined.

End MockSingleShot.

Module HHGSpectrum.

(** [HHG_Spectrum]: the file name and the spectrum read from it, the
    array [Raw_datas/Detector000/Data1D/Ch000/Data] of the HDF5 file
    (finite values, [loaded]). *)
Record hhg := HHG { filename : string; data : list Q }.

Definition init (filename : string) (loaded : list Q) : hhg := HHG filename loaded.

End HHGSpectrum.
