(* ===== verification/Interp.v ===== *)
(** * [np.interp] on rationals

    The one-dimensional piecewise-linear interpolation numpy computes for
    [np.interp(x, xp, fp)]: below [xp[0]] it gives [fp[0]], at or above
    the last sample [fp[-1]], on a sample [xp[j]] exactly [fp[j]], and
    between [xp[j]] and [xp[j+1]] the value of the segment
    [slope * (x - xp[j]) + fp[j]].  numpy locates [j] by a binary search
    with a guess; on increasing samples it finds the last [j] with
    [xp[j] <= x], which the linear scan [interp_from] finds too.  The
    values are exact rationals. *)

From S2P Require Import Prelude.
From Stdlib Require Import QArith Qfield Lqa.
Local Close Scope Q_scope.

(** A pixel index as a rational, [np.arange(n)] read as floats. *)
Definition qnat (i : nat) : Q := inject_Z (Z.of_nat i).

(** The scan from the sample [(x0, f0)], with [x0 <= x]. *)
Fixpoint interp_from (x x0 f0 : Q) (xp fp : list Q) : Q :=
  match xp, fp with
  | x1 :: xp', f1 :: fp' =>
      if Qlt_le_dec x x1 then
        (if Qeq_bool x0 x then f0 else ((f1 - f0) / (x1 - x0) * (x - x0) + f0)%Q)
      else interp_from x x1 f1 xp' fp'
  | _, _ => f0
  end.

Definition interp (x : Q) (xp fp : list Q) : Q :=
  match xp, fp with
  | x0 :: xp', f0 :: fp' => if Qlt_le_dec x x0 then f0 else interp_from x x0 f0 xp' fp'
  | _, _ => 0%Q
  end.

(** [np.interp(xs, xp, fp)] with its two argument checks. *)
Definition np_interp (xs xp fp : list Q) : result (list Q) :=
  if Nat.eqb (length xp) 0 then Err (ValueError "array of sample points is empty")
  else if negb (Nat.eqb (length fp) (length xp)) then Err (ValueError "fp and xp are not of the same length.")
  else Ok ((fun x => interp x xp fp) <$> xs).

(** ** Bounds: an interpolated value lies between the smallest and the largest sample *)

Section bounds.
Context (lo hi : Q).
Let inr (q : Q) : Prop := (lo <= q <= hi)%Q.

(** A point of the segment from [f0] to [f1]. *)
Lemma segment_bounds (x x0 x1 f0 f1 : Q) :
  inr f0 -> inr f1 -> (x0 <= x)%Q -> (x < x1)%Q ->
  inr ((f1 - f0) / (x1 - x0) * (x - x0) + f0)%Q.
Proof.
  unfold inr. intros [H0 H0'] [H1 H1'] Hx Hx1.
  set (t := ((x - x0) / (x1 - x0))%Q).
  assert (Ht0 : (0 <= t)%Q) by (apply Qle_shift_div_l; lra).
  assert (Ht1 : (t <= 1)%Q) by (apply Qle_shift_div_r; lra).
  assert (E : ((f1 - f0) / (x1 - x0) * (x - x0) + f0 == (1 - t) * f0 + t * f1)%Q)
    by (unfold t; field; lra).
  rewrite E.
  assert (A : (0 <= (1 - t) * (f0 - lo))%Q) by (apply Qmult_le_0_compat; lra).
  assert (B : (0 <= t * (f1 - lo))%Q) by (apply Qmult_le_0_compat; lra).
  assert (C : (0 <= (1 - t) * (hi - f0))%Q) by (apply Qmult_le_0_compat; lra).
  assert (D : (0 <= t * (hi - f1))%Q) by (apply Qmult_le_0_compat; lra).
  split; nra.
Qed.

Lemma interp_from_bounds (x x0 f0 : Q) (xp fp : list Q) :
  inr f0 -> Forall inr fp -> (x0 <= x)%Q -> inr (interp_from x x0 f0 xp fp).
Proof.
  revert x0 f0 fp. induction xp as [|x1 xp IH]; intros x0 f0 fp Hf0 Hfp Hx; [done|].
  destruct fp as [|f1 fp]; [done|]. inversion Hfp as [|? ? Hf1 Hfp']; subst. simpl.
  destruct (Qlt_le_dec x x1) as [Hlt|Hle].
  - destruct (Qeq_bool x0 x); [done|]. by apply segment_bounds.
  - by apply IH.
Qed.

Lemma interp_bounds (x : Q) (xp fp : list Q) :
  xp <> [] -> fp <> [] -> Forall inr fp -> inr (interp x xp fp).
Proof.
  intros Hxp Hne Hfp. destruct xp as [|x0 xp]; [done|]. destruct fp as [|f0 fp]; [done|].
  inversion Hfp as [|? ? Hf0 Hfp']; subst. simpl.
  destruct (Qlt_le_dec x x0); [done|]. by apply interp_from_bounds.
Qed.
End bounds.

(** ** A grid shifted by a whole number of pixels *)

Lemma qnat_shift_lt (i j k : nat) : (qnat i < qnat j + qnat k)%Q <-> i < j + k.
Proof. unfold qnat. rewrite <- inject_Z_plus, <- Zlt_Qlt. lia. Qed.

Lemma qnat_shift_eqb (i j k : nat) : Qeq_bool (qnat j + qnat k) (qnat i) = Nat.eqb (j + k) i.
Proof.
  unfold qnat. rewrite <- inject_Z_plus. apply eq_true_iff_eq.
  rewrite Qeq_bool_iff, inject_Z_injective, Nat.eqb_eq. lia.
Qed.

(** [x + k] for the pixel grid [x = np.arange(n)]. *)
Definition shifted_grid (n : nat) (s : Q) : list Q := (fun j => qnat j + s)%Q <$> seq 0 n.

Lemma interp_from_grid (i k : nat) (fp : list Q) :
  forall j f0, j + k <= i -> i - k - j <= length fp ->
  interp_from (qnat i) (qnat j + qnat k) f0 ((fun t => qnat t + qnat k)%Q <$> seq (S j) (length fp)) fp
  = nth (i - k - j) (f0 :: fp) 0%Q.
Proof.
  induction fp as [|f1 fp IH]; intros j f0 Hj Hm; simpl in *.
  - by replace (i - k - j) with 0 by lia.
  - destruct (Qlt_le_dec (qnat i) (qnat (S j) + qnat k)) as [Hlt|Hle].
    + apply qnat_shift_lt in Hlt. rewrite qnat_shift_eqb, (proj2 (Nat.eqb_eq _ _)) by lia.
      by replace (i - k - j) with 0 by lia.
    + assert (~ i < S j + k) by (rewrite <- qnat_shift_lt; lra).
      rewrite IH by lia. by replace (i - k - j) with (S (i - k - S j)) by lia.
Qed.

(** On the pixel grid shifted by [k] whole pixels, pixel [i] reads sample
    [i - k]: the first sample for the [k] first pixels. *)
Lemma interp_grid (n i k : nat) (fp : list Q) :
  length fp = n -> i < n -> interp (qnat i) (shifted_grid n (qnat k)) fp = nth (i - k) fp 0%Q.
Proof.
  intros Hl Hi. destruct fp as [|f0 fp]; simpl in Hl; [lia|]. subst n.
  unfold shifted_grid. change (seq 0 (S (length fp))) with (0 :: seq 1 (length fp)).
  rewrite fmap_cons. unfold interp.
  destruct (Qlt_le_dec (qnat i) (qnat 0 + qnat k)) as [Hlt|Hle].
  - apply qnat_shift_lt in Hlt. by replace (i - k) with 0 by lia.
  - assert (~ i < 0 + k) by (rewrite <- qnat_shift_lt; lra).
    rewrite (interp_from_grid i k fp 0 f0) by lia. by rewrite Nat.sub_0_r.
Qed.
