(* ===== verification/Viewers.v ===== *)
(** * The viewer plugins (daq_viewer_plugins/)

    [DAQ_2DViewer_MockCMOS] and [DAQ_2DViewer_MockStabCamera] drive a
    [Mock_SingleShot] controller; [DAQ_1DViewer_XUVSpectrum] drives an
    [HHG_Spectrum].  A plugin's state is a record of its attributes, its
    controller an [option] ([None] until [ini_detector]); a handler returns
    the new state and what it emits through [dte_signal].  The random draws
    are arguments: [np.random.random_sample(shape)] is a function [g] giving
    the draw of element [(i, j)], [random.choice] a boolean.  The sleep of
    [grab_data] and the log message of [ini_detector] are not modelled. *)

From S2P Require Import Prelude Flt NdArray DRModel Simulator Interp.
From Stdlib Require Import QArith Qfield Lqa.
Local Close Scope Q_scope.
Local Open Scope string_scope.
Local Open Scope xuv_scope.

(** ** What a plugin emits: [DataFromPlugins] inside a [DataToExport] *)

Inductive payload :=
  | D1 (v : list flt)
  | D2 (m : mat).

(** [Axis(data=np.arange(n), label=..., index=i)]. *)
Record axis := Axis { ax_data : list nat; ax_label : string; ax_index : nat }.

Record dfp := DFP {
  dfp_name : string;
  dfp_data : list payload;
  dfp_dim : string;
  dfp_labels : list string;
  dfp_axes : list axis;
}.

Definition dte_out : Type := string * list dfp.

Definition arange (n : nat) : list nat := seq 0 n.

(** [np.random.random_sample((r, c))]: element [(i, j)] is the draw [g i j]. *)
Definition draw (r c : nat) (g : nat -> nat -> flt) : mat :=
  Mat c ((fun i => (fun j => g i j) <$> seq 0 c) <$> seq 0 r).

(** [data_tot += amp * np.random.random_sample(data_tot.shape)]. *)
Definition add_noise (amp : flt) (g : nat -> nat -> flt) (m : mat) : result mat :=
  bcast fadd m (scale amp (draw (nrows m) (ncols m) g)).

(** The noisy array element by element. *)
Definition noisy (amp : flt) (g : nat -> nat -> flt) (m : mat) : mat :=
  Mat (ncols m) (imap (fun i r => imap (fun j x => (x + amp * g i j)%F) r) (rows m)).

(** The axes a dfp carries agree with the array: every axis is as long as
    the dimension it indexes. *)
Definition dim_of (m : mat) (i : nat) : option nat :=
  match i with 0 => Some (nrows m) | 1 => Some (ncols m) | _ => None end.

Definition axes_fit (d : dfp) : bool :=
  forallb (fun p =>
    match p with
    | D2 m => forallb (fun a => bool_decide (dim_of m (ax_index a) = Some (length (ax_data a)))) (dfp_axes d)
    | D1 v => forallb (fun a => bool_decide (length (ax_data a) = length v)) (dfp_axes d)
    end) (dfp_data d).

(** ** The white noise *)

Lemma noisy_wf (amp : flt) (g : nat -> nat -> flt) (m : mat) : mat_wf m -> mat_wf (noisy amp g m).
Proof.
  unfold mat_wf, noisy. simpl. intros Hm. apply Forall_lookup_2. intros i r Hi.
  apply list_lookup_imap_Some in Hi as (r0 & Hr0 & ->). rewrite length_imap.
  exact (Forall_lookup_1 _ _ _ _ Hm Hr0).
Qed.

Lemma nrows_noisy (amp : flt) (g : nat -> nat -> flt) (m : mat) : nrows (noisy amp g m) = nrows m.
Proof. apply length_imap. Qed.

(** Adding the drawn noise never fails on a well-formed array: numpy draws
    it in the array's own shape. *)
Lemma add_noise_spec (amp : flt) (g : nat -> nat -> flt) (m : mat) :
  mat_wf m -> add_noise amp g m = Ok (noisy amp g m).
Proof.
  intros Hm. unfold add_noise. rewrite bcast_same; [|done| | |].
  - unfold ewise, noisy, draw, scale, nrows. simpl.
    rewrite <- list_fmap_compose, zip_with_fmap_seq. do 2 f_equal. apply imap_ext. intros i r Hr. simpl.
    rewrite <- list_fmap_compose, <- (Forall_lookup_1 _ _ _ _ Hm Hr), zip_with_fmap_seq. done.
  - unfold mat_wf, draw, scale. simpl. rewrite <- list_fmap_compose. apply Forall_fmap, Forall_forall.
    intros i _. simpl. by rewrite !length_fmap, length_seq.
  - unfold nrows, draw, scale. simpl. by rewrite !length_fmap, length_seq.
  - done.
Qed.

(** Column [j] of the noisy array: element [i] gets [amp * g i j]. *)
Lemma column_noisy (amp : flt) (g : nat -> nat -> flt) (m : mat) (j : nat) :
  mat_wf m -> j < ncols m ->
  column j (noisy amp g m) = imap (fun i x => (x + amp * g i j)%F) (column j m).
Proof.
  intros Hm Hj. apply list_eq. intros i. unfold column, noisy. simpl.
  rewrite list_lookup_fmap, !list_lookup_imap, list_lookup_fmap.
  destruct (rows m !! i) as [r|] eqn:Hr; [|done]. simpl. f_equal.
  pose proof (Forall_lookup_1 _ _ _ _ Hm Hr) as Hl. simpl in Hl.
  rewrite list_lookup_imap. by destruct (lookup_lt_is_Some_2 r j) as [x ->]; [lia|].
Qed.

(** ** A noisy tiled burst, split by row parity *)

(** [(pon - poff) / poff] of the viewer, rows [0::2] over rows [1::2],
    as the two broadcasts compute it on halves of one shape. *)
Definition quick_dR (m : mat) : mat :=
  ewise fdiv (ewise fsub (rows_even m) (rows_odd m)) (rows_odd m).

Section burst.
Context (amp : flt) (g : nat -> nat -> flt) (k n : nat) (a b : list flt) (j : nat).
Hypotheses (Ha : length a = n) (Hb : length b = n) (Hj : j < n).

Let N := noisy amp g (Mat n (tile2 k a b)).

Lemma burst_wf : mat_wf N.
Proof. apply noisy_wf, tile2_wf; done. Qed.

Lemma column_burst :
  column j N = imap (fun i x => (x + amp * g i j)%F) (tile2 k (default NaN (a !! j)) (default NaN (b !! j))).
Proof. unfold N. rewrite column_noisy by (done || by apply tile2_wf). by rewrite column_tile2. Qed.

Lemma column_burst_even :
  column j (rows_even N) = (fun i => (default NaN (a !! j) + amp * g (2 * i) j)%F) <$> seq 0 k.
Proof.
  rewrite column_rows_even, column_burst. apply list_eq. intros i.
  rewrite lookup_evens, list_lookup_imap, lookup_tile2, lookup_fmap_seq0, even_double.
  repeat case_decide; done || lia.
Qed.

Lemma column_burst_odd :
  column j (rows_odd N) = (fun i => (default NaN (b !! j) + amp * g (2 * i + 1) j)%F) <$> seq 0 k.
Proof.
  rewrite column_rows_odd, column_burst. apply list_eq. intros i.
  rewrite lookup_odds, list_lookup_imap, lookup_tile2, lookup_fmap_seq0, even_double_S.
  repeat case_decide; done || lia.
Qed.

Lemma burst_halves : nrows (rows_even N) = nrows (rows_odd N).
Proof.
  unfold nrows, rows_even, rows_odd. simpl. refine (proj1 (length_evens_odds_even _ _)).
  unfold N, noisy. simpl. rewrite length_imap. apply tile2_even.
Qed.

Lemma quick_dR_wf : mat_wf (quick_dR N).
Proof.
  pose proof burst_wf. unfold quick_dR.
  apply ewise_wf; auto using ewise_wf, burst_halves with xuv.
  by rewrite nrows_ewise by apply burst_halves; apply burst_halves.
Qed.

Lemma quick_dR_column :
  column j (quick_dR N) =
  (fun i => ((default NaN (a !! j) + amp * g (2 * i) j - (default NaN (b !! j) + amp * g (2 * i + 1) j))
             / (default NaN (b !! j) + amp * g (2 * i + 1) j))%F) <$> seq 0 k.
Proof.
  pose proof burst_wf. unfold quick_dR.
  rewrite column_ewise; auto using ewise_wf, burst_halves with xuv.
  rewrite column_ewise; auto using burst_halves with xuv.
  by rewrite column_burst_even, column_burst_odd, !zip_with_fmap_seq0.
Qed.
End burst.

(** ** Without noise the halves and the ratio are the tiled rows' *)

(** Both sides have [n] entries and agree on each one. *)
Lemma equiv_by_column (k n : nat) (v w : list flt) (h : nat -> list flt) :
  0 < k ->
  length v = n -> length w = n ->
  (forall j, j < n -> v !! j = Some (fmean (h j))) ->
  (forall j x, w !! j = Some x -> h j ≡ replicate k x) -> v ≡ w.
Proof.
  intros Hk Hv Hw Hvj Hh. apply list_equiv_lookup. intros j.
  destruct (decide (j < n)) as [Hj|Hj].
  - destruct (lookup_lt_is_Some_2 w j) as [x Hx]; [lia|].
    rewrite Hvj, Hx by done. constructor.
    by rewrite (Hh j x Hx), fmean_const.
  - rewrite !lookup_ge_None_2 by lia. constructor.
Qed.

Section clean.
Context (g : nat -> nat -> flt) (k n : nat) (a b : list flt).
Hypotheses (Ha : length a = n) (Hb : length b = n) (Hk : 0 < k)
           (Hg : forall i j, exists q, g i j = Num q).

Let N := noisy (Num 0) g (Mat n (tile2 k a b)).

Lemma noise_free (i j : nat) (x : flt) : (x + Num 0 * g i j)%F ≡ x.
Proof. destruct (Hg i j) as [q ->]. apply fadd_zero_mul. Qed.

Ltac by_columns M col :=
  assert (Hw : mat_wf N) by (apply burst_wf; done);
  apply (equiv_by_column k n _ _ (fun j => column j M)); [done|..];
  [ unfold N; rewrite length_mean_axis0; auto using quick_dR_wf, burst_wf with xuv
  | rewrite ?length_zip_with; lia
  | intros j Hj; unfold N; apply mean_axis0_spec; auto using quick_dR_wf, burst_wf with xuv
  | intros j x Hx; assert (j < n) by (apply lookup_lt_Some in Hx; rewrite ?length_zip_with in Hx; lia);
    unfold N; rewrite col by done; apply equiv_replicate; [by rewrite length_fmap, length_seq|];
    intros i y Hy; rewrite lookup_fmap_seq0 in Hy; case_decide; simplify_eq ].

Lemma clean_even : mean_axis0 (rows_even N) ≡ a.
Proof. by_columns (rows_even N) column_burst_even. rewrite Hx. apply noise_free. Qed.

Lemma clean_odd : mean_axis0 (rows_odd N) ≡ b.
Proof. by_columns (rows_odd N) column_burst_odd. rewrite Hx. apply noise_free. Qed.

Lemma clean_dR : mean_axis0 (quick_dR N) ≡ zip_with (fun x y => ((x - y) / y)%F) a b.
Proof.
  by_columns (quick_dR N) quick_dR_column.
  rewrite lookup_zip_with in Hx. destruct (a !! j), (b !! j); cbn [default fmap option_fmap option_map mbind option_bind] in *; simplify_eq.
  by rewrite !noise_free.
Qed.
End clean.

(** ** The viewer's quick look against the model *)

(** C32: the CMOS viewer's quick-look dR/R (lines 99-101, averaged at line
    118) and [DataMixerModelDeltaR]'s dR/R (lines 82-92) are one
    computation: on a well-formed burst of an even number of shots, with
    no background held, the model deciding that the even shots are pump on
    returns exactly the mean over the shots of the viewer's [quick_dR]. *)
Theorem quick_dR_delta_r (N : mat) (m : DeltaR.model) :
  mat_wf N -> Nat.Even (nrows N) -> DeltaR.bkg_poff m = None ->
  DeltaR.delta_r true N m = Ok (mean_axis0 (quick_dR N)).
Proof.
  intros Hw He Hb. unfold DeltaR.delta_r. rewrite Hb. cbn [rbind].
  destruct (length_evens_odds_even (rows N) He) as [Hl _].
  assert (Hr : nrows (rows_even N) = nrows (rows_odd N)) by exact Hl.
  rewrite bcast_same by auto with xuv. cbn [rbind].
  rewrite bcast_same by (auto using ewise_wf with xuv || by rewrite nrows_ewise). done.
Qed.

(** On the spec's burst the model's dR/R is the viewer's quick look. *)
Lemma quick_dR_delta_r_witness :
  DeltaR.delta_r true DeltaR.burst DeltaR.idle_model = Ok (mean_axis0 (quick_dR DeltaR.burst)).
Proof.
  apply quick_dR_delta_r; [apply mat_wfb_spec; vm_compute; reflexivity|exists 2; reflexivity|reflexivity].
Defined.

Module MockCMOS.
Import MockSingleShot.

(** The parameters of [params].  [chunk_size] and [sleep_time] are [int]
    parameters without a minimum; the model holds them as [nat], so it
    covers their non-negative values only (a negative [chunk_size] makes
    [np.tile] raise, a negative [sleep_time] makes [time.sleep] raise). *)
Record settings := Settings {
  chunk_size : nat;
  sleep_time : nat;
  amp_noise : flt;
  twod_image : bool;
  dRoverR : bool;
  ponoff : bool;
  gas_off : bool;
}.

Record cmos := Cmos {
  controller : option sim;
  axes : option (axis * axis);
  settings_of : settings;
}.

(** [ini_attributes]: no controller yet. *)
Definition ini_attributes (st : settings) : cmos := Cmos None None st.

Definition with_controller (c : option sim) (p : cmos) : cmos :=
  Cmos c (axes p) (settings_of p).

(** [set_axes]: pixels along axis 1, [chunk_size] shots along axis 0. *)
Definition set_axes (p : cmos) : result cmos :=
  match controller p with
  | None => Err (AttributeError "'NoneType' object has no attribute 'pon'")
  | Some c =>
      Ok (Cmos (Some c)
               (Some (Axis (arange (length (pon c))) "Pixels" 1,
                      Axis (arange (chunk_size (settings_of p))) "Shot" 0))
               (settings_of p))
  end.

(** [ini_detector]: the host's [ini_detector_init] keeps the controller of
    the master plugin ([slave]) on a slave; a master builds its own
    [Mock_SingleShot] from the [.npy] array [file] and the phase draw. *)
Definition ini_detector (is_master : bool) (slave : option sim) (file : mat) (choice : bool)
    (p : cmos) : result cmos :=
  p1 <-? (if is_master then c <-? init file choice ;; Ok (with_controller (Some c) p)
          else Ok (with_controller slave p)) ;;
  set_axes p1.

(** [commit_settings]: only the template's placeholder parameter has a
    branch, a call of a method [Mock_SingleShot] does not have; no
    parameter of [params] carries that name. *)
Definition commit_settings (param : string) (p : cmos) : result cmos :=
  if bool_decide (param = "a_parameter_you've_added_in_self.params")
  then Err (AttributeError "'Mock_SingleShot' object has no attribute 'your_method_to_apply_this_param_change'")
  else Ok p.

(** The dfp list of [grab_data], in the order of the three [if]s. *)
Definition cmos_dfps (st : settings) (ax : option (axis * axis)) (data pon poff dR : mat)
    : result (list dfp) :=
  if negb (twod_image st || ponoff st || dRoverR st) then Ok [] else
  match ax with
  | None => Err (AttributeError "'DAQ_2DViewer_MockCMOS' object has no attribute 'x_axis'")
  | Some (xa, ya) =>
      Ok ((if twod_image st then [DFP "Image" [D2 data] "Data2D" ["label1"] [xa; ya]] else []) ++
          (if ponoff st then [DFP "POnOff" [D1 (mean_axis0 poff); D1 (mean_axis0 pon)] "Data1D"
                                 ["off"; "on"] [xa]] else []) ++
          (if dRoverR st then [DFP "dRoverR" [D1 (mean_axis0 dR)] "Data1D" ["dRoverR"] [xa]]
           else []))%list
  end.

(** [grab_data]: a burst of [chunk_size // 2] pairs from the controller
    (which draws its new phase), the white noise, then rows [0::2] taken
    as pump on and [1::2] as pump off, whatever the controller's phase. *)
Definition grab_data (choice : bool) (g : nat -> nat -> flt) (p : cmos) : cmos * result dte_out :=
  let st := settings_of p in
  match controller p with
  | None => (p, Err (AttributeError "'NoneType' object has no attribute 'grab_XUV'"))
  | Some c =>
      let '(c', r) := grab_XUV (chunk_size st / 2) (gas_off st) choice c in
      (with_controller (Some c') p,
       data_tot <-? r ;;
       data_tot' <-? add_noise (amp_noise st) g data_tot ;;
       let pon := rows_even data_tot' in
       let poff := rows_odd data_tot' in
       dR <-? (diff <-? bcast fsub pon poff ;; bcast fdiv diff poff) ;;
       l <-? cmos_dfps st (axes p) data_tot' pon poff dR ;;
       Ok ("CMOS", l))
  end.

(** [close]: only a docstring, nothing changes. *)
Definition close (p : cmos) : cmos := p.

(** [stop]: returns the empty string. *)
Definition stop (p : cmos) : string := "".

(** The host writing a new [chunk_size] into the parameter tree, before it
    calls [commit_settings "chunk_size"]. *)
Definition set_chunk_size (n : nat) (p : cmos) : cmos :=
  let st := settings_of p in
  Cmos (controller p) (axes p)
       (Settings n (sleep_time st) (amp_noise st) (twod_image st) (dRoverR st) (ponoff st) (gas_off st)).

(** ** Running [grab_data] *)

(** The burst the viewer splits: the controller's pair tiled in the order
    of the new phase, with the noise added. *)
Definition burst_of (choice : bool) (g : nat -> nat -> flt) (p : cmos) (c : sim) : mat :=
  let st := settings_of p in
  let a := (pair_of (gas_off st) c).1 in
  let b := (pair_of (gas_off st) c).2 in
  noisy (amp_noise st) g (Mat (length b) (if choice then tile2 (chunk_size st / 2) a b
                                          else tile2 (chunk_size st / 2) b a)).

Lemma burst_of_wf (choice : bool) (g : nat -> nat -> flt) (p : cmos) (c : sim) :
  length (pair_of (gas_off (settings_of p)) c).1 = length (pair_of (gas_off (settings_of p)) c).2 ->
  mat_wf (burst_of choice g p c).
Proof.
  unfold burst_of. intros Hl. destruct choice; apply noisy_wf, tile2_wf; done.
Qed.

Lemma burst_of_halves (choice : bool) (g : nat -> nat -> flt) (p : cmos) (c : sim) :
  length (pair_of (gas_off (settings_of p)) c).1 = length (pair_of (gas_off (settings_of p)) c).2 ->
  nrows (rows_even (burst_of choice g p c)) = nrows (rows_odd (burst_of choice g p c)).
Proof.
  unfold burst_of. intros Hl. destruct choice; apply (burst_halves _ _ _ (length _)).
Qed.

(** On a controller whose two shots have one width, [grab_data] stores the
    new phase in the controller and emits the dfps of the noisy burst. *)
Lemma cmos_grab_data_run (choice : bool) (g : nat -> nat -> flt) (p : cmos) (c : sim) :
  controller p = Some c ->
  length (pair_of (gas_off (settings_of p)) c).1 = length (pair_of (gas_off (settings_of p)) c).2 ->
  grab_data choice g p =
    (with_controller (Some (set_phase choice c)) p,
     let N := burst_of choice g p c in
     l <-? cmos_dfps (settings_of p) (axes p) N (rows_even N) (rows_odd N) (quick_dR N) ;;
     Ok ("CMOS", l)).
Proof.
  intros Hc Hl. pose proof (burst_of_wf choice g p c Hl) as Hw.
  pose proof (burst_of_halves choice g p c Hl) as Hh.
  unfold grab_data. rewrite Hc, grab_XUV_phase by exact Hl. f_equal. cbn [rbind].
  rewrite add_noise_spec by (destruct choice; by apply tile2_wf). cbn [rbind].
  change (noisy _ g _) with (burst_of choice g p c).
  rewrite bcast_same by auto with xuv. cbn [rbind].
  rewrite bcast_same by (auto using ewise_wf with xuv; by rewrite nrows_ewise). done.
Qed.

Lemma half_pos (n : nat) : 2 <= n -> 0 < n / 2.
Proof. intros H. apply Nat.div_str_pos. lia. Qed.

(** C12: the quick-look dR/R of [grab_data] follows the controller's random
    phase.  Without noise it is [(on - off) / off] of the controller's
    spectra when the burst starts pump on, and [(off - on) / on] when it
    starts pump off: rows [0::2] are always taken as pump on. *)
Theorem grab_data_dR_phase (choice : bool) (g : nat -> nat -> flt) (p : cmos) (c : sim)
    (xa ya : axis) (on off : list flt) :
  controller p = Some c -> axes p = Some (xa, ya) -> pair_of (gas_off (settings_of p)) c = (on, off) ->
  length on = length off -> dRoverR (settings_of p) = true -> amp_noise (settings_of p) = Num 0 ->
  (forall i j, exists q, g i j = Num q) -> 2 <= chunk_size (settings_of p) ->
  exists l v,
    grab_data choice g p = (with_controller (Some (set_phase choice c)) p, Ok ("CMOS", l)) /\
    last l = Some (DFP "dRoverR" [D1 v] "Data1D" ["dRoverR"] [xa]) /\
    v ≡ (if choice then zip_with (fun x y => ((x - y) / y)%F) on off
         else zip_with (fun x y => ((x - y) / y)%F) off on).
Proof.
  intros Hc Hax Hp Hl Hdr Hamp Hg Hch.
  rewrite (cmos_grab_data_run choice g p c Hc) by (by rewrite Hp). unfold cmos_dfps. rewrite Hdr, Hax, !orb_true_r.
  cbn [negb rbind]. eexists _, _. split; [reflexivity|]. split.
  - by rewrite app_assoc, last_snoc.
  - unfold burst_of. rewrite Hamp, Hp. cbn [fst snd].
    pose proof (half_pos _ Hch). destruct choice; apply clean_dR; auto.
Qed.

(** C13: the POnOff curves of [grab_data] follow the controller's random
    phase: without noise the curve labelled "on" is the controller's
    pump-on spectrum only when the burst starts pump on, and its pump-off
    spectrum otherwise; the curve labelled "off" is the other one. *)
Theorem grab_data_ponoff_phase (choice : bool) (g : nat -> nat -> flt) (p : cmos) (c : sim)
    (xa ya : axis) (on off : list flt) :
  controller p = Some c -> axes p = Some (xa, ya) -> pair_of (gas_off (settings_of p)) c = (on, off) ->
  length on = length off -> ponoff (settings_of p) = true -> amp_noise (settings_of p) = Num 0 ->
  (forall i j, exists q, g i j = Num q) -> 2 <= chunk_size (settings_of p) ->
  exists l voff von,
    grab_data choice g p = (with_controller (Some (set_phase choice c)) p, Ok ("CMOS", l)) /\
    DFP "POnOff" [D1 voff; D1 von] "Data1D" ["off"; "on"] [xa] ∈ l /\
    von ≡ (if choice then on else off) /\ voff ≡ (if choice then off else on).
Proof.
  intros Hc Hax Hp Hl Hpo Hamp Hg Hch.
  rewrite (cmos_grab_data_run choice g p c Hc) by (by rewrite Hp). unfold cmos_dfps.
  rewrite Hpo, Hax, orb_true_r. cbn [negb orb rbind]. eexists _, _, _. split; [reflexivity|]. split.
  - rewrite !elem_of_app. right. left. by apply list_elem_of_singleton.
  - unfold burst_of. rewrite Hamp, Hp. cbn [fst snd].
    pose proof (half_pos _ Hch). destruct choice; split; auto using clean_even, clean_odd.
Qed.

Lemma double_half (n : nat) : bool_decide (Some (2 * (n / 2)) = Some n) = Nat.even n.
Proof.
  destruct (Nat.Even_or_Odd n) as [[m ->]|[m ->]].
  - rewrite even_double, bool_decide_eq_true_2; [done|]. f_equal. f_equal.
    rewrite Nat.mul_comm, Nat.div_mul; lia.
  - assert (E : (2 * m + 1) / 2 = m) by (rewrite Nat.add_comm, Nat.mul_comm, Nat.div_add; [done|lia]).
    rewrite E, even_double_S, bool_decide_eq_false_2; [done|]. intros [= H]. lia.
Qed.

(** The Image of [grab_data] against the axes the viewer holds: a pixel
    axis as wide as the rows, a shot axis of [k] entries, which fits the
    [2 * (chunk_size // 2)] rows only when [k] is that number. *)
Lemma grab_image_axes (choice : bool) (g : nat -> nat -> flt) (p : cmos) (c : sim) (k : nat) :
  controller p = Some c -> widths_ok c -> twod_image (settings_of p) = true ->
  axes p = Some (Axis (arange (length (pon c))) "Pixels" 1, Axis (arange k) "Shot" 0) ->
  exists l d,
    grab_data choice g p = (with_controller (Some (set_phase choice c)) p, Ok ("CMOS", d :: l)) /\
    dfp_name d = "Image" /\
    axes_fit d = bool_decide (Some (2 * (chunk_size (settings_of p) / 2)) = Some k).
Proof.
  intros Hc Hw Htw Hax.
  destruct (pair_of_widths (gas_off (settings_of p)) c Hw) as [H1 H2].
  rewrite (cmos_grab_data_run choice g _ c) by (done || congruence). unfold cmos_dfps.
  rewrite Htw, Hax. cbn [negb orb rbind]. eexists _, _. split; [reflexivity|]. split; [done|].
  unfold axes_fit, burst_of. cbn -[Nat.div]. unfold arange.
  rewrite length_imap, H2, !length_seq, bool_decide_eq_true_2 by done.
  destruct choice; rewrite length_tile2; by destruct (bool_decide _).
Qed.

(** C14: after [set_axes], the Image of [grab_data] has a pixel axis as wide
    as its rows, but its shot axis ([chunk_size] entries) matches the
    [2 * (chunk_size // 2)] rows of the image only for an even
    [chunk_size]. *)
Theorem grab_data_image_axes (choice : bool) (g : nat -> nat -> flt) (p0 p : cmos) (c : sim) :
  set_axes p0 = Ok p -> controller p = Some c -> widths_ok c ->
  twod_image (settings_of p) = true ->
  exists l d,
    grab_data choice g p = (with_controller (Some (set_phase choice c)) p, Ok ("CMOS", d :: l)) /\
    dfp_name d = "Image" /\ axes_fit d = Nat.even (chunk_size (settings_of p)).
Proof.
  intros Hs Hc Hw Htw. rewrite <- double_half.
  unfold set_axes in Hs. destruct (controller p0) as [c0|]; [|discriminate].
  injection Hs as <-. injection Hc as <-. by apply grab_image_axes.
Qed.

(** C29: [commit_settings] never re-runs [set_axes]: after the user sets
    [chunk_size] to [n], the Image of the next [grab_data] has
    [2 * (n // 2)] rows but keeps the shot axis of the old [chunk_size],
    so its axes fit only when [2 * (n // 2)] is the old [chunk_size]. *)
Theorem chunk_change_stale_axes (choice : bool) (g : nat -> nat -> flt) (p0 p : cmos) (c : sim) (n : nat) :
  set_axes p0 = Ok p -> controller p = Some c -> widths_ok c -> twod_image (settings_of p) = true ->
  exists p' l d,
    commit_settings "chunk_size" (set_chunk_size n p) = Ok p' /\
    grab_data choice g p' = (with_controller (Some (set_phase choice c)) p', Ok ("CMOS", d :: l)) /\
    dfp_name d = "Image" /\ axes_fit d = bool_decide (2 * (n / 2) = chunk_size (settings_of p)).
Proof.
  intros Hs Hc Hw Htw. unfold set_axes in Hs. destruct (controller p0) as [c0|]; [|discriminate].
  injection Hs as <-. injection Hc as <-.
  unfold commit_settings. case_bool_decide as Hb; [discriminate Hb|].
  set (p1 := Cmos (Some c0) _ (settings_of p0)).
  destruct (grab_image_axes choice g (set_chunk_size n p1) c0 (chunk_size (settings_of p0)))
    as (l & d & E & Hn & Hf); [done..|].
  exists (set_chunk_size n p1), l, d. split; [done|]. split; [done|]. split; [done|]. rewrite Hf. apply bool_decide_ext. cbn.
  split; [by intros [=]|by intros ->].
Qed.

(** ** Concrete runs *)

(** The CMOS viewer after [ini_detector] on [demo_sim] with two shots per
    chunk and every output selected; [demo_noise] draws 1/2 everywhere. *)
Definition demo_settings : settings := Settings 2 10 (Num 0) true true true false.
Definition demo_cmos0 : cmos := Cmos (Some demo_sim) None demo_settings.
Definition demo_cmos : cmos :=
  Cmos (Some demo_sim) (Some (Axis (arange 1) "Pixels" 1, Axis (arange 2) "Shot" 0)) demo_settings.
Definition demo_noise : nat -> nat -> flt := fun _ _ => Num (1 # 2).

Local Ltac finite_noise := intros ? ?; eexists; reflexivity.

Lemma grab_data_dR_phase_witness :
  exists l v,
    grab_data false demo_noise demo_cmos =
      (with_controller (Some (set_phase false demo_sim)) demo_cmos, Ok ("CMOS", l)) /\
    last l = Some (DFP "dRoverR" [D1 v] "Data1D" ["dRoverR"] [Axis (arange 1) "Pixels" 1]) /\
    v ≡ zip_with (fun x y => ((x - y) / y)%F) [Num 1] [Num 3].
Proof.
  apply (grab_data_dR_phase false demo_noise demo_cmos demo_sim _ (Axis (arange 2) "Shot" 0) [Num 3] [Num 1]);
    first [reflexivity | finite_noise | cbn; lia].
Defined.

Lemma grab_data_ponoff_phase_witness :
  exists l voff von,
    grab_data false demo_noise demo_cmos =
      (with_controller (Some (set_phase false demo_sim)) demo_cmos, Ok ("CMOS", l)) /\
    DFP "POnOff" [D1 voff; D1 von] "Data1D" ["off"; "on"] [Axis (arange 1) "Pixels" 1] ∈ l /\
    von ≡ [Num 1] /\ voff ≡ [Num 3].
Proof.
  apply (grab_data_ponoff_phase false demo_noise demo_cmos demo_sim _ (Axis (arange 2) "Shot" 0) [Num 3] [Num 1]);
    first [reflexivity | finite_noise | cbn; lia].
Defined.

Lemma grab_data_image_axes_witness :
  exists l d,
    grab_data true demo_noise demo_cmos =
      (with_controller (Some (set_phase true demo_sim)) demo_cmos, Ok ("CMOS", d :: l)) /\
    dfp_name d = "Image" /\ axes_fit d = Nat.even 2.
Proof.
  apply (grab_data_image_axes true demo_noise demo_cmos0 demo_cmos demo_sim); try reflexivity.
  repeat split; reflexivity.
Defined.

Lemma chunk_change_stale_axes_witness :
  exists p' l d,
    commit_settings "chunk_size" (set_chunk_size 4 demo_cmos) = Ok p' /\
    grab_data true demo_noise p' = (with_controller (Some (set_phase true demo_sim)) p', Ok ("CMOS", d :: l)) /\
    dfp_name d = "Image" /\ axes_fit d = bool_decide (2 * (4 / 2) = chunk_size (settings_of demo_cmos)).
Proof.
  apply (chunk_change_stale_axes true demo_noise demo_cmos0 demo_cmos demo_sim 4); try reflexivity.
  repeat split; reflexivity.
Defined.

End MockCMOS.

Module MockStab.
Import MockSingleShot.

(** The parameters of [params]; [chunk_size] and [sleep_time] as [nat], as
    in [MockCMOS.settings]: their non-negative values only. *)
Record settings := Settings {
  chunk_size : nat;
  sleep_time : nat;
  amp_noise : flt;
}.

Record stabcam := StabCam {
  controller : option sim;
  axes : option (axis * axis);
  settings_of : settings;
}.

Definition ini_attributes (st : settings) : stabcam := StabCam None None st.

Definition with_controller (c : option sim) (p : stabcam) : stabcam :=
  StabCam c (axes p) (settings_of p).

(** [set_axes]: as the CMOS viewer's, but with the pixel axis on index 0
    and the shot axis on index 1. *)
Definition set_axes (p : stabcam) : result stabcam :=
  match controller p with
  | None => Err (AttributeError "'NoneType' object has no attribute 'pon'")
  | Some c =>
      Ok (StabCam (Some c)
                  (Some (Axis (arange (length (pon c))) "Pixels" 0,
                         Axis (arange (chunk_size (settings_of p))) "Shot" 1))
                  (settings_of p))
  end.

Definition ini_detector (is_master : bool) (slave : option sim) (file : mat) (choice : bool)
    (p : stabcam) : result stabcam :=
  p1 <-? (if is_master then c <-? init file choice ;; Ok (with_controller (Some c) p)
          else Ok (with_controller slave p)) ;;
  set_axes p1.

(** [commit_settings]: only the template's placeholder parameter has a
    branch, a call of a method [Mock_SingleShot] does not have; no
    parameter of [params] carries that name. *)
Definition commit_settings (param : string) (p : stabcam) : result stabcam :=
  if bool_decide (param = "a_parameter_you've_added_in_self.params")
  then Err (AttributeError "'Mock_SingleShot' object has no attribute 'your_method_to_apply_this_param_change'")
  else Ok p.

(** [grab_data]: the stabilisation image of [chunk_size // 2] pairs in the
    controller's current phase (it draws none), with its white noise. *)
Definition grab_data (g : nat -> nat -> flt) (p : stabcam) : result dte_out :=
  let st := settings_of p in
  match controller p with
  | None => Err (AttributeError "'NoneType' object has no attribute 'grab_stab'")
  | Some c =>
      data_tot <-? grab_stab (chunk_size st / 2) c ;;
      data_tot' <-? add_noise (amp_noise st) g data_tot ;;
      match axes p with
      | None => Err (AttributeError "'DAQ_2DViewer_MockStabCamera' object has no attribute 'x_axis'")
      | Some (xa, ya) => Ok ("CMOS", [DFP "Camera" [D2 data_tot'] "Data2D" ["label1"] [xa; ya]])
      end
  end.

(** [close]: only a docstring, nothing changes. *)
Definition close (p : stabcam) : stabcam := p.

(** [stop]: returns the empty string. *)
Definition stop (p : stabcam) : string := "".

(** The image [grab_data] emits: the tiled stabilisation pair in the
    controller's phase, with the noise. *)
Definition stab_image (g : nat -> nat -> flt) (p : stabcam) (c : sim) : mat :=
  noisy (amp_noise (settings_of p)) g
        (Mat 1024 (if first_shot_is_pump_on c
                   then tile2 (chunk_size (settings_of p) / 2) ones1024 zeros1024
                   else tile2 (chunk_size (settings_of p) / 2) zeros1024 ones1024)).

Lemma stab_grab_data_run (g : nat -> nat -> flt) (p : stabcam) (c : sim) (xa ya : axis) :
  controller p = Some c -> axes p = Some (xa, ya) -> stab_ok c ->
  grab_data g p = Ok ("CMOS", [DFP "Camera" [D2 (stab_image g p c)] "Data2D" ["label1"] [xa; ya]]).
Proof.
  intros Hc Hax Hs. unfold grab_data. rewrite Hc, grab_stab_phase by exact Hs. cbn [rbind].
  rewrite add_noise_spec by (destruct (first_shot_is_pump_on c); apply tile2_wf;
                              unfold ones1024, zeros1024; by rewrite length_replicate).
  cbn [rbind]. by rewrite Hax.
Qed.

(** Shot [i] of the stabilisation image: ones or zeros by the parity of
    [i] and the stored phase, plus the noise of that shot. *)
Lemma stab_image_row (g : nat -> nat -> flt) (p : stabcam) (c : sim) (i : nat) :
  i < 2 * (chunk_size (settings_of p) / 2) ->
  rows (stab_image g p c) !! i =
  Some (imap (fun j x => (x + amp_noise (settings_of p) * g i j)%F)
             (replicate 1024 (if Bool.eqb (Nat.even i) (first_shot_is_pump_on c) then Num 1 else Num 0))).
Proof.
  intros Hi. unfold stab_image, noisy. cbn [rows]. rewrite list_lookup_imap.
  destruct (first_shot_is_pump_on c); rewrite lookup_tile2, decide_True by done;
    by destruct (Nat.even i).
Qed.

(** C15: pixel [j] of shot [i] of the stabilisation image is 1 on a
    pump-on shot and 0 on a pump-off shot, plus its noise; the shots
    alternate from the controller's stored phase, and the image has
    [2 * (chunk_size // 2)] shots of 1024 pixels. *)
Theorem grab_data_pixels (g : nat -> nat -> flt) (p : stabcam) (c : sim) (xa ya : axis) :
  controller p = Some c -> axes p = Some (xa, ya) -> stab_ok c ->
  exists m,
    grab_data g p = Ok ("CMOS", [DFP "Camera" [D2 m] "Data2D" ["label1"] [xa; ya]]) /\
    nrows m = 2 * (chunk_size (settings_of p) / 2) /\ ncols m = 1024 /\
    forall i j, i < 2 * (chunk_size (settings_of p) / 2) -> j < 1024 ->
      (rows m !! i ≫= (.!! j)) =
      Some ((if Bool.eqb (Nat.even i) (first_shot_is_pump_on c) then Num 1 else Num 0)
            + amp_noise (settings_of p) * g i j)%F.
Proof.
  intros Hc Hax Hs. eexists. split; [by apply stab_grab_data_run|].
  split; [|split; [done|]].
  - unfold stab_image, noisy, nrows. cbn [rows]. rewrite length_imap.
    by destruct (first_shot_is_pump_on c); rewrite length_tile2.
  - intros i j Hi Hj. rewrite stab_image_row by done. cbn [mbind option_bind].
    by rewrite list_lookup_imap, lookup_replicate_2.
Qed.

(** C16: after [set_axes], the axes of the stabilisation image fit its
    shape only when the controller's spectrum has [2 * (chunk_size // 2)]
    pixels and [chunk_size] is 1024: the "Pixels" axis is put on the shot
    index and the "Shot" axis on the 1024 pixels. *)
Theorem grab_data_axes (g : nat -> nat -> flt) (p0 p : stabcam) (c : sim) :
  set_axes p0 = Ok p -> controller p = Some c -> stab_ok c ->
  exists d, grab_data g p = Ok ("CMOS", [d]) /\
    axes_fit d = Nat.eqb (length (pon c)) (2 * (chunk_size (settings_of p) / 2)) &&
                 Nat.eqb (chunk_size (settings_of p)) 1024.
Proof.
  unfold set_axes. intros Hs Hc Hst. destruct (controller p0) as [c0|]; [|discriminate].
  injection Hs as <-. injection Hc as <-.
  eexists. split; [apply stab_grab_data_run; done|].
  unfold axes_fit, stab_image, noisy, nrows, arange. cbn [dfp_data dfp_axes forallb ax_index ax_data dim_of rows ncols settings_of].
  unfold nrows. cbn [rows]. rewrite length_imap, !length_seq.
  destruct (first_shot_is_pump_on c0); rewrite length_tile2;
    repeat match goal with |- context [bool_decide ?P] => destruct (bool_decide_reflect P) end;
    repeat match goal with |- context [Nat.eqb ?a ?b] => destruct (Nat.eqb_spec a b) end;
    simpl; congruence.
Qed.

(** ** Concrete runs *)

Definition demo_settings : settings := Settings 2 10 (Num (1 # 10)).
Definition demo_stab0 : stabcam := StabCam (Some demo_sim) None demo_settings.
Definition demo_stab : stabcam :=
  StabCam (Some demo_sim) (Some (Axis (arange 1) "Pixels" 0, Axis (arange 2) "Shot" 1)) demo_settings.
Definition demo_noise : nat -> nat -> flt := fun _ _ => Num (1 # 2).

Lemma demo_sim_stab_ok : stab_ok demo_sim.
Proof. split; reflexivity. Qed.

Lemma grab_data_pixels_witness :
  exists m,
    grab_data demo_noise demo_stab =
      Ok ("CMOS", [DFP "Camera" [D2 m] "Data2D" ["label1"] [Axis (arange 1) "Pixels" 0; Axis (arange 2) "Shot" 1]]) /\
    nrows m = 2 * (2 / 2) /\ ncols m = 1024 /\
    forall i j, i < 2 * (2 / 2) -> j < 1024 ->
      (rows m !! i ≫= (.!! j)) =
      Some ((if Bool.eqb (Nat.even i) false then Num 1 else Num 0) + Num (1 # 10) * demo_noise i j)%F.
Proof. apply (grab_data_pixels demo_noise demo_stab demo_sim); [reflexivity|reflexivity|exact demo_sim_stab_ok]. Defined.

Lemma grab_data_axes_witness :
  exists d, grab_data demo_noise demo_stab = Ok ("CMOS", [d]) /\
    axes_fit d = Nat.eqb 1 (2 * (2 / 2)) && Nat.eqb 2 1024.
Proof.
  apply (grab_data_axes demo_noise demo_stab0 demo_stab demo_sim);
    [reflexivity|reflexivity|exact demo_sim_stab_ok].
Defined.

End MockStab.

Module XUVSpectrum.
Import HHGSpectrum.

(** The two settings of [timing_opts] that [grab_data] reads. *)
Record settings := Settings { amp_noise : Q; shift_noise : Q }.

Record xuv := XUV {
  background : list flt;
  controller : option hhg;
  x_axis : option axis;
  settings_of : settings;
}.

(** [ini_attributes]: an empty background, no controller. *)
Definition ini_attributes (st : settings) : xuv := XUV [] None None st.

(** [ini_detector]: the controller (built from the HDF5 spectrum [loaded]
    on a master, the master's on a slave), the pixel axis, and the
    spectrum emitted once on [dte_signal_temp].  [dim], [labels] and
    [axes] are passed to the [DataToExport], not to the [DataFromPlugins],
    which keeps its defaults (no label, no axis). *)
Definition ini_detector (is_master : bool) (slave : option hhg) (fname : string) (loaded : list Q)
    (p : xuv) : result (xuv * dte_out) :=
  let c := if is_master then Some (init fname loaded) else slave in
  match c with
  | None => Err (AttributeError "'NoneType' object has no attribute 'data'")
  | Some h =>
      let xa := Axis (arange (length (data h))) "Pixels" 0 in
      Ok (XUV (background p) c (Some xa) (settings_of p),
          ("HHG", [DFP "Mock1" [D1 (Num <$> data h)] "Data1D" [] []]))
  end.

(** [take_background]: 5.5 on every pixel, stored and emitted. *)
Definition take_background (p : xuv) : result (xuv * dte_out) :=
  match x_axis p with
  | None => Err (AttributeError "'DAQ_1DViewer_XUVSpectrum' object has no attribute 'x_axis'")
  | Some xa =>
      let bkg := replicate (length (ax_data xa)) (Num (11 # 2)) in
      Ok (XUV bkg (controller p) (x_axis p) (settings_of p),
          ("HHG", [DFP "Mock1" [D1 bkg] "Data1D" ["background"] [xa]]))
  end.

Definition commit_settings (param : string) (p : xuv) : result (xuv * list dte_out) :=
  if bool_decide (param = "take_background") then
    po <-? take_background p ;; Ok (po.1, [po.2])
  else Ok (p, []).

(** [grab_data]: the spectrum plus [amp_noise] times the uniform draws
    [r i], resampled by [np.interp] on the pixel grid shifted by
    [shift_noise] times the normal draw [z]. *)
Definition grab_data (r : nat -> Q) (z : Q) (p : xuv) : result dte_out :=
  let st := settings_of p in
  match controller p, x_axis p with
  | None, _ => Err (AttributeError "'NoneType' object has no attribute 'data'")
  | _, None => Err (AttributeError "'DAQ_1DViewer_XUVSpectrum' object has no attribute 'x_axis'")
  | Some h, Some xa =>
      let noise := (fun i => amp_noise st * r i)%Q <$> seq 0 (length (ax_data xa)) in
      data_tot <-? (if bdim (length (data h)) (length noise) is Some _
                    then Ok ((fun '(d, e) => d + e)%Q <$> bpair (data h) noise)
                    else Err bcast_err) ;;
      let x := qnat <$> ax_data xa in
      data_tot' <-? np_interp x ((fun xi => xi + shift_noise st * z)%Q <$> x) data_tot ;;
      Ok ("HHG", [DFP "Mock1" [D1 (Num <$> data_tot')] "Data1D" ["data"] [xa]])
  end.

(** [close]: [pass]. *)
Definition close (p : xuv) : xuv := p.

(** [stop]: returns the empty string. *)
Definition stop (p : xuv) : string := "".

(** The noisy spectrum [grab_data] resamples. *)
Definition noisy_spectrum (st : settings) (r : nat -> Q) (h : hhg) : list Q :=
  imap (fun i d => d + amp_noise st * r i)%Q (data h).

Lemma xuv_grab_data_run (r : nat -> Q) (z : Q) (p : xuv) (h : hhg) (xa : axis) :
  controller p = Some h -> x_axis p = Some xa -> length (ax_data xa) = length (data h) ->
  data h <> [] ->
  grab_data r z p =
    Ok ("HHG", [DFP "Mock1"
                  [D1 (Num <$> ((fun x => interp x ((fun xi => xi + shift_noise (settings_of p) * z)%Q
                                                     <$> (qnat <$> ax_data xa))
                                                (noisy_spectrum (settings_of p) r h))
                                 <$> (qnat <$> ax_data xa)))]
                  "Data1D" ["data"] [xa]]).
Proof.
  intros Hc Hx Hl Hne. unfold grab_data. rewrite Hc, Hx, length_fmap, length_seq, Hl, bdim_same.
  cbn [rbind]. rewrite bpair_same by (by rewrite length_fmap, length_seq).
  rewrite fmap_zip_uncurry, zip_with_fmap_seq. fold (noisy_spectrum (settings_of p) r h).
  unfold np_interp. rewrite !length_fmap, Hl.
  destruct (data h) eqn:E; [done|]. unfold noisy_spectrum. rewrite length_imap, E, Nat.eqb_refl.
  done.
Qed.

(** The resampled spectrum on a pixel grid shifted by [k] whole pixels. *)
Lemma resample_whole_shift (st : settings) (r : nat -> Q) (h : hhg) (z : Q) (k i : nat) :
  (shift_noise st * z)%Q = qnat k -> i < length (data h) ->
  ((fun x => interp x ((fun xi => xi + shift_noise st * z)%Q <$> (qnat <$> arange (length (data h))))
                     (noisy_spectrum st r h)) <$> (qnat <$> arange (length (data h)))) !! i
  = Some (nth (i - k) (noisy_spectrum st r h) 0%Q).
Proof.
  intros Hs Hi. rewrite Hs. unfold arange.
  replace ((fun xi => xi + qnat k)%Q <$> (qnat <$> seq 0 (length (data h))))
    with (shifted_grid (length (data h)) (qnat k)) by (unfold shifted_grid; by rewrite <- list_fmap_compose). rewrite !list_lookup_fmap, lookup_seq_lt by done. simpl. f_equal.
  apply interp_grid; [apply length_imap|done].
Qed.

(** C17: every value [grab_data] emits lies between the smallest value of
    the spectrum and its largest plus [amp_noise]: the noise adds at most
    [amp_noise] to a pixel and [np.interp] never leaves the range of its
    samples, whatever the shift. *)
Theorem grab_data_in_range (r : nat -> Q) (z : Q) (p : xuv) (h : hhg) (xa : axis) (lo hi : Q) :
  controller p = Some h -> x_axis p = Some xa -> length (ax_data xa) = length (data h) ->
  data h <> [] -> Forall (fun d => lo <= d <= hi)%Q (data h) ->
  (0 <= amp_noise (settings_of p))%Q -> (forall i, 0 <= r i <= 1)%Q ->
  exists out,
    grab_data r z p = Ok ("HHG", [DFP "Mock1" [D1 (Num <$> out)] "Data1D" ["data"] [xa]]) /\
    length out = length (data h) /\ Forall (fun q => lo <= q <= hi + amp_noise (settings_of p))%Q out.
Proof.
  intros Hc Hx Hl Hne Hd Ha Hr. eexists. split; [by apply xuv_grab_data_run|].
  split; [by rewrite !length_fmap|].
  apply Forall_fmap, Forall_forall. intros x _. apply interp_bounds.
  - destruct (ax_data xa); simpl in *; [by destruct (data h)|done].
  - unfold noisy_spectrum. by destruct (data h).
  - apply Forall_lookup_2. intros i q Hq. unfold noisy_spectrum in Hq.
    apply list_lookup_imap_Some in Hq as (d & Hd' & ->).
    pose proof (Forall_lookup_1 _ _ _ _ Hd Hd') as [H1 H2]. destruct (Hr i) as [H3 H4].
    assert (0 <= amp_noise (settings_of p) * r i)%Q by (apply Qmult_le_0_compat; lra).
    assert (amp_noise (settings_of p) * r i <= amp_noise (settings_of p))%Q by nra.
    simpl. lra.
Qed.

(** C18: when the drawn shift is a whole number [k] of pixels, pixel [i]
    of the emitted spectrum is pixel [i - k] of the noisy spectrum, the
    first one for the [k] first pixels: [np.interp] moves the spectrum
    right by [k] and repeats its first value on the left edge. *)
Theorem grab_data_whole_shift (r : nat -> Q) (z : Q) (p : xuv) (h : hhg) (xa : axis) (k : nat) :
  controller p = Some h -> x_axis p = Some xa -> ax_data xa = arange (length (data h)) ->
  data h <> [] -> (shift_noise (settings_of p) * z)%Q = qnat k ->
  exists out,
    grab_data r z p = Ok ("HHG", [DFP "Mock1" [D1 (Num <$> out)] "Data1D" ["data"] [xa]]) /\
    length out = length (data h) /\
    forall i, i < length (data h) -> out !! i = Some (nth (i - k) (noisy_spectrum (settings_of p) r h) 0%Q).
Proof.
  intros Hc Hx Ha Hne Hs. eexists. split.
  { apply xuv_grab_data_run; [done|done| |done]. by rewrite Ha; unfold arange; rewrite length_seq. }
  rewrite Ha. split; [by unfold arange; rewrite !length_fmap, length_seq|].
  intros i Hi. by apply resample_whole_shift.
Qed.

(** C19: the background [take_background] stores is never subtracted:
    after it, with no noise and no shift, [grab_data] emits the raw
    spectrum, not the spectrum minus 5.5. *)
Theorem take_background_unused (r : nat -> Q) (z : Q) (p p' : xuv) (o : dte_out) (h : hhg) (xa : axis) :
  take_background p = Ok (p', o) -> controller p = Some h -> x_axis p = Some xa ->
  ax_data xa = arange (length (data h)) -> data h <> [] ->
  amp_noise (settings_of p) = 0%Q -> (shift_noise (settings_of p) * z)%Q = qnat 0 ->
  background p' = replicate (length (data h)) (Num (11 # 2)) /\
  exists out,
    grab_data r z p' = Ok ("HHG", [DFP "Mock1" [D1 (Num <$> out)] "Data1D" ["data"] [xa]]) /\
    Num <$> out ≡ Num <$> data h.
Proof.
  unfold take_background. intros Htb Hc Hx Ha Hne Hamp Hs. rewrite Hx in Htb.
  injection Htb as <- <-. cbn [background controller x_axis settings_of].
  split; [by rewrite Ha; unfold arange; rewrite length_seq|].
  eexists. split.
  { apply xuv_grab_data_run; [done|done| |done]. by rewrite Ha; unfold arange; rewrite length_seq. }
  rewrite Ha. apply list_equiv_lookup. intros i. rewrite !(list_lookup_fmap Num).
  destruct (decide (i < length (data h))) as [Hi|Hi].
  - rewrite (resample_whole_shift _ _ _ _ 0) by done. destruct (lookup_lt_is_Some_2 (data h) i) as [d Hd]; [done|].
    rewrite Hd, Nat.sub_0_r. constructor. unfold noisy_spectrum.
    erewrite nth_lookup_Some by (rewrite list_lookup_imap, Hd; reflexivity). apply num_equiv.
    cbn [settings_of]. rewrite Hamp. ring.
  - rewrite (lookup_ge_None_2 (data h)) by lia. rewrite lookup_ge_None_2; [constructor|].
    unfold arange. rewrite !length_fmap, length_seq. lia.
Qed.

(** ** Concrete runs *)

(** The XUV viewer after [ini_detector] on the spectrum [1; 2; 3], with no
    amplitude noise and a shift level of 1. *)
Definition demo_xuv : xuv :=
  XUV [] (Some (HHG "HHG_20240402_Numerobis.h5" [1; 2; 3]%Q)) (Some (Axis (arange 3) "Pixels" 0))
      (Settings 0 1).
Definition demo_draws : nat -> Q := fun _ => (1 # 2)%Q.

Lemma grab_data_in_range_witness :
  exists out,
    grab_data demo_draws (1 # 3) demo_xuv =
      Ok ("HHG", [DFP "Mock1" [D1 (Num <$> out)] "Data1D" ["data"] [Axis (arange 3) "Pixels" 0]]) /\
    length out = 3 /\ Forall (fun q => 1 <= q <= 3 + 0)%Q out.
Proof.
  apply (grab_data_in_range demo_draws (1 # 3) demo_xuv (HHG "HHG_20240402_Numerobis.h5" [1; 2; 3]%Q)
           (Axis (arange 3) "Pixels" 0) 1 3); try reflexivity.
  - discriminate.
  - repeat constructor; vm_compute; discriminate.
  - vm_compute. discriminate.
  - intros i. unfold demo_draws. split; vm_compute; discriminate.
Defined.

Lemma grab_data_whole_shift_witness :
  exists out,
    grab_data demo_draws 1 demo_xuv =
      Ok ("HHG", [DFP "Mock1" [D1 (Num <$> out)] "Data1D" ["data"] [Axis (arange 3) "Pixels" 0]]) /\
    length out = 3 /\
    forall i, i < 3 -> out !! i = Some (nth (i - 1) (noisy_spectrum (Settings 0 1) demo_draws
                                                        (HHG "HHG_20240402_Numerobis.h5" [1; 2; 3]%Q)) 0%Q).
Proof.
  apply (grab_data_whole_shift demo_draws 1 demo_xuv (HHG "HHG_20240402_Numerobis.h5" [1; 2; 3]%Q)
           (Axis (arange 3) "Pixels" 0) 1);
    try reflexivity. discriminate.
Defined.

Lemma take_background_unused_witness :
  exists p' o, take_background demo_xuv = Ok (p', o) /\
    background p' = replicate 3 (Num (11 # 2)) /\
    exists out,
      grab_data demo_draws 0 p' =
        Ok ("HHG", [DFP "Mock1" [D1 (Num <$> out)] "Data1D" ["data"] [Axis (arange 3) "Pixels" 0]]) /\
      Num <$> out ≡ Num <$> [1; 2; 3]%Q.
Proof.
  eexists _, _. split; [reflexivity|].
  eapply (take_background_unused demo_draws 0 demo_xuv _ _ (HHG "HHG_20240402_Numerobis.h5" [1; 2; 3]%Q)
            (Axis (arange 3) "Pixels" 0)); try reflexivity. discriminate.
Defined.

End XUVSpectrum.
