(* ===== verification/Pipeline.v ===== *)
(** * The acquisition rig: one controller, two cameras

    A master [DAQ_2DViewer_MockCMOS] and a slave
    [DAQ_2DViewer_MockStabCamera] share one [Mock_SingleShot]: the slave's
    [ini_detector] keeps the master's controller object, so the phase the
    CMOS grab draws is the phase the stabilisation grab reads.  The rig
    holds that controller once (the shared store) and the two plugins,
    whose own [controller] fields are replaced by the rig's at every grab;
    [ini_rig] is the host's start-up of the two viewers, [snap] one
    acquisition of the data mixer running the two grabs in either order.
    RigRun.v drives the rig through its lifetime. *)

From S2P Require Import Prelude Flt NdArray DRModel Simulator Viewers.
From Stdlib Require Import QArith.
Local Close Scope Q_scope.
Local Open Scope string_scope.
Local Open Scope xuv_scope.

(** ** The rig: two plugins on one controller *)

Module Rig.
Import MockSingleShot.

(** The controller is held once: the two plugins' [self.controller] are
    the same object. *)
Record rig := MkRig { ctrl : sim; cmos : MockCMOS.cmos; stab : MockStab.stabcam }.

Definition grab_cmos (choice : bool) (g : nat -> nat -> flt) (r : rig) : rig * result dte_out :=
  let '(cm', res) := MockCMOS.grab_data choice g (MockCMOS.with_controller (Some (ctrl r)) (cmos r)) in
  (MkRig (default (ctrl r) (MockCMOS.controller cm')) cm' (stab r), res).

Definition grab_stab (g : nat -> nat -> flt) (r : rig) : result dte_out :=
  MockStab.grab_data g (MockStab.with_controller (Some (ctrl r)) (stab r)).

(** The host's start-up of a preset: the master CMOS viewer runs
    [ini_detector] first and builds the controller, then the slave
    stabilisation viewer runs [ini_detector] with the master's
    [self.controller]; the rig holds the master's controller. *)
Definition ini_rig (data : mat) (choice : bool) (pc : MockCMOS.cmos) (ps : MockStab.stabcam)
    : result rig :=
  pc' <-? MockCMOS.ini_detector true None data choice pc ;;
  ps' <-? MockStab.ini_detector false (MockCMOS.controller pc') data choice ps ;;
  match MockCMOS.controller pc' with
  | Some c => Ok (MkRig c pc' ps')
  | None => Err (AttributeError "'NoneType' object has no attribute 'pon'")
  end.

(** One snap of the data mixer: both detectors grab, the CMOS first or the
    stabilisation camera first. *)
Definition snap (cmos_first : bool) (choice : bool) (gc gs : nat -> nat -> flt) (r : rig)
    : rig * result (dte_out * dte_out) :=
  if cmos_first then
    let '(r', o1) := grab_cmos choice gc r in
    (r', o1' <-? o1 ;; o2 <-? grab_stab gs r' ;; Ok (o1', o2))
  else
    let o2 := grab_stab gs r in
    let '(r', o1) := grab_cmos choice gc r in
    (r', o2' <-? o2 ;; o1' <-? o1 ;; Ok (o1', o2')).

(** ** Concrete runs *)

(** The rig of the demo viewers on [demo_sim]: a noise-free CMOS image of
    one pair, a stabilisation image of one pair with noise 1/10. *)
Definition demo_rig : rig := MkRig demo_sim MockCMOS.demo_cmos MockStab.demo_stab.

End Rig.
