(* ===== verification/RigRun.v ===== *)
(** * The rig over its lifetime: snaps and settings edits

    After the start-up [Rig.ini_rig], the host drives the two viewers of
    the rig with two kinds of events: a snap of the data mixer (both
    [grab_data] calls, in either order) and a user edit of a viewer's
    settings, which the parameter tree stores before it calls
    [commit_settings] with the parameter's name.  [rig_step] is the
    transition function on the rig, [rig_reach] its reachable states.  The
    invariant [rig_inv] (the controller's constant stabilisation columns,
    its spectra of one width, both viewers' axes set) holds in every
    reachable rig.  The settings are those the model can hold: [chunk_size]
    and [sleep_time] are [nat], negative values are not modelled. *)

From S2P Require Import Prelude Flt NdArray DRModel Simulator Viewers Pipeline.
From Stdlib Require Import QArith.
Local Close Scope Q_scope.
Local Open Scope string_scope.
Local Open Scope xuv_scope.

Module RigRun.
Import MockSingleShot Rig.

Inductive rig_event :=
  | ESnap (cmos_first choice : bool) (gc gs : nat -> nat -> flt)
  | ECmosEdit (st : MockCMOS.settings) (param : string)
  | EStabEdit (st : MockStab.settings) (param : string).

(** The parameter tree's new values, stored before [commit_settings]. *)
Definition cmos_edit (st : MockCMOS.settings) (p : MockCMOS.cmos) : MockCMOS.cmos :=
  MockCMOS.Cmos (MockCMOS.controller p) (MockCMOS.axes p) st.

Definition stab_edit (st : MockStab.settings) (p : MockStab.stabcam) : MockStab.stabcam :=
  MockStab.StabCam (MockStab.controller p) (MockStab.axes p) st.

(** One event: the rig after it and what the viewers emitted, or the
    exception raised (the edited values stay in the tree). *)
Definition rig_step (ev : rig_event) (r : rig) : rig * result (list dte_out) :=
  match ev with
  | ESnap cf choice gc gs =>
      let '(r', res) := snap cf choice gc gs r in (r', o <-? res ;; Ok [o.1; o.2])
  | ECmosEdit st param =>
      let p := cmos_edit st (cmos r) in
      match MockCMOS.commit_settings param p with
      | Ok p' => (MkRig (ctrl r) p' (stab r), Ok [])
      | Err e => (MkRig (ctrl r) p (stab r), Err e)
      end
  | EStabEdit st param =>
      let p := stab_edit st (stab r) in
      match MockStab.commit_settings param p with
      | Ok p' => (MkRig (ctrl r) (cmos r) p', Ok [])
      | Err e => (MkRig (ctrl r) (cmos r) p, Err e)
      end
  end.

(** The rigs the host can reach: a start-up on a [.npy] array (a 2-D
    array, so well formed), then any events. *)
Inductive rig_reach : rig -> Prop :=
  | rr_init data choice pc ps r : mat_wf data -> ini_rig data choice pc ps = Ok r -> rig_reach r
  | rr_step ev r : rig_reach r -> rig_reach (rig_step ev r).1.

Record rig_inv (r : rig) : Prop := {
  inv_stab : stab_ok (ctrl r);
  inv_widths : widths_ok (ctrl r);
  inv_cmos_axes : is_Some (MockCMOS.axes (cmos r));
  inv_stab_axes : is_Some (MockStab.axes (stab r));
}.

(** ** The invariant holds at start-up and every event keeps it *)

Lemma ini_rig_inv (data : mat) (choice : bool) (pc : MockCMOS.cmos) (ps : MockStab.stabcam) (r : rig) :
  mat_wf data -> ini_rig data choice pc ps = Ok r -> rig_inv r.
Proof.
  intros Hw E. unfold ini_rig, MockCMOS.ini_detector, MockStab.ini_detector in E.
  destruct (init data choice) as [c|e] eqn:Ei; [|discriminate]. cbn in E. injection E as <-.
  destruct (init_invariants data choice c Hw Ei) as (Hwd & Hst & _).
  constructor; cbn; by eauto.
Qed.

(** The CMOS grab on a rig with the invariant: the controller takes the
    new phase, the viewer keeps its axes, nothing is raised. *)
Lemma grab_cmos_run (choice : bool) (g : nat -> nat -> flt) (r : rig) :
  widths_ok (ctrl r) -> is_Some (MockCMOS.axes (cmos r)) ->
  exists cm' o, grab_cmos choice g r = (MkRig (set_phase choice (ctrl r)) cm' (stab r), Ok o) /\
                MockCMOS.axes cm' = MockCMOS.axes (cmos r).
Proof.
  intros Hw [[xa ya] Hax].
  destruct (pair_of_widths (MockCMOS.gas_off (MockCMOS.settings_of (cmos r))) (ctrl r) Hw) as [H1 H2].
  unfold grab_cmos.
  rewrite (MockCMOS.cmos_grab_data_run choice g _ (ctrl r)) by (done || cbn; congruence).
  unfold MockCMOS.cmos_dfps. cbn [MockCMOS.axes MockCMOS.with_controller MockCMOS.controller default].
  rewrite Hax. destruct (negb _); cbn [rbind]; eexists _, _; split; [reflexivity|done| reflexivity|done].
Qed.

Lemma grab_stab_run (g : nat -> nat -> flt) (c : sim) (cm : MockCMOS.cmos) (st : MockStab.stabcam) :
  stab_ok c -> is_Some (MockStab.axes st) -> exists o, grab_stab g (MkRig c cm st) = Ok o.
Proof.
  intros Hs [[xa ya] Hax]. unfold grab_stab.
  rewrite (MockStab.stab_grab_data_run g _ c xa ya) by done. by eexists.
Qed.

(** A snap on a rig with the invariant raises nothing and keeps it. *)
Lemma snap_run (cf choice : bool) (gc gs : nat -> nat -> flt) (r : rig) :
  rig_inv r -> exists r' o1 o2, snap cf choice gc gs r = (r', Ok (o1, o2)) /\ rig_inv r'.
Proof.
  intros [Hs Hw Hc Hst].
  destruct (grab_cmos_run choice gc r Hw Hc) as (cm' & o1 & E1 & Hax).
  assert (Hinv : rig_inv (MkRig (set_phase choice (ctrl r)) cm' (stab r))).
  { constructor; cbn; [by apply set_phase_stab_ok|by apply set_phase_widths_ok|by rewrite Hax|done]. }
  destruct (grab_stab_run gs (set_phase choice (ctrl r)) cm' (stab r)) as [o2 E2];
    [by apply set_phase_stab_ok|done|].
  unfold snap. destruct cf.
  - rewrite E1. cbn [rbind]. rewrite E2. by eexists _, _, _.
  - destruct r as [c cm st]. destruct (grab_stab_run gs c cm st Hs Hst) as [o2' E2'].
    rewrite E2', E1. cbn [rbind]. by eexists _, _, _.
Qed.

Lemma rig_step_inv (ev : rig_event) (r : rig) : rig_inv r -> rig_inv (rig_step ev r).1.
Proof.
  intros Hr. destruct ev as [cf choice gc gs|st param|st param]; cbn [rig_step].
  - destruct (snap_run cf choice gc gs r Hr) as (r' & o1 & o2 & -> & Hr'). done.
  - destruct Hr as [Hs Hw Hc Hst]. unfold MockCMOS.commit_settings.
    case_bool_decide; constructor; cbn; done.
  - destruct Hr as [Hs Hw Hc Hst]. unfold MockStab.commit_settings.
    case_bool_decide; constructor; cbn; done.
Qed.

(** ** Every reachable rig *)

(** C30: the invariant holds in every rig the host can reach: the
    controller keeps the constant stabilisation columns of [__init__] and
    spectra of one width, and both viewers keep their axes, through any
    snaps (either grab order, any phase and noise) and any settings edits,
    [commit_settings] raising or not. *)
Theorem reachable_rig_inv (r : rig) : rig_reach r -> rig_inv r.
Proof. induction 1; eauto using ini_rig_inv, rig_step_inv. Qed.

(** ** A run: start-up, an edit to an odd [chunk_size], a snap *)

Definition demo_data : mat := Mat 1 [[Num 1%Q]; [Num 3%Q]].

Definition demo_start : rig :=
  match ini_rig demo_data true MockCMOS.demo_cmos0 MockStab.demo_stab0 with
  | Ok r => r
  | Err _ => demo_rig
  end.

Definition demo_run : rig :=
  (rig_step (ECmosEdit (MockCMOS.Settings 3 10 (Num 0%Q) true true true false) "chunk_size") demo_start).1.

Lemma demo_run_reach : rig_reach demo_run.
Proof.
  apply rr_step. apply (rr_init demo_data true MockCMOS.demo_cmos0 MockStab.demo_stab0).
  - apply mat_wfb_spec. reflexivity.
  - reflexivity.
Qed.

Lemma reachable_rig_inv_witness : rig_inv (rig_step (ESnap false true MockCMOS.demo_noise MockStab.demo_noise) demo_run).1.
Proof. apply reachable_rig_inv. apply rr_step, demo_run_reach. Defined.

End RigRun.
